(** * The Meshtastic device session: [IMeshDevice] and [IHTTPConnection]

    A shallow embedding of [src/iMeshDevice.ts] (the abstract device: request
    construction, the send path, the configuration handshake and the inbound
    dispatcher) and of the HTTP transport built on it ([IHTTPConnection]).

    Integers are [Z], byte arrays ([Uint8Array]) are [list Byte.byte],
    strings are [string]; the number [Math.random()] returns is a binary64
    number, taken as the rational it denotes, and its product is rounded as
    binary64 arithmetic rounds it ([Binary64]).  A method is a function from
    the object's fields to a completion (normal return or exception), the new
    fields and the list of effects it performed, in program order: console
    entries, emissions on the [SubEvent]s, calls on the queue, frames handed
    to [writeToRadio], timers.

    The generated protobuf messages, the wire codec, the send queue class and
    the constants module are imported by the sources and enter as interfaces
    ([Schema], [Codec], [Environment], [QueueOps]); the properties hold for
    every implementation of them.

    [writeToRadio] is abstract in [IMeshDevice].  A frame the queue hands to
    it is recorded as an effect; what a transport does on its side of the
    call (status updates of its own, reading inbound frames) reaches the
    device through [updateDeviceStatus] and [handleFromRadio], which are
    calls of their own here: one method runs to its end before the next
    starts.  A callback supplied by the application is recorded when it is
    invoked; what it does is the application's. *)

From Stdlib Require Import ZArith List String Bool Lia QArith Qround.
From Stdlib Require Import DecimalString.
Import ListNotations.

Local Open Scope Z_scope.
Local Open Scope string_scope.
Local Open Scope list_scope.

(** [Uint8Array] *)
Definition bytes : Type := list Byte.byte.

(** ** Enumerations *)

(** Modelled from the spec: [Types.DeviceStatusEnum] is declared in
    [types.ts], which is not among the sources.  The spec lists the lifecycle
    stages Disconnected, Connecting, Reconnecting, Connected, Configuring,
    Configured; the constructors carry the names the code uses for them. *)
Inductive DeviceStatusEnum : Type :=
| DEVICE_DISCONNECTED
| DEVICE_CONNECTING
| DEVICE_RECONNECTING
| DEVICE_CONNECTED
| DEVICE_CONFIGURING
| DEVICE_CONFIGURED.

(** [status !== this.deviceStatus] is decided by [DeviceStatusEnum_eqb]. *)
Definition DeviceStatusEnum_eqb (a b : DeviceStatusEnum) : bool :=
  match a, b with
  | DEVICE_DISCONNECTED, DEVICE_DISCONNECTED
  | DEVICE_CONNECTING, DEVICE_CONNECTING
  | DEVICE_RECONNECTING, DEVICE_RECONNECTING
  | DEVICE_CONNECTED, DEVICE_CONNECTED
  | DEVICE_CONFIGURING, DEVICE_CONFIGURING
  | DEVICE_CONFIGURED, DEVICE_CONFIGURED => true
  | _, _ => false
  end.

(** The levels of [LogRecord_Level] that the sources name. *)
Inductive LogRecord_Level : Type :=
| CRITICAL | ERROR | WARNING | DEBUG | TRACE.

(** [Types.EmitterScope] *)
Inductive EmitterScope : Type :=
| iMeshDevice | iHttpConnection.

(** [Types.Emitter]: the method a log entry comes from. *)
Module Emitter.
Inductive t : Type :=
| sendText | sendLocation | sendPacket | sendRaw
| getChannel | getAllChannels | configure
| handleFromRadio | handleMeshPacket
| connect | ping.
End Emitter.

(** [PortNum] of [generated/portnums.ts]: the port numbers the dispatcher
    names, and [PortNum_unlisted] for every other number, whether the
    generated enum has a member for it or not. *)
Inductive PortNum : Type :=
| UNKNOWN_APP
| TEXT_MESSAGE_APP
| REMOTE_HARDWARE_APP
| POSITION_APP
| NODEINFO_APP
| ROUTING_APP
| ADMIN_APP
| REPLY_APP
| IP_TUNNEL_APP
| SERIAL_APP
| STORE_FORWARD_APP
| RANGE_TEST_APP
| TELEMETRY_APP
| PRIVATE_APP
| ATAK_FORWARDER
| PortNum_unlisted (n : Z).

(** A number inside a template literal. *)
Definition show (n : Z) : string := NilZero.string_of_int (Z.to_int n).

(** ** Protobuf messages *)

(** The generated message types the session only passes along. *)
Class Schema : Type := {
  Location : Type;
  Position : Type;
  User : Type;
  Channel : Type;
  Config : Type;
  ModuleConfig : Type;
  LogRecord : Type;
  Routing : Type;
  HardwareMessage : Type;
  Telemetry : Type
}.

Module Data.
Record t `{Schema} : Type := create {
  payload : bytes;
  portnum : PortNum;
  wantResponse : bool;
  location : option Location;
  emoji : Z;
  replyId : Z;
  dest : Z;
  requestId : Z;
  source : Z
}.
End Data.

Module MeshPacket.
(** [payloadVariant], a oneof *)
Inductive variant `{Schema} : Type :=
| decoded (d : Data.t)
| encrypted (e : bytes)
| unset.

Record t `{Schema} : Type := make {
  from : Z;
  to : Z;
  id : Z;
  wantAck : bool;
  channel : Z;
  payloadVariant : variant
}.

(** [MeshPacket.create({ id })] and [MeshPacket.create({ id, from })]: the
    fields left out take the protobuf defaults. *)
Definition create_id `{Schema} (i : Z) : t :=
  {| from := 0; to := 0; id := i; wantAck := false; channel := 0;
     payloadVariant := unset |}.
Definition create_id_from `{Schema} (i f : Z) : t :=
  {| from := f; to := 0; id := i; wantAck := false; channel := 0;
     payloadVariant := unset |}.
End MeshPacket.

Module MyNodeInfo.
Record t : Type := make {
  myNodeNum : Z;
  maxChannels : Z;
  firmwareVersion : string
}.
(** [MyNodeInfo.create()] *)
Definition create : t :=
  {| myNodeNum := 0; maxChannels := 0; firmwareVersion := "" |}.
End MyNodeInfo.

Module NodeInfo.
Record t `{Schema} : Type := make {
  num : Z;
  user : option User;
  position : option Position
}.
End NodeInfo.

Module PeerInfo.
Record t : Type := make { appVersion : Z; mqttGateway : bool }.
End PeerInfo.

Module ToRadio.
(** [payloadVariant] of a [ToRadio] message *)
Inductive t `{Schema} : Type :=
| packet (p : MeshPacket.t)
| wantConfigId (n : Z)
| peerInfo (p : PeerInfo.t).
End ToRadio.

Module FromRadio.
Inductive variant `{Schema} : Type :=
| packet (p : MeshPacket.t)
| myInfo (i : MyNodeInfo.t)
| nodeInfo (n : NodeInfo.t)
| config (c : Config)
| logRecord (l : LogRecord)
| configCompleteId (n : Z)
| rebooted (b : bool)
| moduleConfig (c : ModuleConfig)
| unset.

Record t `{Schema} : Type := make {
  id : Z;
  payloadVariant : variant
}.
End FromRadio.

Module AdminMessage.
(** [variant] of an [AdminMessage]: the request built by [getChannel], the
    four responses the dispatcher routes, and the remaining kinds. *)
Inductive t `{Schema} : Type :=
| getChannelRequest (n : Z)
| getChannelResponse (c : Channel)
| getOwnerResponse (u : User)
| getConfigResponse (c : Config)
| getModuleConfigResponse (c : ModuleConfig)
| other.
End AdminMessage.

(** ** Numbers of the runtime *)

(** A JavaScript number is an IEEE 754 binary64 number.  The finite ones
    are taken as the rationals they denote, and the rounding of an
    arithmetic result is written out: to the nearest number with 53
    significant bits and no place below [2 ^ -1074], to the one with an even
    significand on a tie.  Infinities and NaN are not modelled: a result
    of [2 ^ 1024] or more, an infinity in the runtime, is out of the range
    this rounding is meant for. *)
Module Binary64.
(** whether [2 ^ k <= a / b], for positive [a] and [b] *)
Definition reaches (a b k : Z) : bool :=
  (if 0 <=? k then b * 2 ^ k <=? a else b <=? a * 2 ^ (- k))%Z.

(** the [k] with [2 ^ k <= a / b < 2 ^ (k + 1)], for positive [a] and [b] *)
Definition magnitude (a b : Z) : Z :=
  let d := (Z.log2 a - Z.log2 b)%Z in
  if reaches a b d then d else (d - 1)%Z.

(** the exponent of the last place of a number of that magnitude *)
Definition exponent (a b : Z) : Z := Z.max (magnitude a b - 52) (-1074).

(** [n / d] rounded to the nearest integer, to the even one on a tie, for
    [0 <= n] and [0 < d] *)
Definition nearest_even (n d : Z) : Z :=
  let f := (n / d)%Z in
  match (2 * (n mod d) ?= d)%Z with
  | Lt => f
  | Gt => (f + 1)%Z
  | Eq => if Z.even f then f else (f + 1)%Z
  end.

(** the significand of [a / b] at exponent [e] *)
Definition significand (a b e : Z) : Z :=
  (if 0 <=? e then nearest_even a (b * 2 ^ e)
   else nearest_even (a * 2 ^ (- e)) b)%Z.

(** [m * 2 ^ e] *)
Definition scale (m e : Z) : Q :=
  if (0 <=? e)%Z then inject_Z (m * 2 ^ e) else m # Z.to_pos (2 ^ (- e)).

Definition round_positive (a b : Z) : Q :=
  let e := exponent a b in scale (significand a b e) e.

(** The binary64 number nearest to [q]. *)
Definition round (q : Q) : Q :=
  match Qnum q with
  | Z0 => 0
  | Zpos a => round_positive (Zpos a) (Zpos (Qden q))
  | Zneg a => - round_positive (Zpos a) (Zpos (Qden q))
  end%Q.

(** Whether [q] is a binary64 number. *)
Definition representable (q : Q) : bool := Qeq_bool (round q) q.
End Binary64.

(** ** Collaborators *)

(** The wire codec ([toBinary] / [fromBinary] of the generated messages) and
    the platform's [TextEncoder] and [TextDecoder].  A [fromBinary] that
    returns [None] throws. *)
Class Codec `{Schema} : Type := {
  ToRadio_toBinary : ToRadio.t -> bytes;
  FromRadio_fromBinary : bytes -> option FromRadio.t;
  AdminMessage_toBinary : AdminMessage.t -> bytes;
  AdminMessage_fromBinary : bytes -> option AdminMessage.t;
  HardwareMessage_fromBinary : bytes -> option HardwareMessage;
  Position_fromBinary : bytes -> option Position;
  User_fromBinary : bytes -> option User;
  Routing_fromBinary : bytes -> option Routing;
  Telemetry_fromBinary : bytes -> option Telemetry;
  TextEncoder_encode : string -> bytes;
  TextDecoder_decode : bytes -> string
}.

(** [constants.ts] and the JavaScript runtime. *)
Class Environment : Type := {
  (** the broadcast destination *)
  BROADCAST_NUM : Z;
  (** [parseFloat(firmwareVersion) < MIN_FW_VERSION] *)
  firmwareOutdated : string -> bool;
  (** the text of [MIN_FW_VERSION] in a template literal *)
  MIN_FW_VERSION_text : string;
  (** the value returned by the n-th call of [Math.random()], a binary64
      number *)
  Math_random : nat -> Q;
  (** [PortNum[n]] for a number the dispatcher does not name: the name of
      the member the generated enum has for it, if it has one *)
  PortNum_reverse : Z -> option string
}.

(** [PortNum[portNum] ?? "Unknown"]: the reverse mapping of the enum. *)
Definition PortNum_name `{Environment} (p : PortNum) : string :=
  match p with
  | UNKNOWN_APP => "UNKNOWN_APP"
  | TEXT_MESSAGE_APP => "TEXT_MESSAGE_APP"
  | REMOTE_HARDWARE_APP => "REMOTE_HARDWARE_APP"
  | POSITION_APP => "POSITION_APP"
  | NODEINFO_APP => "NODEINFO_APP"
  | ROUTING_APP => "ROUTING_APP"
  | ADMIN_APP => "ADMIN_APP"
  | REPLY_APP => "REPLY_APP"
  | IP_TUNNEL_APP => "IP_TUNNEL_APP"
  | SERIAL_APP => "SERIAL_APP"
  | STORE_FORWARD_APP => "STORE_FORWARD_APP"
  | RANGE_TEST_APP => "RANGE_TEST_APP"
  | TELEMETRY_APP => "TELEMETRY_APP"
  | PRIVATE_APP => "PRIVATE_APP"
  | ATAK_FORWARDER => "ATAK_FORWARDER"
  | PortNum_unlisted n =>
      match PortNum_reverse n with
      | Some name => name
      | None => "Unknown"
      end
  end.

(** A function passed as [callback]: either one that only resolves (the
    default of [sendRaw], the closures of [getAllChannels] and of the
    handshake), or a function supplied by the application. *)
Inductive Callback : Type :=
| resolves
| application (handle : nat).

Module IQueueItem.
Record t : Type := make {
  id : Z;
  data : bytes;
  callback : Callback;
  waitingAck : bool
}.
End IQueueItem.

(** [utils/queue.ts], the send queue, as the device uses it.
    [processQueue] is given the sender [async (data) => writeToRadio(data)]
    and returns the frames it passed to it, in order; [processAck] returns the
    callbacks it invoked, each with its argument. *)
Class QueueOps : Type := {
  Queue : Type;
  Queue_new : Queue;
  Queue_push : IQueueItem.t -> Queue -> Queue;
  Queue_processQueue : Queue -> Queue * list bytes;
  Queue_processAck : Z -> Queue -> Queue * list (Callback * Z);
  Queue_clear : Queue -> Queue
}.

(** ** Events and effects *)

Module LogEventPacket.
(** the [date] of a log event is not modelled *)
Record t : Type := make {
  scope : EmitterScope;
  emitter : Emitter.t;
  message : string;
  level : LogRecord_Level;
  packet : option bytes
}.
End LogEventPacket.

(** One constructor per [SubEvent] of the device, with the value emitted on
    it.  The timestamp of [onMeshHeartbeat] is not modelled. *)
Inductive Event `{Schema} : Type :=
| onLogEvent (e : LogEventPacket.t)
| onFromRadio (m : FromRadio.t)
| onMeshPacket (p : MeshPacket.t)
| onMyNodeInfo (i : MyNodeInfo.t)
| onNodeInfoPacket (p : MeshPacket.t) (d : NodeInfo.t)
| onUserPacket (p : MeshPacket.t) (d : User)
| onChannelPacket (p : MeshPacket.t) (d : Channel)
| onConfigPacket (p : MeshPacket.t) (d : Config)
| onModuleConfigPacket (p : MeshPacket.t) (d : ModuleConfig)
| onPingPacket (p : MeshPacket.t) (d : bytes)
| onIpTunnelPacket (p : MeshPacket.t) (d : bytes)
| onSerialPacket (p : MeshPacket.t) (d : bytes)
| onStoreForwardPacket (p : MeshPacket.t) (d : bytes)
| onRangeTestPacket (p : MeshPacket.t) (d : bytes)
| onTelemetryPacket (p : MeshPacket.t) (d : Telemetry)
| onPrivatePacket (p : MeshPacket.t) (d : bytes)
| onAtakPacket (p : MeshPacket.t) (d : bytes)
| onRoutingPacket (p : MeshPacket.t) (d : Routing)
| onPositionPacket (p : MeshPacket.t) (d : Position)
| onTextPacket (p : MeshPacket.t) (d : string)
| onRemoteHardwarePacket (p : MeshPacket.t) (d : HardwareMessage)
| onDeviceStatus (s : DeviceStatusEnum)
| onLogRecord (l : LogRecord)
| onMeshHeartbeat.

(** [HTTPConnectionParameters] of [types.ts], as [connect] reads it. *)
Module HTTPConnectionParameters.
Record t : Type := make {
  address : string;
  tls : option bool;
  receiveBatchRequests : option bool;
  fetchInterval : option Z
}.
End HTTPConnectionParameters.

(** Work handed to [setTimeout]: [() => void this.sendRaw(id, toRadio)] in
    [configure], [() => void this.connect(parameters)] in [connect]. *)
Inductive Deferred : Type :=
| deferred_sendRaw (id : Z) (toRadio : bytes)
| deferred_connect (parameters : HTTPConnectionParameters.t).

(** The timer made by [setInterval(() => this.readFromRadio(), ms)]. *)
Inductive Interval : Type :=
| readFromRadio_every (ms : Z).

(** What a method does to the world outside the object's fields. *)
Inductive Action `{Schema} : Type :=
| Console (scope : EmitterScope) (emitter : Emitter.t) (message : string)
          (level : LogRecord_Level)
| Emit (e : Event)
| QueuePush (item : IQueueItem.t)
| QueueProcessQueue
| QueueProcessAck (id : Z)
| QueueClear
| WriteToRadio (data : bytes)
| Invoke (cb : Callback) (arg : option Z)
| SetTimeout (task : Deferred) (ms : Z)
| SetInterval (timer : Interval)
| ClearInterval (timer : Interval)
| Fetch (url : string)
| Abort
| CancelAll.

(** ** Methods as state transformers *)

(** A method on an object with fields [S]: [None] as result is a thrown
    exception (a rejected promise for an [async] method). *)
Definition M `{Schema} (S A : Type) : Type := S -> option A * S * list Action.

Definition ret `{Schema} {S A} (a : A) : M S A := fun s => (Some a, s, []).

Definition bind `{Schema} {S A B} (m : M S A) (k : A -> M S B) : M S B :=
  fun s =>
    match m s with
    | (Some a, s1, t1) =>
        match k a s1 with
        | (r, s2, t2) => (r, s2, t1 ++ t2)
        end
    | (None, s1, t1) => (None, s1, t1)
    end.

Declare Scope method_scope.
Delimit Scope method_scope with method.
Notation "x <- m ;; k" := (bind m (fun x => k))
  (at level 61, m at next level, right associativity) : method_scope.
Notation "m ;; k" := (bind m (fun _ => k))
  (at level 61, right associativity) : method_scope.
Local Open Scope method_scope.

Definition gets `{Schema} {S A} (f : S -> A) : M S A := fun s => (Some (f s), s, []).
Definition modify `{Schema} {S} (f : S -> S) : M S unit := fun s => (Some tt, f s, []).
Definition perform `{Schema} {S} (a : list Action) : M S unit := fun s => (Some tt, s, a).
Definition throw `{Schema} {S A} : M S A := fun s => (None, s, []).

(** [X.fromBinary(bytes)] *)
Definition decode `{Schema} {S A} (r : option A) : M S A :=
  match r with
  | Some a => ret a
  | None => throw
  end.

(** [if (c) { m }] *)
Definition when `{Schema} {S} (c : bool) (m : M S unit) : M S unit :=
  if c then m else ret tt.

(** [for (const x of xs) { await body(x) }] *)
Fixpoint forEach `{Schema} {S A} (xs : list A) (body : A -> M S unit) : M S unit :=
  match xs with
  | [] => ret tt
  | x :: rest => body x ;; forEach rest body
  end.

(** The projections of a finished call. *)
Definition result `{Schema} {S A} (r : option A * S * list Action) : option A := fst (fst r).
Definition final `{Schema} {S A} (r : option A * S * list Action) : S := snd (fst r).
Definition trace `{Schema} {S A} (r : option A * S * list Action) : list Action := snd r.

(** ** [IMeshDevice] *)

Module IMeshDevice.
Section Device.
Context `{Sch : Schema} `{Cod : !Codec} `{Env : Environment} `{Que : QueueOps}.

(** The fields of the class.  [subscribed] tells whether the two
    subscriptions made by the constructor (on [onDeviceStatus] and on
    [onMyNodeInfo]) are still registered: [complete] cancels every
    subscription.  [randomCalls] counts the calls of [Math.random()]. *)
Record t : Type := make {
  deviceStatus : DeviceStatusEnum;
  isConfigured : bool;
  myNodeInfo : MyNodeInfo.t;
  configId : Z;
  queue : Queue;
  subscribed : bool;
  randomCalls : nat
}.

Definition set_queue (q : Queue) (s : t) : t :=
  {| deviceStatus := deviceStatus s; isConfigured := isConfigured s;
     myNodeInfo := myNodeInfo s; configId := configId s; queue := q;
     subscribed := subscribed s; randomCalls := randomCalls s |}.

Definition set_subscribed (b : bool) (s : t) : t :=
  {| deviceStatus := deviceStatus s; isConfigured := isConfigured s;
     myNodeInfo := myNodeInfo s; configId := configId s; queue := queue s;
     subscribed := b; randomCalls := randomCalls s |}.

Definition set_randomCalls (n : nat) (s : t) : t :=
  {| deviceStatus := deviceStatus s; isConfigured := isConfigured s;
     myNodeInfo := myNodeInfo s; configId := configId s; queue := queue s;
     subscribed := subscribed s; randomCalls := n |}.

(** The subscription on [onDeviceStatus] made by the constructor. *)
Definition onDeviceStatus_subscriber (status : DeviceStatusEnum) (s : t) : t :=
  {| deviceStatus := status;
     isConfigured :=
       match status with
       | DEVICE_CONFIGURED => true
       | DEVICE_CONFIGURING => false
       | _ => isConfigured s
       end;
     myNodeInfo := myNodeInfo s; configId := configId s; queue := queue s;
     subscribed := subscribed s; randomCalls := randomCalls s |}.

(** The subscription on [onMyNodeInfo] made by the constructor. *)
Definition onMyNodeInfo_subscriber (info : MyNodeInfo.t) (s : t) : t :=
  {| deviceStatus := deviceStatus s; isConfigured := isConfigured s;
     myNodeInfo := info; configId := configId s; queue := queue s;
     subscribed := subscribed s; randomCalls := randomCalls s |}.

(** [event.emit(value)]: the call is an effect, and the subscribers the
    constructor registered run synchronously while they are registered. *)
Definition emit (e : Event) : M t unit :=
  fun s =>
    (Some tt,
     if subscribed s then
       match e with
       | onDeviceStatus status => onDeviceStatus_subscriber status s
       | onMyNodeInfo info => onMyNodeInfo_subscriber info s
       | _ => s
       end
     else s,
     [Emit e]).

(** [this.log], assigned in the constructor. *)
Definition log (scope : EmitterScope) (emitter : Emitter.t) (message : string)
    (level : LogRecord_Level) (packet : option bytes) : M t unit :=
  perform [Console scope emitter message level] ;;
  emit (onLogEvent
          {| LogEventPacket.scope := scope; LogEventPacket.emitter := emitter;
             LogEventPacket.message := message; LogEventPacket.level := level;
             LogEventPacket.packet := packet |}).

(** [Math.floor(Math.random() * 1e9)] at the n-th call of [Math.random]:
    the product is the binary64 one, the exact product rounded. *)
Definition randId (n : nat) : Z :=
  Qfloor (Binary64.round (Math_random n * 1000000000)).

Definition generateRandId : M t Z :=
  fun s => (Some (randId (randomCalls s)), set_randomCalls (S (randomCalls s)) s, []).

(** [new IMeshDevice(configId?)]; the state after the constructor and the
    number of [Math.random()] calls made before it. *)
Definition new (configId : option Z) (calls : nat) : t :=
  match configId with
  | Some c =>
      {| deviceStatus := DEVICE_DISCONNECTED; isConfigured := false;
         myNodeInfo := MyNodeInfo.create; configId := c; queue := Queue_new;
         subscribed := true; randomCalls := calls |}
  | None =>
      {| deviceStatus := DEVICE_DISCONNECTED; isConfigured := false;
         myNodeInfo := MyNodeInfo.create;
         configId := randId calls;
         queue := Queue_new; subscribed := true; randomCalls := S calls |}
  end.

(** The calls on [this.queue]. *)
Definition queue_push (item : IQueueItem.t) : M t unit :=
  fun s => (Some tt, set_queue (Queue_push item (queue s)) s, [QueuePush item]).

Definition queue_processQueue : M t unit :=
  fun s =>
    let (q, frames) := Queue_processQueue (queue s) in
    (Some tt, set_queue q s, QueueProcessQueue :: map WriteToRadio frames).

Definition queue_processAck (id : Z) : M t unit :=
  fun s =>
    let (q, called) := Queue_processAck id (queue s) in
    (Some tt, set_queue q s,
     QueueProcessAck id :: map (fun c => Invoke (fst c) (Some (snd c))) called).

Definition queue_clear : M t unit :=
  fun s => (Some tt, set_queue (Queue_clear (queue s)) s, [QueueClear]).

(** [destinationNum ?? "broadcast"] in a template literal *)
Definition show_destination (destinationNum : option Z) : string :=
  match destinationNum with
  | Some d => show d
  | None => "broadcast"
  end.

(** [callback ? "with" : "without"] *)
Definition with_or_without {A} (callback : option A) : string :=
  match callback with
  | Some _ => "with"
  | None => "without"
  end.

Definition updateDeviceStatus (status : DeviceStatusEnum) : M t unit :=
  current <- gets deviceStatus ;;
  when (negb (DeviceStatusEnum_eqb status current))
    (emit (onDeviceStatus status)).

(** The object [sendRaw] passes to [queue.push]. *)
Definition sendRaw_item (id : Z) (toRadio : bytes) (callback : option Callback)
    : IQueueItem.t :=
  {| IQueueItem.id := id;
     IQueueItem.data := toRadio;
     IQueueItem.callback :=
       match callback with
       | Some c => c
       | None => resolves
       end;
     IQueueItem.waitingAck := false |}.

Definition sendRaw (id : Z) (toRadio : bytes) (callback : option Callback)
    : M t unit :=
  if (512 <? List.length toRadio)%nat then
    log iMeshDevice Emitter.sendRaw
      "Message longer than 512 bytes, it will not be sent!" WARNING None
  else
    queue_push (sendRaw_item id toRadio callback) ;;
    queue_processQueue.

(** The second dispatch, on the port number of a decoded packet. *)
Definition handleDataPacket (dataPacket : Data.t) (meshPacket : MeshPacket.t)
    : M t unit :=
  let received (name : string) : M t unit :=
    log iMeshDevice Emitter.handleMeshPacket name TRACE
      (Some (Data.payload dataPacket)) in
  match Data.portnum dataPacket with
  | TEXT_MESSAGE_APP =>
      received "Received onTextPacket" ;;
      emit (onTextPacket meshPacket
              (TextDecoder_decode (Data.payload dataPacket)))
  | REMOTE_HARDWARE_APP =>
      received "Received onRemoteHardwarePacket" ;;
      d <- decode (HardwareMessage_fromBinary (Data.payload dataPacket)) ;;
      emit (onRemoteHardwarePacket meshPacket d)
  | POSITION_APP =>
      received "Received onPositionPacket" ;;
      d <- decode (Position_fromBinary (Data.payload dataPacket)) ;;
      emit (onPositionPacket meshPacket d)
  | NODEINFO_APP =>
      received "Received onUserPacket" ;;
      d <- decode (User_fromBinary (Data.payload dataPacket)) ;;
      emit (onUserPacket meshPacket d)
  | ROUTING_APP =>
      received "Received onRoutingPacket" ;;
      d <- decode (Routing_fromBinary (Data.payload dataPacket)) ;;
      emit (onRoutingPacket meshPacket d)
  | ADMIN_APP =>
      received "Received onAdminPacket" ;;
      adminMessage <- decode (AdminMessage_fromBinary (Data.payload dataPacket)) ;;
      match adminMessage with
      | AdminMessage.getChannelResponse c => emit (onChannelPacket meshPacket c)
      | AdminMessage.getOwnerResponse u => emit (onUserPacket meshPacket u)
      | AdminMessage.getConfigResponse c => emit (onConfigPacket meshPacket c)
      | AdminMessage.getModuleConfigResponse c =>
          emit (onModuleConfigPacket meshPacket c)
      | _ => ret tt
      end
  | REPLY_APP =>
      received "Received onPingPacket" ;;
      emit (onPingPacket meshPacket (Data.payload dataPacket))
  | IP_TUNNEL_APP =>
      received "Received onIpTunnelPacket" ;;
      emit (onIpTunnelPacket meshPacket (Data.payload dataPacket))
  | SERIAL_APP =>
      received "Received onSerialPacket" ;;
      emit (onSerialPacket meshPacket (Data.payload dataPacket))
  | STORE_FORWARD_APP =>
      received "Received onStoreForwardPacket" ;;
      emit (onStoreForwardPacket meshPacket (Data.payload dataPacket))
  | RANGE_TEST_APP =>
      received "Received onRangeTestPacket" ;;
      emit (onRangeTestPacket meshPacket (Data.payload dataPacket))
  | TELEMETRY_APP =>
      received "Received onTelemetryPacket" ;;
      d <- decode (Telemetry_fromBinary (Data.payload dataPacket)) ;;
      emit (onTelemetryPacket meshPacket d)
  | PRIVATE_APP =>
      received "Received onPrivatePacket" ;;
      emit (onPrivatePacket meshPacket (Data.payload dataPacket))
  | ATAK_FORWARDER =>
      received "Received onAtakPacket" ;;
      emit (onAtakPacket meshPacket (Data.payload dataPacket))
  | p =>
      log iMeshDevice Emitter.handleMeshPacket
        ("Unhandled PortNum: " ++ PortNum_name p) WARNING
        (Some (Data.payload dataPacket))
  end.

Definition handleMeshPacket (meshPacket : MeshPacket.t) : M t unit :=
  emit (onMeshPacket meshPacket) ;;
  me <- gets myNodeInfo ;;
  when (negb (MeshPacket.from meshPacket =? MyNodeInfo.myNodeNum me)%Z)
    (emit onMeshHeartbeat) ;;
  match MeshPacket.payloadVariant meshPacket with
  | MeshPacket.decoded d =>
      queue_processAck (Data.requestId d) ;;
      handleDataPacket d meshPacket
  | MeshPacket.encrypted _ =>
      log iMeshDevice Emitter.handleMeshPacket
        "Device received encrypted data packet, ignoring." DEBUG None
  | MeshPacket.unset => ret tt
  end.

(** The parameters that the source defaults ([wantAck = false],
    [channel = 0], [wantResponse = false], [echoResponse = false],
    [emoji = 0], [replyId = 0]) are passed by every caller here. *)
(** [MeshPacket.create({ ... })] in [sendPacket], given
    [this.myNodeInfo.myNodeNum] and the identifier just generated. *)
Definition sendPacket_meshPacket (myNodeNum id : Z) (byteData : bytes)
    (portNum : PortNum) (destinationNum : option Z) (wantAck : bool)
    (channel : Z) (wantResponse : bool) (emoji : Z)
    (location : option Location) (replyId : Z) : MeshPacket.t :=
  {| MeshPacket.payloadVariant :=
       MeshPacket.decoded
         {| Data.payload := byteData;
            Data.portnum := portNum;
            Data.wantResponse := wantResponse;
            Data.location := location;
            Data.emoji := emoji;
            Data.replyId := replyId;
            Data.dest := 0;
            Data.requestId := 0;
            Data.source := 0 |};
     MeshPacket.from := myNodeNum;
     MeshPacket.to :=
       match destinationNum with
       | Some d => if (d =? 0)%Z then BROADCAST_NUM else d
       | None => BROADCAST_NUM
       end;
     MeshPacket.id := id;
     MeshPacket.wantAck := wantAck;
     MeshPacket.channel := channel |}.

Definition sendPacket (byteData : bytes) (portNum : PortNum)
    (destinationNum : option Z) (wantAck : bool) (channel : Z)
    (wantResponse echoResponse : bool) (callback : option Callback)
    (emoji : Z) (location : option Location) (replyId : Z) : M t unit :=
  log iMeshDevice Emitter.sendPacket
    ("Sending " ++ PortNum_name portNum ++ " to "
       ++ show_destination destinationNum) TRACE None ;;
  me <- gets myNodeInfo ;;
  id <- generateRandId ;;
  let meshPacket :=
    sendPacket_meshPacket (MyNodeInfo.myNodeNum me) id byteData portNum
      destinationNum wantAck channel wantResponse emoji location replyId in
  let toRadio := ToRadio_toBinary (ToRadio.packet meshPacket) in
  when echoResponse (handleMeshPacket meshPacket) ;;
  sendRaw (MeshPacket.id meshPacket) toRadio callback.

Definition sendText (text : string) (destinationNum : option Z)
    (wantAck : bool) (channel : Z) (callback : option Callback) : M t unit :=
  log iMeshDevice Emitter.sendText
    ("Sending message to " ++ show_destination destinationNum
       ++ " on channel " ++ show channel) DEBUG None ;;
  sendPacket (TextEncoder_encode text) TEXT_MESSAGE_APP destinationNum
    wantAck channel false true callback 0 None 0.

Definition sendLocation (location : Location) (destinationNum : option Z)
    (wantAck : bool) (channel : Z) (callback : option Callback) : M t unit :=
  log iMeshDevice Emitter.sendLocation
    ("Sending location to " ++ show_destination destinationNum
       ++ " on channel " ++ show channel) DEBUG None ;;
  sendPacket [] TEXT_MESSAGE_APP destinationNum
    wantAck channel false true callback 0 (Some location) 0.

Definition getChannel (index : Z) (callback : option Callback) : M t unit :=
  log iMeshDevice Emitter.getChannel
    ("Requesting Channel: " ++ show index ++ " "
       ++ with_or_without callback ++ " callback") DEBUG None ;;
  let getChannelRequest :=
    AdminMessage_toBinary (AdminMessage.getChannelRequest (index + 1)) in
  me <- gets myNodeInfo ;;
  sendPacket getChannelRequest ADMIN_APP (Some (MyNodeInfo.myNodeNum me))
    true 0 true false callback 0 None 0.

(** The values of [i] in [for (let i = 0; i <= maxChannels; i++)]. *)
Definition indices (maxChannels : Z) : list Z :=
  map Z.of_nat (seq 0 (Z.to_nat (maxChannels + 1))).

(** Each [queue[i]] is a function that only resolves; [Promise.all] over
    the array of functions settles at once.  Nothing in the loop body
    assigns [myNodeInfo], so the bound is read once. *)
Definition getAllChannels (callback : option Callback) : M t unit :=
  log iMeshDevice Emitter.getAllChannels
    ("Requesting all Channels " ++ with_or_without callback ++ " callback")
    DEBUG None ;;
  me <- gets myNodeInfo ;;
  forEach (indices (MyNodeInfo.maxChannels me))
    (fun i => getChannel i (Some resolves)) ;;
  match callback with
  | Some c => perform [Invoke c None]
  | None => ret tt
  end.

Definition configure : M t unit :=
  log iMeshDevice Emitter.configure "Reading device configuration" DEBUG None ;;
  updateDeviceStatus DEVICE_CONFIGURING ;;
  c <- gets configId ;;
  let toRadio := ToRadio_toBinary (ToRadio.wantConfigId c) in
  perform [SetTimeout (deferred_sendRaw 0 toRadio) 500].

(** The first dispatch, on the kind of the frame. *)
Definition handleFromRadio (fromRadio : bytes) : M t unit :=
  decodedMessage <- decode (FromRadio_fromBinary fromRadio) ;;
  emit (onFromRadio decodedMessage) ;;
  match FromRadio.payloadVariant decodedMessage with
  | FromRadio.packet p => handleMeshPacket p
  | FromRadio.myInfo info =>
      when (firmwareOutdated (MyNodeInfo.firmwareVersion info))
        (log iMeshDevice Emitter.handleFromRadio
           ("Device firmware outdated. Min supported: " ++ MIN_FW_VERSION_text
              ++ " got : " ++ MyNodeInfo.firmwareVersion info)
           CRITICAL None) ;;
      emit (onMyNodeInfo info) ;;
      log iMeshDevice Emitter.handleFromRadio "Received onMyNodeInfo" TRACE None
  | FromRadio.nodeInfo info =>
      log iMeshDevice Emitter.handleFromRadio "Received onNodeInfoPacket"
        TRACE None ;;
      emit (onNodeInfoPacket
              (MeshPacket.create_id (FromRadio.id decodedMessage)) info) ;;
      match NodeInfo.position info with
      | Some position =>
          emit (onPositionPacket
                  (MeshPacket.create_id_from (FromRadio.id decodedMessage)
                     (NodeInfo.num info))
                  position)
      | None => ret tt
      end ;;
      match NodeInfo.user info with
      | Some user =>
          emit (onUserPacket
                  (MeshPacket.create_id_from (FromRadio.id decodedMessage)
                     (NodeInfo.num info))
                  user)
      | None => ret tt
      end
  | FromRadio.config c =>
      log iMeshDevice Emitter.handleFromRadio "Received onConfigPacket"
        TRACE None ;;
      emit (onConfigPacket
              (MeshPacket.create_id (FromRadio.id decodedMessage)) c)
  | FromRadio.logRecord l =>
      log iMeshDevice Emitter.handleFromRadio "Received onLogRecord"
        TRACE None ;;
      emit (onLogRecord l)
  | FromRadio.configCompleteId configCompleteId =>
      expected <- gets configId ;;
      when (negb (configCompleteId =? expected)%Z)
        (log iMeshDevice Emitter.handleFromRadio
           ("Invalid config id reveived from device, exptected "
              ++ show expected ++ " but received " ++ show configCompleteId)
           ERROR None) ;;
      sendRaw 0
        (ToRadio_toBinary
           (ToRadio.peerInfo
              {| PeerInfo.appVersion := 1; PeerInfo.mqttGateway := false |}))
        None ;;
      getAllChannels (Some resolves) ;;
      updateDeviceStatus DEVICE_CONFIGURED
  | FromRadio.rebooted _ => configure
  | FromRadio.moduleConfig c =>
      log iMeshDevice Emitter.handleFromRadio "Received onModuleConfigPacket"
        TRACE None ;;
      emit (onModuleConfigPacket
              (MeshPacket.create_id (FromRadio.id decodedMessage)) c)
  | FromRadio.unset => ret tt
  end.

(** [cancelAll()] on each of the device's [SubEvent]s, then
    [this.queue.clear()]. *)
Definition complete : M t unit :=
  perform [CancelAll] ;;
  modify (set_subscribed false) ;;
  queue_clear.

(** The timer set by [configure] fires. *)
Definition run_deferred_sendRaw (id : Z) (toRadio : bytes) : M t unit :=
  sendRaw id toRadio None.
End Device.
End IMeshDevice.

(** ** [IHTTPConnection], the device over HTTP(S) *)

Module IHTTPConnection.
Section Connection.
Context `{Sch : Schema} `{Cod : !Codec} `{Env : Environment} `{Que : QueueOps}.

(** The fields the subclass adds to [device]; [aborted] is
    [abortController.signal.aborted]. *)
Record t : Type := make {
  device : IMeshDevice.t;
  url : string;
  receiveBatchRequests : bool;
  readLoop : option Interval;
  peningRequest : bool;
  aborted : bool
}.

Definition set_device (d : IMeshDevice.t) (s : t) : t :=
  {| device := d; url := url s;
     receiveBatchRequests := receiveBatchRequests s; readLoop := readLoop s;
     peningRequest := peningRequest s; aborted := aborted s |}.

Definition set_url (u : string) (s : t) : t :=
  {| device := device s; url := u;
     receiveBatchRequests := receiveBatchRequests s; readLoop := readLoop s;
     peningRequest := peningRequest s; aborted := aborted s |}.

Definition set_receiveBatchRequests (b : bool) (s : t) : t :=
  {| device := device s; url := url s;
     receiveBatchRequests := b; readLoop := readLoop s;
     peningRequest := peningRequest s; aborted := aborted s |}.

Definition set_readLoop (r : option Interval) (s : t) : t :=
  {| device := device s; url := url s;
     receiveBatchRequests := receiveBatchRequests s; readLoop := r;
     peningRequest := peningRequest s; aborted := aborted s |}.

Definition set_aborted (b : bool) (s : t) : t :=
  {| device := device s; url := url s;
     receiveBatchRequests := receiveBatchRequests s; readLoop := readLoop s;
     peningRequest := peningRequest s; aborted := b |}.

(** A method inherited from [IMeshDevice]. *)
Definition inherited {A} (m : M IMeshDevice.t A) : M t A :=
  fun s =>
    match m (device s) with
    | (r, d, actions) => (r, set_device d s, actions)
    end.

(** [new IHTTPConnection(configId?)] *)
Definition new (configId : option Z) (calls : nat) : t :=
  {| device := IMeshDevice.new configId calls;
     url := "http://meshtastic.local";
     receiveBatchRequests := false;
     readLoop := None;
     peningRequest := false;
     aborted := false |}.

(** [fetched] is the outcome of the [fetch]: [None] when its promise
    resolves, [Some message] when it rejects with that message. *)
Definition ping (fetched : option string) : M t bool :=
  inherited (IMeshDevice.log iHttpConnection Emitter.ping
               "Attempting device ping." DEBUG None) ;;
  u <- gets url ;;
  perform [Fetch (u ++ "/hotspot-detect.html")] ;;
  match fetched with
  | None =>
      inherited (IMeshDevice.updateDeviceStatus DEVICE_CONNECTED) ;;
      ret true
  | Some message =>
      inherited (IMeshDevice.log iHttpConnection Emitter.ping message ERROR None) ;;
      inherited (IMeshDevice.updateDeviceStatus DEVICE_RECONNECTING) ;;
      ret false
  end.

Definition connect (parameters : HTTPConnectionParameters.t)
    (fetched : option string) : M t unit :=
  inherited (IMeshDevice.updateDeviceStatus DEVICE_CONNECTING) ;;
  modify (set_receiveBatchRequests
            match HTTPConnectionParameters.receiveBatchRequests parameters with
            | Some b => b
            | None => false
            end) ;;
  modify (set_url
            ((match HTTPConnectionParameters.tls parameters with
              | Some true => "https://"
              | _ => "http://"
              end) ++ HTTPConnectionParameters.address parameters)) ;;
  status <- gets (fun s => IMeshDevice.deviceStatus (device s)) ;;
  reached <- (if DeviceStatusEnum_eqb status DEVICE_CONNECTING
              then ping fetched else ret false) ;;
  if reached then
    inherited (IMeshDevice.log iHttpConnection Emitter.connect
                 "Ping succeeded, starting configuration and request timer."
                 DEBUG None) ;;
    inherited IMeshDevice.configure ;;
    let timer :=
      readFromRadio_every
        match HTTPConnectionParameters.fetchInterval parameters with
        | Some ms => if (ms =? 0)%Z then 5000 else ms
        | None => 5000
        end in
    perform [SetInterval timer] ;;
    modify (set_readLoop (Some timer))
  else
    status <- gets (fun s => IMeshDevice.deviceStatus (device s)) ;;
    when (negb (DeviceStatusEnum_eqb status DEVICE_DISCONNECTED))
      (perform
         [SetTimeout
            (deferred_connect
               {| HTTPConnectionParameters.address :=
                    HTTPConnectionParameters.address parameters;
                  HTTPConnectionParameters.fetchInterval :=
                    HTTPConnectionParameters.fetchInterval parameters;
                  HTTPConnectionParameters.receiveBatchRequests :=
                    HTTPConnectionParameters.receiveBatchRequests parameters;
                  HTTPConnectionParameters.tls :=
                    HTTPConnectionParameters.tls parameters |})
            10000]).

(** The same body is in the [HttpConnection] class of the later
    revision of the transport. *)
Definition disconnect : M t unit :=
  perform [Abort] ;;
  modify (set_aborted true) ;;
  inherited (IMeshDevice.updateDeviceStatus DEVICE_DISCONNECTED) ;;
  loop <- gets readLoop ;;
  match loop with
  | Some timer =>
      perform [ClearInterval timer] ;;
      inherited IMeshDevice.complete
  | None => ret tt
  end.
End Connection.
End IHTTPConnection.

(** ** [PortNumEnum] of [protobufs/portnums.ts] *)

Module PortNumEnum.
Inductive t : Type :=
| UNKNOWN_APP | TEXT_MESSAGE_APP | REMOTE_HARDWARE_APP | POSITION_APP
| NODEINFO_APP | ROUTING_APP | ADMIN_APP | REPLY_APP | IP_TUNNEL_APP
| ENVIRONMENTAL_MEASUREMENT_APP | SERIAL_APP | STORE_FORWARD_APP
| RANGE_TEST_APP | PRIVATE_APP | ATAK_FORWARDER | MAX.

(** The members, in the order of their declaration. *)
Definition members : list t :=
  [UNKNOWN_APP; TEXT_MESSAGE_APP; REMOTE_HARDWARE_APP; POSITION_APP;
   NODEINFO_APP; ROUTING_APP; ADMIN_APP; REPLY_APP; IP_TUNNEL_APP;
   ENVIRONMENTAL_MEASUREMENT_APP; SERIAL_APP; STORE_FORWARD_APP;
   RANGE_TEST_APP; PRIVATE_APP; ATAK_FORWARDER; MAX].

(** [PortNumEnum.X]: the number of a member. *)
Definition value (p : t) : Z :=
  match p with
  | UNKNOWN_APP => 0
  | TEXT_MESSAGE_APP => 1
  | REMOTE_HARDWARE_APP => 2
  | POSITION_APP => 3
  | NODEINFO_APP => 4
  | ROUTING_APP => 5
  | ADMIN_APP => 6
  | REPLY_APP => 32
  | IP_TUNNEL_APP => 33
  | ENVIRONMENTAL_MEASUREMENT_APP => 34
  | SERIAL_APP => 64
  | STORE_FORWARD_APP => 65
  | RANGE_TEST_APP => 66
  | PRIVATE_APP => 256
  | ATAK_FORWARDER => 257
  | MAX => 511
  end.

(** [PortNumEnum[n]]: the reverse mapping a numeric TypeScript enum
    carries, [undefined] for a number that is no member's. *)
Definition member (n : Z) : option t :=
  find (fun p => (value p =? n)%Z) members.
End PortNumEnum.

(** ** The send queue of the spec *)

Module SpecQueue.
(** Modelled from the spec: the Send Queue class ([utils/queue.ts]) is not
    among the sources.  The queue is an ordered sequence of items
    [{ id, payload, onAck, awaitingAck }]. *)
Definition t : Type := list IQueueItem.t.

(** Modelled from the spec: [enqueue] appends to the tail of the ordered
    sequence (FIFO).  The 512-byte check that the spec puts in [enqueue]
    is made by [sendRaw] before it calls [push]. *)
Definition push (item : IQueueItem.t) (q : t) : t := q ++ [item].

Definition mark (item : IQueueItem.t) : IQueueItem.t :=
  {| IQueueItem.id := IQueueItem.id item;
     IQueueItem.data := IQueueItem.data item;
     IQueueItem.callback := IQueueItem.callback item;
     IQueueItem.waitingAck := true |}.

(** Modelled from the spec: [drain] takes the head item not yet
    [awaitingAck], sends it, marks it [awaitingAck] and suspends further
    sends until that item is acknowledged; at most one item is
    [awaitingAck] at any time, and an item is destroyed on acknowledgment or
    on [clear] only.  Every item [sendRaw] pushes has a callback for its
    acknowledgment, so every send is gated: a drain sends nothing while an
    item is awaiting, and one frame otherwise. *)
Definition processQueue (q : t) : t * list bytes :=
  if existsb IQueueItem.waitingAck q then (q, [])
  else
    match q with
    | [] => ([], [])
    | item :: rest => (mark item :: rest, [IQueueItem.data item])
    end.

(** Modelled from the spec: [resolveAck(id)] removes the matching item and
    invokes its [onAck] callback; for an id not present it is a no-op. *)
Fixpoint processAck (id : Z) (q : t) : t * list (Callback * Z) :=
  match q with
  | [] => ([], [])
  | item :: rest =>
      if (IQueueItem.id item =? id)%Z then
        (rest, [(IQueueItem.callback item, id)])
      else
        let (rest', called) := processAck id rest in
        (item :: rest', called)
  end.

(** Modelled from the spec: [clear] discards all pending items without
    invoking callbacks. *)
Definition clear (q : t) : t := [].

Definition ops : QueueOps :=
  {| Queue := t;
     Queue_new := [];
     Queue_push := push;
     Queue_processQueue := processQueue;
     Queue_processAck := processAck;
     Queue_clear := clear |}.
End SpecQueue.

(** ** A concrete codec for running the model *)

Module Sample.
(** Every passed-along message is kept as its bytes. *)
Definition schema : Schema :=
  {| Location := bytes; Position := bytes; User := bytes; Channel := bytes;
     Config := bytes; ModuleConfig := bytes; LogRecord := bytes;
     Routing := bytes; HardwareMessage := bytes; Telemetry := bytes |}.
#[local] Existing Instance schema.

Definition byte_of_Z (n : Z) : Byte.byte :=
  match Byte.of_N (Z.to_N (n mod 256)) with
  | Some b => b
  | None => Byte.x00
  end.

Definition Z_of_byte (b : Byte.byte) : Z := Z.of_N (Byte.to_N b).

(** four bytes, most significant first *)
Definition u32 (n : Z) : bytes :=
  [byte_of_Z (n / 16777216); byte_of_Z (n / 65536); byte_of_Z (n / 256);
   byte_of_Z n].

Definition flag (b : bool) : bytes := [if b then Byte.x01 else Byte.x00].

Definition port_code (p : PortNum) : Z :=
  match p with
  | UNKNOWN_APP => 0
  | TEXT_MESSAGE_APP => 1
  | REMOTE_HARDWARE_APP => 2
  | POSITION_APP => 3
  | NODEINFO_APP => 4
  | ROUTING_APP => 5
  | ADMIN_APP => 6
  | REPLY_APP => 32
  | IP_TUNNEL_APP => 33
  | SERIAL_APP => 64
  | STORE_FORWARD_APP => 65
  | RANGE_TEST_APP => 66
  | TELEMETRY_APP => 67
  | PRIVATE_APP => 256
  | ATAK_FORWARDER => 257
  | PortNum_unlisted n => n
  end.

Definition encode_Data (d : Data.t) : bytes :=
  u32 (port_code (Data.portnum d)) ++ flag (Data.wantResponse d)
    ++ u32 (Data.emoji d) ++ u32 (Data.replyId d) ++ u32 (Data.dest d)
    ++ u32 (Data.requestId d) ++ u32 (Data.source d)
    ++ match Data.location d with
       | Some l => Byte.x01 :: u32 (Z.of_nat (List.length l)) ++ l
       | None => [Byte.x00]
       end
    ++ Data.payload d.

Definition encode_MeshPacket (p : MeshPacket.t) : bytes :=
  u32 (MeshPacket.from p) ++ u32 (MeshPacket.to p) ++ u32 (MeshPacket.id p)
    ++ flag (MeshPacket.wantAck p) ++ u32 (MeshPacket.channel p)
    ++ match MeshPacket.payloadVariant p with
       | MeshPacket.decoded d => Byte.x01 :: encode_Data d
       | MeshPacket.encrypted e => Byte.x02 :: e
       | MeshPacket.unset => [Byte.x00]
       end.

Definition encode_ToRadio (m : ToRadio.t) : bytes :=
  match m with
  | ToRadio.packet p => Byte.x01 :: encode_MeshPacket p
  | ToRadio.wantConfigId n => Byte.x02 :: u32 n
  | ToRadio.peerInfo p =>
      Byte.x03 :: u32 (PeerInfo.appVersion p) ++ flag (PeerInfo.mqttGateway p)
  end.

Definition encode_AdminMessage (m : AdminMessage.t) : bytes :=
  match m with
  | AdminMessage.getChannelRequest n => Byte.x01 :: u32 n
  | AdminMessage.getChannelResponse c => Byte.x02 :: c
  | AdminMessage.getOwnerResponse u => Byte.x03 :: u
  | AdminMessage.getConfigResponse c => Byte.x04 :: c
  | AdminMessage.getModuleConfigResponse c => Byte.x05 :: c
  | AdminMessage.other => [Byte.x00]
  end.

Definition decode_AdminMessage (b : bytes) : option AdminMessage.t :=
  match b with
  | Byte.x02 :: c => Some (AdminMessage.getChannelResponse c)
  | Byte.x03 :: u => Some (AdminMessage.getOwnerResponse u)
  | Byte.x04 :: c => Some (AdminMessage.getConfigResponse c)
  | Byte.x05 :: c => Some (AdminMessage.getModuleConfigResponse c)
  | [Byte.x00] => Some AdminMessage.other
  | _ => None
  end.

(** The frames read back here are the two handshake signals; any other
    frame fails to decode. *)
Definition decode_FromRadio (b : bytes) : option FromRadio.t :=
  match b with
  | [Byte.x07; b3; b2; b1; b0] =>
      Some {| FromRadio.id := 0;
              FromRadio.payloadVariant :=
                FromRadio.configCompleteId
                  (Z_of_byte b3 * 16777216 + Z_of_byte b2 * 65536
                     + Z_of_byte b1 * 256 + Z_of_byte b0) |}
  | [Byte.x08] =>
      Some {| FromRadio.id := 0;
              FromRadio.payloadVariant := FromRadio.rebooted true |}
  | _ => None
  end.

Definition codec : Codec :=
  {| ToRadio_toBinary := encode_ToRadio;
     FromRadio_fromBinary := decode_FromRadio;
     AdminMessage_toBinary := encode_AdminMessage;
     AdminMessage_fromBinary := decode_AdminMessage;
     HardwareMessage_fromBinary := Some;
     Position_fromBinary := Some;
     User_fromBinary := Some;
     Routing_fromBinary := Some;
     Telemetry_fromBinary := Some;
     TextEncoder_encode := list_byte_of_string;
     TextDecoder_decode := string_of_list_byte |}.

Definition environment : Environment :=
  {| BROADCAST_NUM := 4294967295;
     firmwareOutdated := fun _ => false;
     MIN_FW_VERSION_text := "1.2";
     (* the binary64 number nearest to (7.5 + n) / 1e9: the identifiers
        drawn are 7, 8, 9, ... *)
     Math_random := fun n => Binary64.round (Z.of_nat (15 + 2 * n) # 2000000000);
     PortNum_reverse := fun n => if (n =? 511)%Z then Some "MAX" else None |}.

#[local] Existing Instance codec.
#[local] Existing Instance environment.
#[local] Existing Instance SpecQueue.ops.

(** A device made with [new IMeshDevice(42)] at node 1000, with the given
    status and queue. *)
Definition device (status : DeviceStatusEnum) (q : SpecQueue.t)
    : IMeshDevice.t :=
  {| IMeshDevice.deviceStatus := status;
     IMeshDevice.isConfigured :=
       DeviceStatusEnum_eqb status DEVICE_CONFIGURED;
     IMeshDevice.myNodeInfo :=
       {| MyNodeInfo.myNodeNum := 1000; MyNodeInfo.maxChannels := 2;
          MyNodeInfo.firmwareVersion := "1.3" |};
     IMeshDevice.configId := 42;
     IMeshDevice.queue := q;
     IMeshDevice.subscribed := true;
     IMeshDevice.randomCalls := 0 |}.

(** A text packet from node 2000 that answers request [requestId]. *)
Definition reply (requestId : Z) : MeshPacket.t :=
  {| MeshPacket.from := 2000; MeshPacket.to := 1000; MeshPacket.id := 77;
     MeshPacket.wantAck := false; MeshPacket.channel := 0;
     MeshPacket.payloadVariant :=
       MeshPacket.decoded
         {| Data.payload := list_byte_of_string "ok";
            Data.portnum := TEXT_MESSAGE_APP;
            Data.wantResponse := false;
            Data.location := None;
            Data.emoji := 0;
            Data.replyId := 0;
            Data.dest := 0;
            Data.requestId := requestId;
            Data.source := 0 |} |}.

(** The want-config request as [configure] queues it: id 0, already sent. *)
Definition wantConfig_item : IQueueItem.t :=
  {| IQueueItem.id := 0;
     IQueueItem.data := encode_ToRadio (ToRadio.wantConfigId 42);
     IQueueItem.callback := resolves;
     IQueueItem.waitingAck := true |}.

Definition parameters : HTTPConnectionParameters.t :=
  {| HTTPConnectionParameters.address := "meshtastic.local";
     HTTPConnectionParameters.tls := None;
     HTTPConnectionParameters.receiveBatchRequests := None;
     HTTPConnectionParameters.fetchInterval := None |}.

(** [new IHTTPConnection(42)], then [sendText("hi", undefined, true, 0, cb)],
    then a [connect] whose ping is rejected: the text is in the queue, no
    read loop was started. *)
Definition unreached : IHTTPConnection.t :=
  final
    (IHTTPConnection.connect parameters (Some "Failed to fetch")
       (final
          (IHTTPConnection.inherited
             (IMeshDevice.sendText "hi" None true 0 (Some (application 1)))
             (IHTTPConnection.new (Some 42) 0)))).

(** The frames of the two handshake signals, and a frame of 513 bytes. *)
Definition rebooted_frame : bytes := [Byte.x08].
Definition configComplete_frame (n : Z) : bytes := Byte.x07 :: u32 n.
Definition oversized : bytes := repeat Byte.x00 513.

(** A text of 600 characters. *)
Definition long_text : string := string_of_list_byte (repeat Byte.x61 600).

(** What [decode_FromRadio] reads from those two frames. *)
Definition rebooted_message : FromRadio.t :=
  {| FromRadio.id := 0; FromRadio.payloadVariant := FromRadio.rebooted true |}.
Definition configComplete_message (n : Z) : FromRadio.t :=
  {| FromRadio.id := 0;
     FromRadio.payloadVariant := FromRadio.configCompleteId n |}.
End Sample.

(** ** Inbound frames *)

Module Inbound.
#[local] Existing Instance Sample.schema.
#[local] Existing Instance SpecQueue.ops.

(** A packet from node 2000 whose payload is encrypted. *)
Definition sealed : MeshPacket.t :=
  {| MeshPacket.from := 2000; MeshPacket.to := 1000; MeshPacket.id := 78;
     MeshPacket.wantAck := false; MeshPacket.channel := 0;
     MeshPacket.payloadVariant := MeshPacket.encrypted [Byte.xff; Byte.x10] |}.

(** The decoded payload of an admin packet that is no admin message, and
    that of a packet on a port the switch has no case for. *)
Definition garbled : Data.t :=
  {| Data.payload := [Byte.x09];
     Data.portnum := ADMIN_APP;
     Data.wantResponse := false;
     Data.location := None;
     Data.emoji := 0;
     Data.replyId := 0;
     Data.dest := 0;
     Data.requestId := 3;
     Data.source := 0 |}.

Definition unlisted : Data.t :=
  {| Data.payload := [Byte.x01];
     Data.portnum := PortNum_unlisted 999;
     Data.wantResponse := false;
     Data.location := None;
     Data.emoji := 0;
     Data.replyId := 0;
     Data.dest := 0;
     Data.requestId := 0;
     Data.source := 0 |}.

(** The admin packet from node 2000 that carries [garbled]. *)
Definition garbled_packet : MeshPacket.t :=
  {| MeshPacket.from := 2000; MeshPacket.to := 1000; MeshPacket.id := 79;
     MeshPacket.wantAck := false; MeshPacket.channel := 0;
     MeshPacket.payloadVariant := MeshPacket.decoded garbled |}.

(** The node info a device reports: node 5, channels 0 to 3, firmware 1.0. *)
Definition reported : MyNodeInfo.t :=
  {| MyNodeInfo.myNodeNum := 5; MyNodeInfo.maxChannels := 3;
     MyNodeInfo.firmwareVersion := "1.0" |}.

(** Node 9 of the mesh, with a user record and no position. *)
Definition neighbour : NodeInfo.t :=
  {| NodeInfo.num := 9; NodeInfo.user := Some [Byte.x55];
     NodeInfo.position := None |}.

(** The frames read back here: a text reply to request 7, the sealed and the
    garbled packet, the reported node info, the neighbour (in frame 11), and
    the two handshake signals of [Sample]. *)
Definition text_message : FromRadio.t :=
  {| FromRadio.id := 0;
     FromRadio.payloadVariant := FromRadio.packet (Sample.reply 7) |}.
Definition sealed_message : FromRadio.t :=
  {| FromRadio.id := 0; FromRadio.payloadVariant := FromRadio.packet sealed |}.
Definition garbled_message : FromRadio.t :=
  {| FromRadio.id := 0;
     FromRadio.payloadVariant := FromRadio.packet garbled_packet |}.
Definition myInfo_message : FromRadio.t :=
  {| FromRadio.id := 0; FromRadio.payloadVariant := FromRadio.myInfo reported |}.
Definition nodeInfo_message : FromRadio.t :=
  {| FromRadio.id := 11;
     FromRadio.payloadVariant := FromRadio.nodeInfo neighbour |}.

Definition decode_FromRadio (b : bytes) : option FromRadio.t :=
  match b with
  | [Byte.x01] => Some text_message
  | [Byte.x02] => Some sealed_message
  | [Byte.x03] => Some myInfo_message
  | [Byte.x04] => Some nodeInfo_message
  | [Byte.x05] => Some garbled_message
  | _ => Sample.decode_FromRadio b
  end.

Definition codec : Codec :=
  {| ToRadio_toBinary := Sample.encode_ToRadio;
     FromRadio_fromBinary := decode_FromRadio;
     AdminMessage_toBinary := Sample.encode_AdminMessage;
     AdminMessage_fromBinary := Sample.decode_AdminMessage;
     HardwareMessage_fromBinary := Some;
     Position_fromBinary := Some;
     User_fromBinary := Some;
     Routing_fromBinary := Some;
     Telemetry_fromBinary := Some;
     TextEncoder_encode := list_byte_of_string;
     TextDecoder_decode := string_of_list_byte |}.

(** A runtime in which firmware 1.0 is older than the minimum. *)
Definition environment : Environment :=
  {| BROADCAST_NUM := 4294967295;
     firmwareOutdated := fun version => String.eqb version "1.0";
     MIN_FW_VERSION_text := "1.2";
     Math_random := fun n => Binary64.round (Z.of_nat (15 + 2 * n) # 2000000000);
     PortNum_reverse := fun n => if (n =? 511)%Z then Some "MAX" else None |}.

(** A runtime whose [Math.random()] returns 0.009, which is the binary64
    number [5188146770730811 * 2 ^ -59]. *)
Definition nine_thousandths : Environment :=
  {| BROADCAST_NUM := 4294967295;
     firmwareOutdated := fun _ => false;
     MIN_FW_VERSION_text := "1.2";
     Math_random := fun _ => 5188146770730811 # 576460752303423488;
     PortNum_reverse := fun _ => None |}.

#[local] Existing Instance codec.
#[local] Existing Instance environment.

(** [new IMeshDevice(42)]: no node info yet. *)
Definition fresh : IMeshDevice.t := IMeshDevice.new (Some 42) 0.

(** A device whose node info reports no channel at all. *)
Definition channelless : IMeshDevice.t :=
  {| IMeshDevice.deviceStatus := DEVICE_CONFIGURING;
     IMeshDevice.isConfigured := false;
     IMeshDevice.myNodeInfo :=
       {| MyNodeInfo.myNodeNum := 5; MyNodeInfo.maxChannels := -1;
          MyNodeInfo.firmwareVersion := "1.3" |};
     IMeshDevice.configId := 42;
     IMeshDevice.queue := [];
     IMeshDevice.subscribed := true;
     IMeshDevice.randomCalls := 0 |}.

(** [new IHTTPConnection(42)], and the same connection once a [connect]
    whose ping resolved has started its read loop. *)
Definition offline : IHTTPConnection.t := IHTTPConnection.new (Some 42) 0.
Definition online : IHTTPConnection.t :=
  final (IHTTPConnection.connect Sample.parameters None offline).
End Inbound.

(** ** Reading a trace *)

Section Observations.
Context `{Sch : Schema} `{Cod : !Codec} `{Env : Environment} `{Que : QueueOps}.

(** The two effects of [this.log]: the console entry and the emission on
    [onLogEvent]. *)
Definition log_effects (scope : EmitterScope) (emitter : Emitter.t)
    (message : string) (level : LogRecord_Level) (packet : option bytes)
    : list Action :=
  [Console scope emitter message level;
   Emit (onLogEvent
           {| LogEventPacket.scope := scope;
              LogEventPacket.emitter := emitter;
              LogEventPacket.message := message;
              LogEventPacket.level := level;
              LogEventPacket.packet := packet |})].

(** The values [f] picks out of a trace, in order. *)
Definition observe {A} (f : Action -> option A) (actions : list Action) : list A :=
  flat_map (fun a => match f a with Some x => [x] | None => [] end) actions.

(** the items handed to [queue.push] *)
Definition pushed : list Action -> list IQueueItem.t :=
  observe (fun a => match a with QueuePush item => Some item | _ => None end).

(** the frames handed to [writeToRadio] *)
Definition written : list Action -> list bytes :=
  observe (fun a => match a with WriteToRadio data => Some data | _ => None end).

(** the identifiers handed to [queue.processAck] *)
Definition acked : list Action -> list Z :=
  observe (fun a => match a with QueueProcessAck id => Some id | _ => None end).

(** the values emitted on [onDeviceStatus] *)
Definition statuses : list Action -> list DeviceStatusEnum :=
  observe (fun a => match a with Emit (onDeviceStatus s) => Some s | _ => None end).

(** the values emitted on [onTextPacket] *)
Definition texts : list Action -> list (MeshPacket.t * string) :=
  observe (fun a => match a with Emit (onTextPacket p d) => Some (p, d) | _ => None end).

(** the packets emitted on [onMeshPacket] *)
Definition meshPackets : list Action -> list MeshPacket.t :=
  observe (fun a => match a with Emit (onMeshPacket p) => Some p | _ => None end).

(** one entry per emission on [onMeshHeartbeat] *)
Definition heartbeats : list Action -> list unit :=
  observe (fun a => match a with Emit onMeshHeartbeat => Some tt | _ => None end).

(** the console entries, as emitter, level and message *)
Definition logged : list Action -> list (Emitter.t * LogRecord_Level * string) :=
  observe (fun a =>
             match a with
             | Console _ emitter message level => Some (emitter, level, message)
             | _ => None
             end).

(** the messages logged by [getChannel] *)
Definition channelRequests : list Action -> list string :=
  observe (fun a =>
             match a with
             | Console _ Emitter.getChannel message _ => Some message
             | _ => None
             end).

(** a console entry or an emission: no call on the queue, the transport
    or a timer *)
Definition is_report (a : Action) : bool :=
  match a with
  | Console _ _ _ _ | Emit _ => true
  | _ => false
  end.

(** the work handed to [setTimeout] *)
Definition timers : list Action -> list (Deferred * Z) :=
  observe (fun a => match a with SetTimeout task ms => Some (task, ms) | _ => None end).

(** The effects of [queue.processAck(id)]: the call, then the callbacks the
    queue invokes. *)
Definition processAck_effects (id : Z) (s : IMeshDevice.t) : list Action :=
  QueueProcessAck id
    :: map (fun c => Invoke (fst c) (Some (snd c)))
         (snd (Queue_processAck id (IMeshDevice.queue s))).

(** The device once [queue.processAck(id)] has returned. *)
Definition after_processAck (id : Z) (s : IMeshDevice.t) : IMeshDevice.t :=
  IMeshDevice.set_queue (fst (Queue_processAck id (IMeshDevice.queue s))) s.

(** What [sendRaw] pushes for a frame: nothing when it is over 512 bytes. *)
Definition queued (id : Z) (frame : bytes) (callback : option Callback)
    : list IQueueItem.t :=
  if (512 <? List.length frame)%nat then []
  else [IMeshDevice.sendRaw_item id frame callback].

(** The frame of an admin request: the packet [sendPacket] builds from the
    arguments every admin method gives it ([PortNum.ADMIN_APP], the device's
    own node number as destination, [wantAck] and [wantResponse] set, channel
    0), encoded as a [ToRadio] message. *)
Definition admin_frame (myNodeNum id : Z) (message : AdminMessage.t) : bytes :=
  ToRadio_toBinary
    (ToRadio.packet
       (IMeshDevice.sendPacket_meshPacket myNodeNum id
          (AdminMessage_toBinary message) ADMIN_APP (Some myNodeNum)
          true 0 true 0 None 0)).
End Observations.

(** ** Reading the dispatcher's trace *)

Section Dispatch.
Context `{Sch : Schema} `{Cod : !Codec} `{Env : Environment} `{Que : QueueOps}.

Definition is_none {A} (o : option A) : bool :=
  match o with
  | Some _ => false
  | None => true
  end.

(** Whether the payload of [d] fails the [fromBinary] that
    [handleDataPacket] applies on the port of [d]; the ports whose payload is
    passed on as bytes or through [TextDecoder] have none. *)
Definition undecodable (d : Data.t) : bool :=
  match Data.portnum d with
  | REMOTE_HARDWARE_APP => is_none (HardwareMessage_fromBinary (Data.payload d))
  | POSITION_APP => is_none (Position_fromBinary (Data.payload d))
  | NODEINFO_APP => is_none (User_fromBinary (Data.payload d))
  | ROUTING_APP => is_none (Routing_fromBinary (Data.payload d))
  | ADMIN_APP => is_none (AdminMessage_fromBinary (Data.payload d))
  | TELEMETRY_APP => is_none (Telemetry_fromBinary (Data.payload d))
  | _ => false
  end.

(** The port numbers that have a case in the switch of
    [handleDataPacket]. *)
Definition handled (p : PortNum) : bool :=
  match p with
  | UNKNOWN_APP | PortNum_unlisted _ => false
  | _ => true
  end.

(** the values emitted on the channels other than [onLogEvent] *)
Definition published : list Action -> list Event :=
  observe (fun a =>
             match a with
             | Emit (onLogEvent _) => None
             | Emit e => Some e
             | _ => None
             end).

(** The mesh packet an event of the port dispatch is stamped with. *)
Definition event_packet (e : Event) : option MeshPacket.t :=
  match e with
  | onUserPacket p _ | onChannelPacket p _ | onConfigPacket p _
  | onModuleConfigPacket p _ | onPingPacket p _ | onIpTunnelPacket p _
  | onSerialPacket p _ | onStoreForwardPacket p _ | onRangeTestPacket p _
  | onTelemetryPacket p _ | onPrivatePacket p _ | onAtakPacket p _
  | onRoutingPacket p _ | onPositionPacket p _ | onTextPacket p _
  | onRemoteHardwarePacket p _ => Some p
  | _ => None
  end.

(** the levels of the console entries *)
Definition levels (actions : list Action) : list LogRecord_Level :=
  map (fun entry => snd (fst entry)) (logged actions).

(** An action of the teardown or of connecting: clearing the queue,
    cancelling the subscriptions, aborting, the fetch of a ping, starting or
    stopping the read loop.  A frame handed to [writeToRadio] is not one of
    them. *)
Definition is_teardown (a : Action) : bool :=
  match a with
  | QueueClear | CancelAll | Abort | Fetch _ | SetInterval _
  | ClearInterval _ => true
  | _ => false
  end.

(** the URLs fetched *)
Definition fetched : list Action -> list string :=
  observe (fun a => match a with Fetch url => Some url | _ => None end).

(** the read loops started *)
Definition intervals : list Action -> list Interval :=
  observe (fun a => match a with SetInterval timer => Some timer | _ => None end).

(** the frames emitted on [onFromRadio] *)
Definition fromRadios : list Action -> list FromRadio.t :=
  observe (fun a => match a with Emit (onFromRadio m) => Some m | _ => None end).

(** An effect of a send: a log entry, a call of [queue.push] or of
    [queue.processQueue], a frame handed to [writeToRadio]. *)
Definition is_send_effect (a : Action) : bool :=
  match a with
  | Console _ _ _ _ | Emit (onLogEvent _) | QueuePush _ | QueueProcessQueue
  | WriteToRadio _ => true
  | _ => false
  end.

(** the callbacks invoked, each with its argument *)
Definition invoked : list Action -> list (Callback * option Z) :=
  observe (fun a => match a with Invoke c arg => Some (c, arg) | _ => None end).

(** An action the inbound dispatch may take after its notification on
    [onFromRadio]: no second notification, no timer, nothing of the
    teardown or of connecting. *)
Definition is_dispatch_effect (a : Action) : bool :=
  match a with
  | Emit (onFromRadio _) | SetTimeout _ _ => false
  | a => negb (is_teardown a)
  end.

(** The timer a frame of kind [rebooted] sets through [configure]. *)
Definition reboot_timer (configId : Z) (m : FromRadio.t) : list Action :=
  match FromRadio.payloadVariant m with
  | FromRadio.rebooted _ =>
      [SetTimeout
         (deferred_sendRaw 0 (ToRadio_toBinary (ToRadio.wantConfigId configId)))
         500]
  | _ => []
  end.

(** Whether the frame carries a mesh packet whose decoded payload fails the
    [fromBinary] of its port. *)
Definition carries_undecodable (m : FromRadio.t) : bool :=
  match FromRadio.payloadVariant m with
  | FromRadio.packet p =>
      match MeshPacket.payloadVariant p with
      | MeshPacket.decoded d => undecodable d
      | _ => false
      end
  | _ => false
  end.

(** The decoded payload [sendPacket] puts in the packet it builds. *)
Definition sendPacket_data (byteData : bytes) (portNum : PortNum)
    (wantResponse : bool) (emoji : Z) (location : option Location)
    (replyId : Z) : Data.t :=
  {| Data.payload := byteData;
     Data.portnum := portNum;
     Data.wantResponse := wantResponse;
     Data.location := location;
     Data.emoji := emoji;
     Data.replyId := replyId;
     Data.dest := 0;
     Data.requestId := 0;
     Data.source := 0 |}.

(** The frame of the peer announcement that answers the completion marker. *)
Definition peerInfo_frame : bytes :=
  ToRadio_toBinary
    (ToRadio.peerInfo
       {| PeerInfo.appVersion := 1; PeerInfo.mqttGateway := false |}).

(** The URL [connect] stores: the scheme chosen by [tls], then the address. *)
Definition connect_url (parameters : HTTPConnectionParameters.t) : string :=
  ((match HTTPConnectionParameters.tls parameters with
    | Some true => "https://"
    | _ => "http://"
    end) ++ HTTPConnectionParameters.address parameters)%string.

(** The read loop [connect] starts: every [fetchInterval] milliseconds, or
    every 5000 when the parameter is absent or 0. *)
Definition connect_timer (parameters : HTTPConnectionParameters.t) : Interval :=
  readFromRadio_every
    match HTTPConnectionParameters.fetchInterval parameters with
    | Some ms => if (ms =? 0)%Z then 5000 else ms
    | None => 5000
    end.

(** the actions of the teardown and of the transport, in order *)
Definition teardowns (actions : list Action) : list Action :=
  filter is_teardown actions.

End Dispatch.

(** ** Properties of the session *)

Section Properties.
Context `{Sch : Schema} `{Cod : !Codec} `{Env : Environment} `{Que : QueueOps}.

(** *** Traces *)

Lemma observe_app {A} (f : Action -> option A) (xs ys : list Action) :
  observe f (xs ++ ys) = observe f xs ++ observe f ys.
Proof. apply flat_map_app. Qed.

Lemma observe_none {A} (f : Action -> option A) (xs : list Action) :
  (forall a, In a xs -> f a = None) -> observe f xs = [].
Proof.
  induction xs as [|a xs IH]; intros Hnone; [reflexivity|].
  unfold observe in *; simpl.
  rewrite (Hnone a (or_introl eq_refl)); simpl.
  apply IH; intros b Hb; apply Hnone; now right.
Qed.

Lemma observe_map_none {A B} (f : Action -> option A) (g : B -> Action)
    (xs : list B) :
  (forall b, f (g b) = None) -> observe f (map g xs) = [].
Proof.
  intros Hnone; apply observe_none; intros a Ha.
  apply in_map_iff in Ha; destruct Ha as [b [<- _]]; apply Hnone.
Qed.

Lemma pushed_app (xs ys : list Action) :
  pushed (xs ++ ys) = pushed xs ++ pushed ys.
Proof. apply observe_app. Qed.

Lemma written_app (xs ys : list Action) :
  written (xs ++ ys) = written xs ++ written ys.
Proof. apply observe_app. Qed.

Lemma acked_app (xs ys : list Action) :
  acked (xs ++ ys) = acked xs ++ acked ys.
Proof. apply observe_app. Qed.

Lemma statuses_app (xs ys : list Action) :
  statuses (xs ++ ys) = statuses xs ++ statuses ys.
Proof. apply observe_app. Qed.

Lemma texts_app (xs ys : list Action) :
  texts (xs ++ ys) = texts xs ++ texts ys.
Proof. apply observe_app. Qed.

Lemma meshPackets_app (xs ys : list Action) :
  meshPackets (xs ++ ys) = meshPackets xs ++ meshPackets ys.
Proof. apply observe_app. Qed.

Lemma heartbeats_app (xs ys : list Action) :
  heartbeats (xs ++ ys) = heartbeats xs ++ heartbeats ys.
Proof. apply observe_app. Qed.

Lemma channelRequests_app (xs ys : list Action) :
  channelRequests (xs ++ ys) = channelRequests xs ++ channelRequests ys.
Proof. apply observe_app. Qed.

Lemma timers_app (xs ys : list Action) :
  timers (xs ++ ys) = timers xs ++ timers ys.
Proof. apply observe_app. Qed.

Lemma DeviceStatusEnum_eqb_spec (a b : DeviceStatusEnum) :
  reflect (a = b) (DeviceStatusEnum_eqb a b).
Proof. destruct a, b; constructor; congruence. Qed.

Lemma DeviceStatusEnum_eqb_refl (a : DeviceStatusEnum) :
  DeviceStatusEnum_eqb a a = true.
Proof. now destruct a. Qed.

(** *** Sequencing *)

Lemma bind_returns {S A B} (m : M S A) (k : A -> M S B) (s s1 : S) a t1 :
  m s = (Some a, s1, t1) ->
  bind m k s = (result (k a s1), final (k a s1), t1 ++ trace (k a s1)).
Proof.
  intros Hm; unfold bind, result, final, trace; rewrite Hm.
  now destruct (k a s1) as [[r s2] t2].
Qed.

Lemma bind_throws {S A B} (m : M S A) (k : A -> M S B) (s s1 : S) t1 :
  m s = (None, s1, t1) -> bind m k s = (None, s1, t1).
Proof. intros Hm; unfold bind; now rewrite Hm. Qed.

Lemma trace_run {S A} (r : option A) (s : S) (t : list Action) :
  trace (r, s, t) = t.
Proof. reflexivity. Qed.

Lemma final_run {S A} (r : option A) (s : S) (t : list Action) :
  final (r, s, t) = s.
Proof. reflexivity. Qed.

Lemma result_run {S A} (r : option A) (s : S) (t : list Action) :
  result (r, s, t) = r.
Proof. reflexivity. Qed.

Lemma run_eta {S A} (r : option A * S * list Action) :
  r = (result r, final r, trace r).
Proof. now destruct r as [[? ?] ?]. Qed.

(** *** The log and the status *)

Lemma log_run scope emitter message level packet (s : IMeshDevice.t) :
  IMeshDevice.log scope emitter message level packet s
  = (Some tt, s, log_effects scope emitter message level packet).
Proof.
  unfold IMeshDevice.log, IMeshDevice.emit, bind, perform.
  now destruct (IMeshDevice.subscribed s).
Qed.

Lemma updateDeviceStatus_run status (s : IMeshDevice.t) :
  IMeshDevice.updateDeviceStatus status s
  = if DeviceStatusEnum_eqb status (IMeshDevice.deviceStatus s)
    then (Some tt, s, [])
    else (Some tt,
          if IMeshDevice.subscribed s
          then IMeshDevice.onDeviceStatus_subscriber status s else s,
          [Emit (onDeviceStatus status)]).
Proof.
  unfold IMeshDevice.updateDeviceStatus, bind, gets, when; simpl.
  now destruct (DeviceStatusEnum_eqb status (IMeshDevice.deviceStatus s)).
Qed.

(** C7. [updateDeviceStatus(status)] emits on [onDeviceStatus] if and only
    if [status] differs from the current [deviceStatus]: its whole trace is
    that single emission or nothing.  Called with the status the device
    already holds it emits nothing and leaves the device as it was; so a
    second call with the same status emits nothing while the constructor's
    status subscription is registered (without the subscription the status
    field never moves, and the second call does what the first did). *)
Theorem updateDeviceStatus_emits_iff_changed
    (status : DeviceStatusEnum) (s : IMeshDevice.t) :
  let r := IMeshDevice.updateDeviceStatus status s in
  (In (Emit (onDeviceStatus status)) (trace r)
   <-> status <> IMeshDevice.deviceStatus s)
  /\ trace r
     = (if DeviceStatusEnum_eqb status (IMeshDevice.deviceStatus s)
        then [] else [Emit (onDeviceStatus status)])
  /\ IMeshDevice.updateDeviceStatus (IMeshDevice.deviceStatus s) s
     = (Some tt, s, [])
  /\ trace (IMeshDevice.updateDeviceStatus status (final r))
     = (if IMeshDevice.subscribed s then [] else trace r).
Proof.
  intros r; subst r.
  rewrite !updateDeviceStatus_run, DeviceStatusEnum_eqb_refl.
  destruct (DeviceStatusEnum_eqb_spec status (IMeshDevice.deviceStatus s))
    as [Heq | Hne]; rewrite ?trace_run, ?final_run.
  - destruct (DeviceStatusEnum_eqb_spec status (IMeshDevice.deviceStatus s))
      as [_ | Hne]; [| now elim Hne].
    rewrite trace_run.
    destruct (IMeshDevice.subscribed s); simpl; repeat split; tauto.
  - destruct (IMeshDevice.subscribed s) eqn:Hsub.
    + cbn [IMeshDevice.onDeviceStatus_subscriber IMeshDevice.deviceStatus].
      rewrite DeviceStatusEnum_eqb_refl, trace_run.
      simpl; repeat split; auto.
    + destruct (DeviceStatusEnum_eqb_spec status (IMeshDevice.deviceStatus s))
        as [Heq | _]; [now elim Hne |].
      rewrite Hsub, trace_run; simpl; repeat split; auto.
Qed.

(** *** The send path *)

Lemma sendRaw_run id toRadio callback (s : IMeshDevice.t) :
  IMeshDevice.sendRaw id toRadio callback s
  = if (512 <? List.length toRadio)%nat
    then (Some tt, s,
          log_effects iMeshDevice Emitter.sendRaw
            "Message longer than 512 bytes, it will not be sent!" WARNING None)
    else
      let item := IMeshDevice.sendRaw_item id toRadio callback in
      let drained :=
        Queue_processQueue (Queue_push item (IMeshDevice.queue s)) in
      (Some tt, IMeshDevice.set_queue (fst drained) s,
       QueuePush item :: QueueProcessQueue :: map WriteToRadio (snd drained)).
Proof.
  unfold IMeshDevice.sendRaw.
  destruct (512 <? List.length toRadio)%nat.
  - apply log_run.
  - unfold bind, IMeshDevice.queue_push, IMeshDevice.queue_processQueue; simpl.
    now destruct (Queue_processQueue _).
Qed.

Lemma pushed_writes (frames : list bytes) :
  pushed (map WriteToRadio frames) = [].
Proof. now apply observe_map_none. Qed.

Lemma written_writes (frames : list bytes) :
  written (map WriteToRadio frames) = frames.
Proof.
  induction frames as [|f frames IH]; [reflexivity|].
  unfold written, observe in *; simpl; now rewrite IH.
Qed.

(** C3. A frame longer than 512 bytes makes [sendRaw] log its warning and
    return normally with the device, queue included, unchanged: nothing is
    pushed and nothing is handed to [writeToRadio].  A frame of at most 512
    bytes is pushed as exactly one item, which carries the identifier given,
    the frame itself, the callback given (one that only resolves when none
    is) and is not yet awaiting its acknowledgment; the queue is then drained
    through [writeToRadio]. *)
Theorem sendRaw_frame_limit
    (id : Z) (toRadio : bytes) (callback : option Callback)
    (s : IMeshDevice.t) :
  ((512 < List.length toRadio)%nat ->
     IMeshDevice.sendRaw id toRadio callback s
     = (Some tt, s,
        log_effects iMeshDevice Emitter.sendRaw
          "Message longer than 512 bytes, it will not be sent!" WARNING None)
     /\ In (Console iMeshDevice Emitter.sendRaw
              "Message longer than 512 bytes, it will not be sent!" WARNING)
           (trace (IMeshDevice.sendRaw id toRadio callback s))
     /\ pushed (trace (IMeshDevice.sendRaw id toRadio callback s)) = []
     /\ written (trace (IMeshDevice.sendRaw id toRadio callback s)) = [])
  /\ ((List.length toRadio <= 512)%nat ->
        let item :=
          {| IQueueItem.id := id;
             IQueueItem.data := toRadio;
             IQueueItem.callback :=
               match callback with
               | Some given => given
               | None => resolves
               end;
             IQueueItem.waitingAck := false |} in
        let drained :=
          Queue_processQueue (Queue_push item (IMeshDevice.queue s)) in
        result (IMeshDevice.sendRaw id toRadio callback s) = Some tt
        /\ pushed (trace (IMeshDevice.sendRaw id toRadio callback s)) = [item]
        /\ IMeshDevice.queue (final (IMeshDevice.sendRaw id toRadio callback s))
           = fst drained
        /\ written (trace (IMeshDevice.sendRaw id toRadio callback s))
           = snd drained).
Proof.
  rewrite sendRaw_run; split; intros Hlen.
  - apply Nat.ltb_lt in Hlen; rewrite Hlen; unfold trace; simpl.
    repeat split; auto.
  - apply Nat.ltb_ge in Hlen; rewrite Hlen; unfold trace, result, final; simpl.
    unfold pushed, written, observe; simpl.
    repeat split; f_equal.
    + apply pushed_writes.
    + apply written_writes.
Qed.

(** *** The inbound dispatcher *)

Lemma emit_passive (e : Event) (s : IMeshDevice.t) :
  match e with
  | onDeviceStatus _ | onMyNodeInfo _ => False
  | _ => True
  end ->
  IMeshDevice.emit e s = (Some tt, s, [Emit e]).
Proof.
  unfold IMeshDevice.emit; destruct (IMeshDevice.subscribed s); [|reflexivity].
  now destruct e.
Qed.

(** The port dispatch only logs and emits, and leaves the device's fields
    as they are. *)
Lemma handleDataPacket_reports (d : Data.t) (p : MeshPacket.t)
    (s : IMeshDevice.t) :
  final (IMeshDevice.handleDataPacket d p s) = s
  /\ forallb is_report (trace (IMeshDevice.handleDataPacket d p s)) = true.
Proof.
  unfold IMeshDevice.handleDataPacket.
  destruct (Data.portnum d);
    repeat first
      [ erewrite bind_returns by apply log_run
      | erewrite bind_returns by (apply emit_passive; exact I)
      | rewrite log_run
      | rewrite emit_passive by exact I
      | match goal with
        | |- context [decode ?r] => destruct r; unfold decode
        | |- context [bind throw] =>
            erewrite bind_throws by (unfold throw; reflexivity)
        | |- context [bind (ret ?a)] =>
            erewrite bind_returns by (unfold ret; reflexivity)
        | |- context [match ?m with AdminMessage.other => _ | _ => _ end] =>
            destruct m
        end ];
    unfold final, trace, ret; simpl; auto.
Qed.

Lemma reports_observe_none {A} (f : Action -> option A) (actions : list Action) :
  (forall a, is_report a = true -> f a = None) ->
  forallb is_report actions = true -> observe f actions = [].
Proof.
  intros Hf Hall; apply observe_none; intros a Ha.
  apply Hf; rewrite forallb_forall in Hall; auto.
Qed.

Lemma reports_silent (actions : list Action) :
  forallb is_report actions = true ->
  acked actions = [] /\ pushed actions = [] /\ written actions = []
  /\ timers actions = [].
Proof.
  intros Hall; repeat split; apply reports_observe_none; auto;
    now intros [].
Qed.

Lemma queue_processAck_run (id : Z) (s : IMeshDevice.t) :
  IMeshDevice.queue_processAck id s
  = (Some tt, after_processAck id s, processAck_effects id s).
Proof.
  unfold IMeshDevice.queue_processAck, after_processAck, processAck_effects.
  now destruct (Queue_processAck id (IMeshDevice.queue s)).
Qed.

Lemma handleMeshPacket_decoded (p : MeshPacket.t) (d : Data.t)
    (s : IMeshDevice.t) :
  MeshPacket.payloadVariant p = MeshPacket.decoded d ->
  IMeshDevice.handleMeshPacket p s
  = (result (IMeshDevice.handleDataPacket d p
               (after_processAck (Data.requestId d) s)),
     after_processAck (Data.requestId d) s,
     Emit (onMeshPacket p)
       :: (if (MeshPacket.from p
               =? MyNodeInfo.myNodeNum (IMeshDevice.myNodeInfo s))%Z
           then [] else [Emit onMeshHeartbeat])
       ++ processAck_effects (Data.requestId d) s
       ++ trace (IMeshDevice.handleDataPacket d p
                   (after_processAck (Data.requestId d) s))).
Proof.
  intros Hd; unfold IMeshDevice.handleMeshPacket; rewrite Hd.
  erewrite bind_returns by (apply emit_passive; exact I).
  erewrite bind_returns by (unfold gets; reflexivity).
  destruct (handleDataPacket_reports d p (after_processAck (Data.requestId d) s))
    as [Hfinal _].
  destruct (MeshPacket.from p =? MyNodeInfo.myNodeNum (IMeshDevice.myNodeInfo s))%Z;
    unfold when; simpl negb; cbv iota.
  - erewrite bind_returns by (unfold ret; reflexivity).
    erewrite bind_returns by apply queue_processAck_run.
    unfold result, final, trace in *; simpl; now rewrite Hfinal.
  - erewrite bind_returns by (apply emit_passive; exact I).
    erewrite bind_returns by apply queue_processAck_run.
    unfold result, final, trace in *; simpl; now rewrite Hfinal.
Qed.

Lemma acked_processAck_effects (id : Z) (s : IMeshDevice.t) :
  acked (processAck_effects id s) = [id].
Proof.
  unfold processAck_effects, acked, observe; simpl; f_equal.
  now apply (observe_map_none
               (fun a => match a with QueueProcessAck i => Some i | _ => None end)).
Qed.

(** C6 (amended). For a decoded packet, whatever its request id (zero
    included), [handleMeshPacket] hands the request id to
    [queue.processAck] exactly once, after the emissions on [onMeshPacket]
    and [onMeshHeartbeat] and before the port dispatch, which itself makes
    no call on the queue. *)
Theorem handleMeshPacket_acks_before_dispatch
    (p : MeshPacket.t) (d : Data.t) (s : IMeshDevice.t) :
  MeshPacket.payloadVariant p = MeshPacket.decoded d ->
  exists before,
    trace (IMeshDevice.handleMeshPacket p s)
    = before
        ++ processAck_effects (Data.requestId d) s
        ++ trace (IMeshDevice.handleDataPacket d p
                    (after_processAck (Data.requestId d) s))
    /\ forallb is_report before = true
    /\ forallb is_report
         (trace (IMeshDevice.handleDataPacket d p
                   (after_processAck (Data.requestId d) s))) = true
    /\ acked (trace (IMeshDevice.handleMeshPacket p s)) = [Data.requestId d].
Proof.
  intros Hd.
  destruct (handleDataPacket_reports d p (after_processAck (Data.requestId d) s))
    as [_ Hreports].
  exists (Emit (onMeshPacket p)
            :: (if (MeshPacket.from p
                    =? MyNodeInfo.myNodeNum (IMeshDevice.myNodeInfo s))%Z
                then [] else [Emit onMeshHeartbeat])).
  rewrite (handleMeshPacket_decoded p d s Hd), !trace_run.
  split; [reflexivity | split; [| split]].
  - now destruct (MeshPacket.from p =? _)%Z.
  - exact Hreports.
  - change (Emit (onMeshPacket p) :: ?l) with ([Emit (onMeshPacket p)] ++ l).
    rewrite !acked_app, acked_processAck_effects.
    rewrite (proj1 (reports_silent _ Hreports)).
    now destruct (MeshPacket.from p =? _)%Z.
Qed.

(** *** What [sendRaw] leaves behind *)

(** Closes [obs actions = []] when [actions] is a few actions followed by a
    mapped list, none of which [obs] picks. *)
Ltac silent :=
  unfold statuses, texts, meshPackets, heartbeats, acked, channelRequests,
    timers, pushed, written;
  apply observe_none;
  let a := fresh "a" in
  let Hin := fresh "Hin" in
  intros a Hin; simpl in Hin;
  repeat (destruct Hin as [<- | Hin]; [reflexivity|]);
  try contradiction;
  apply in_map_iff in Hin; destruct Hin as [? [<- _]]; reflexivity.

Lemma sendRaw_returns id toRadio callback (s : IMeshDevice.t) :
  result (IMeshDevice.sendRaw id toRadio callback s) = Some tt.
Proof. rewrite sendRaw_run; now destruct (512 <? _)%nat. Qed.

Lemma sendRaw_preserves id toRadio callback (s : IMeshDevice.t) :
  let s' := final (IMeshDevice.sendRaw id toRadio callback s) in
  IMeshDevice.deviceStatus s' = IMeshDevice.deviceStatus s
  /\ IMeshDevice.isConfigured s' = IMeshDevice.isConfigured s
  /\ IMeshDevice.myNodeInfo s' = IMeshDevice.myNodeInfo s
  /\ IMeshDevice.configId s' = IMeshDevice.configId s
  /\ IMeshDevice.subscribed s' = IMeshDevice.subscribed s
  /\ IMeshDevice.randomCalls s' = IMeshDevice.randomCalls s.
Proof. rewrite sendRaw_run; now destruct (512 <? _)%nat. Qed.

Lemma sendRaw_pushed id toRadio callback (s : IMeshDevice.t) :
  pushed (trace (IMeshDevice.sendRaw id toRadio callback s))
  = if (512 <? List.length toRadio)%nat then []
    else [IMeshDevice.sendRaw_item id toRadio callback].
Proof.
  rewrite sendRaw_run; destruct (512 <? _)%nat; [reflexivity|].
  cbn zeta; rewrite trace_run.
  unfold pushed, observe; simpl; f_equal; apply pushed_writes.
Qed.

(** [sendRaw] emits on no channel but [onLogEvent], acknowledges nothing
    and sets no timer. *)
Lemma sendRaw_events id toRadio callback (s : IMeshDevice.t) :
  let actions := trace (IMeshDevice.sendRaw id toRadio callback s) in
  statuses actions = [] /\ texts actions = [] /\ meshPackets actions = []
  /\ heartbeats actions = [] /\ acked actions = []
  /\ channelRequests actions = [] /\ timers actions = [].
Proof.
  rewrite sendRaw_run; destruct (512 <? _)%nat; cbn zeta; rewrite trace_run.
  - repeat split.
  - repeat split; silent.
Qed.

Lemma processAck_events (id : Z) (s : IMeshDevice.t) :
  let actions := processAck_effects id s in
  statuses actions = [] /\ texts actions = [] /\ meshPackets actions = []
  /\ heartbeats actions = [] /\ pushed actions = [] /\ written actions = []
  /\ channelRequests actions = [] /\ timers actions = [].
Proof.
  unfold processAck_effects; repeat split; silent.
Qed.

(** *** Building and sending a packet *)

Lemma generateRandId_run (s : IMeshDevice.t) :
  IMeshDevice.generateRandId s
  = (Some (IMeshDevice.randId (IMeshDevice.randomCalls s)),
     IMeshDevice.set_randomCalls (S (IMeshDevice.randomCalls s)) s, []).
Proof. reflexivity. Qed.

(** Without the echo, [sendPacket] logs, draws an identifier and hands the
    encoded packet to [sendRaw]. *)
Lemma sendPacket_plain byteData portNum destinationNum wantAck channel
    wantResponse callback emoji location replyId (s : IMeshDevice.t) :
  let id := IMeshDevice.randId (IMeshDevice.randomCalls s) in
  let sent :=
    IMeshDevice.sendRaw id
      (ToRadio_toBinary
         (ToRadio.packet
            (IMeshDevice.sendPacket_meshPacket
               (MyNodeInfo.myNodeNum (IMeshDevice.myNodeInfo s)) id byteData
               portNum destinationNum wantAck channel wantResponse emoji
               location replyId)))
      callback
      (IMeshDevice.set_randomCalls (S (IMeshDevice.randomCalls s)) s) in
  IMeshDevice.sendPacket byteData portNum destinationNum wantAck channel
    wantResponse false callback emoji location replyId s
  = (Some tt, final sent,
     log_effects iMeshDevice Emitter.sendPacket
       ("Sending " ++ PortNum_name portNum ++ " to "
          ++ IMeshDevice.show_destination destinationNum) TRACE None
       ++ trace sent).
Proof.
  intros id sent; unfold IMeshDevice.sendPacket.
  erewrite bind_returns by apply log_run.
  erewrite bind_returns by (unfold gets; reflexivity).
  erewrite bind_returns by apply generateRandId_run.
  unfold when.
  erewrite bind_returns by (unfold ret; reflexivity).
  rewrite !result_run, !final_run, !trace_run, sendRaw_returns.
  reflexivity.
Qed.

(** *** Channel requests *)

Lemma getChannel_run (index : Z) (callback : option Callback)
    (s : IMeshDevice.t) :
  let me := MyNodeInfo.myNodeNum (IMeshDevice.myNodeInfo s) in
  let id := IMeshDevice.randId (IMeshDevice.randomCalls s) in
  let sent :=
    IMeshDevice.sendRaw id
      (admin_frame me id (AdminMessage.getChannelRequest (index + 1)))
      callback
      (IMeshDevice.set_randomCalls (S (IMeshDevice.randomCalls s)) s) in
  IMeshDevice.getChannel index callback s
  = (Some tt, final sent,
     log_effects iMeshDevice Emitter.getChannel
       ("Requesting Channel: " ++ show index ++ " "
          ++ IMeshDevice.with_or_without callback ++ " callback")%string
       DEBUG None
       ++ log_effects iMeshDevice Emitter.sendPacket
            ("Sending " ++ PortNum_name ADMIN_APP ++ " to "
               ++ IMeshDevice.show_destination (Some me))%string TRACE None
       ++ trace sent).
Proof.
  intros me id sent; unfold IMeshDevice.getChannel.
  erewrite bind_returns by apply log_run.
  erewrite bind_returns by (unfold gets; reflexivity).
  rewrite sendPacket_plain, !result_run, !final_run, !trace_run.
  reflexivity.
Qed.

Lemma flat_map_shift {A} (f : nat -> list A) (n : nat) :
  flat_map f (seq 1 n) = flat_map (fun k => f (S k)) (seq 0 n).
Proof.
  rewrite <- seq_shift.
  induction (seq 0 n) as [|k l IH]; simpl; [reflexivity | now rewrite IH].
Qed.

(** The loop of [getAllChannels] over the indices [a], [a + 1], ...: one
    random draw per index, the node info untouched, one log line and at most
    one pushed item per index. *)
Lemma forEach_getChannel (n a : nat) (s : IMeshDevice.t) :
  let me := MyNodeInfo.myNodeNum (IMeshDevice.myNodeInfo s) in
  let r :=
    forEach (map Z.of_nat (seq a n))
      (fun i => IMeshDevice.getChannel i (Some resolves)) s in
  result r = Some tt
  /\ IMeshDevice.deviceStatus (final r) = IMeshDevice.deviceStatus s
  /\ IMeshDevice.isConfigured (final r) = IMeshDevice.isConfigured s
  /\ IMeshDevice.myNodeInfo (final r) = IMeshDevice.myNodeInfo s
  /\ IMeshDevice.configId (final r) = IMeshDevice.configId s
  /\ IMeshDevice.subscribed (final r) = IMeshDevice.subscribed s
  /\ IMeshDevice.randomCalls (final r) = (IMeshDevice.randomCalls s + n)%nat
  /\ statuses (trace r) = []
  /\ channelRequests (trace r)
     = map (fun k =>
              ("Requesting Channel: " ++ show (Z.of_nat (a + k))
                 ++ " with callback")%string)
         (seq 0 n)
  /\ pushed (trace r)
     = flat_map
         (fun k =>
            let id := IMeshDevice.randId (IMeshDevice.randomCalls s + k) in
            queued id
              (admin_frame me id
                 (AdminMessage.getChannelRequest (Z.of_nat (a + k) + 1)))
              (Some resolves))
         (seq 0 n).
Proof.
  revert a s; induction n as [|n IH]; intros a s me r.
  - subst r; cbn; rewrite Nat.add_0_r; repeat split.
  - subst r; cbn [seq map forEach].
    erewrite bind_returns by apply getChannel_run.
    rewrite result_run, final_run, trace_run.
    set (sent := IMeshDevice.sendRaw _ _ _ _).
    destruct (sendRaw_preserves _ _ _ _ : let s' := final sent in _)
      as (Hst & Hic & Hmi & Hci & Hsu & Hrc).
    destruct (sendRaw_events _ _ _ _ : let actions := trace sent in _)
      as (Hstatus & _ & _ & _ & _ & Hreq & _).
    pose proof (sendRaw_pushed _ _ _ _ : pushed (trace sent) = _) as Hpush.
    cbn [IMeshDevice.set_randomCalls IMeshDevice.deviceStatus
           IMeshDevice.isConfigured IMeshDevice.myNodeInfo IMeshDevice.configId
           IMeshDevice.subscribed IMeshDevice.randomCalls] in *.
    destruct (IH (S a) (final sent))
      as (Hr & Hst' & Hic' & Hmi' & Hci' & Hsu' & Hrc' & Hstatus' & Hreq' & Hpush').
    rewrite Hmi in Hpush'; rewrite Hrc in Hrc', Hpush'.
    repeat split; try congruence.
    + rewrite Hrc'; lia.
    + rewrite !statuses_app, Hstatus, Hstatus'; reflexivity.
    + rewrite !channelRequests_app, Hreq, Hreq'.
      cbn [seq map]; rewrite Nat.add_0_r, <- seq_shift, map_map.
      cbn [log_effects channelRequests observe flat_map app
             IMeshDevice.with_or_without].
      f_equal; apply map_ext; intros k; now rewrite Nat.add_succ_r.
    + rewrite !pushed_app, Hpush, Hpush'.
      cbn [seq flat_map]; rewrite flat_map_shift, !Nat.add_0_r.
      cbn [log_effects pushed observe flat_map app].
      f_equal; apply flat_map_ext; intros k.
      now rewrite !Nat.add_succ_r.
Qed.

Lemma getAllChannels_run (callback : option Callback) (s : IMeshDevice.t) :
  let me := MyNodeInfo.myNodeNum (IMeshDevice.myNodeInfo s) in
  let count := Z.to_nat (MyNodeInfo.maxChannels (IMeshDevice.myNodeInfo s) + 1) in
  let r := IMeshDevice.getAllChannels callback s in
  result r = Some tt
  /\ IMeshDevice.deviceStatus (final r) = IMeshDevice.deviceStatus s
  /\ IMeshDevice.isConfigured (final r) = IMeshDevice.isConfigured s
  /\ IMeshDevice.myNodeInfo (final r) = IMeshDevice.myNodeInfo s
  /\ IMeshDevice.configId (final r) = IMeshDevice.configId s
  /\ IMeshDevice.subscribed (final r) = IMeshDevice.subscribed s
  /\ IMeshDevice.randomCalls (final r) = (IMeshDevice.randomCalls s + count)%nat
  /\ statuses (trace r) = []
  /\ channelRequests (trace r)
     = map (fun k =>
              ("Requesting Channel: " ++ show (Z.of_nat k)
                 ++ " with callback")%string)
         (seq 0 count)
  /\ pushed (trace r)
     = flat_map
         (fun k =>
            let id := IMeshDevice.randId (IMeshDevice.randomCalls s + k) in
            queued id
              (admin_frame me id
                 (AdminMessage.getChannelRequest (Z.of_nat k + 1)))
              (Some resolves))
         (seq 0 count).
Proof.
  intros me count r; subst r; unfold IMeshDevice.getAllChannels.
  erewrite bind_returns by apply log_run.
  erewrite bind_returns by (unfold gets; reflexivity).
  unfold IMeshDevice.indices; fold count.
  destruct (forEach_getChannel count 0 s)
    as (Hr & Hst & Hic & Hmi & Hci & Hsu & Hrc & Hstatus & Hreq & Hpush).
  cbn zeta in *.
  set (loop := forEach _ _ s) in *.
  pose proof (run_eta loop) as Hloop; rewrite Hr in Hloop.
  erewrite bind_returns by exact Hloop.
  rewrite !result_run, !final_run, !trace_run.
  assert (Htail :
            let last :=
              match callback with
              | Some c => perform [Invoke c None]
              | None => ret tt
              end (final loop) in
            result last = Some tt /\ final last = final loop
            /\ statuses (trace last) = [] /\ channelRequests (trace last) = []
            /\ pushed (trace last) = [])
    by (destruct callback; repeat split).
  destruct Htail as (Hlr & Hlf & Hls & Hlq & Hlp).
  rewrite Hlr, Hlf.
  rewrite !statuses_app, !channelRequests_app, !pushed_app.
  rewrite Hstatus, Hreq, Hpush, Hls, Hlq, Hlp, !app_nil_r.
  repeat split; auto.
Qed.

(** C8. The request [getChannel(index)] enqueues is a mesh packet on
    [PortNum.ADMIN_APP] whose payload is the encoded admin message with
    [getChannelRequest = index + 1]; it wants a response and an
    acknowledgment, comes from the device's node number and goes to it (to
    [BROADCAST_NUM] while that number is 0), on channel 0, under the
    identifier just drawn.  The item pushed carries that identifier, the
    encoded packet as its frame and the callback given (one that only
    resolves when none is); nothing is pushed when the encoded frame is over
    512 bytes.  [getAllChannels] on a device that reported [maxChannels]
    pushes, in order, the requests carrying 1, 2, ..., [maxChannels + 1], each
    under an identifier of its own. *)
Theorem getChannel_requests_index_plus_one
    (index : Z) (callback allCallback : option Callback) (s : IMeshDevice.t) :
  let me := MyNodeInfo.myNodeNum (IMeshDevice.myNodeInfo s) in
  let count := Z.to_nat (MyNodeInfo.maxChannels (IMeshDevice.myNodeInfo s) + 1) in
  let request (id i : Z) : MeshPacket.t :=
    {| MeshPacket.payloadVariant :=
         MeshPacket.decoded
           {| Data.payload :=
                AdminMessage_toBinary (AdminMessage.getChannelRequest (i + 1));
              Data.portnum := ADMIN_APP;
              Data.wantResponse := true;
              Data.location := None;
              Data.emoji := 0;
              Data.replyId := 0;
              Data.dest := 0;
              Data.requestId := 0;
              Data.source := 0 |};
       MeshPacket.from := me;
       MeshPacket.to := if (me =? 0)%Z then BROADCAST_NUM else me;
       MeshPacket.id := id;
       MeshPacket.wantAck := true;
       MeshPacket.channel := 0 |} in
  let enqueued (id i : Z) (onAck : Callback) : list IQueueItem.t :=
    let frame := ToRadio_toBinary (ToRadio.packet (request id i)) in
    if (512 <? List.length frame)%nat then []
    else [{| IQueueItem.id := id;
             IQueueItem.data := frame;
             IQueueItem.callback := onAck;
             IQueueItem.waitingAck := false |}] in
  pushed (trace (IMeshDevice.getChannel index callback s))
  = enqueued (IMeshDevice.randId (IMeshDevice.randomCalls s)) index
      match callback with
      | Some given => given
      | None => resolves
      end
  /\ pushed (trace (IMeshDevice.getAllChannels allCallback s))
     = flat_map
         (fun k =>
            enqueued (IMeshDevice.randId (IMeshDevice.randomCalls s + k))
              (Z.of_nat k) resolves)
         (seq 0 count).
Proof.
  intros me count request enqueued; split.
  - rewrite getChannel_run, trace_run, !pushed_app, sendRaw_pushed.
    reflexivity.
  - destruct (getAllChannels_run allCallback s)
      as (_ & _ & _ & _ & _ & _ & _ & _ & _ & Hpushed).
    cbn zeta in Hpushed; rewrite Hpushed.
    apply flat_map_ext; intros k; reflexivity.
Qed.

(** *** The local echo *)

Lemma handleDataPacket_text (d : Data.t) (p : MeshPacket.t) (s : IMeshDevice.t) :
  Data.portnum d = TEXT_MESSAGE_APP ->
  IMeshDevice.handleDataPacket d p s
  = (Some tt, s,
     log_effects iMeshDevice Emitter.handleMeshPacket "Received onTextPacket"
       TRACE (Some (Data.payload d))
       ++ [Emit (onTextPacket p (TextDecoder_decode (Data.payload d)))]).
Proof.
  intros Hport; unfold IMeshDevice.handleDataPacket; rewrite Hport.
  erewrite bind_returns by apply log_run.
  now rewrite emit_passive by exact I.
Qed.

(** A text packet sent with [echoResponse] goes through [handleMeshPacket]
    first: the emission on [onMeshPacket], the acknowledgment of request id 0,
    the text event; then [sendRaw]. *)
Lemma sendPacket_echo_text byteData destinationNum wantAck channel wantResponse
    callback emoji location replyId (s : IMeshDevice.t) :
  let id := IMeshDevice.randId (IMeshDevice.randomCalls s) in
  let meshPacket :=
    IMeshDevice.sendPacket_meshPacket
      (MyNodeInfo.myNodeNum (IMeshDevice.myNodeInfo s)) id byteData
      TEXT_MESSAGE_APP destinationNum wantAck channel wantResponse emoji
      location replyId in
  let drawn := IMeshDevice.set_randomCalls (S (IMeshDevice.randomCalls s)) s in
  let sent :=
    IMeshDevice.sendRaw id (ToRadio_toBinary (ToRadio.packet meshPacket))
      callback (after_processAck 0 drawn) in
  IMeshDevice.sendPacket byteData TEXT_MESSAGE_APP destinationNum wantAck
    channel wantResponse true callback emoji location replyId s
  = (Some tt, final sent,
     log_effects iMeshDevice Emitter.sendPacket
       ("Sending " ++ PortNum_name TEXT_MESSAGE_APP ++ " to "
          ++ IMeshDevice.show_destination destinationNum)%string TRACE None
       ++ (Emit (onMeshPacket meshPacket)
             :: processAck_effects 0 drawn
             ++ log_effects iMeshDevice Emitter.handleMeshPacket
                  "Received onTextPacket" TRACE (Some byteData)
             ++ [Emit (onTextPacket meshPacket (TextDecoder_decode byteData))])
       ++ trace sent).
Proof.
  intros id meshPacket drawn sent; unfold IMeshDevice.sendPacket.
  erewrite bind_returns by apply log_run.
  erewrite bind_returns by (unfold gets; reflexivity).
  erewrite bind_returns by apply generateRandId_run.
  fold id; fold drawn; fold meshPacket; unfold when.
  pose proof (handleMeshPacket_decoded meshPacket _ drawn eq_refl) as Hecho.
  cbn [Data.requestId] in Hecho.
  rewrite handleDataPacket_text in Hecho by reflexivity.
  rewrite result_run, trace_run in Hecho; cbn [Data.payload] in Hecho.
  change (MeshPacket.from meshPacket)
    with (MyNodeInfo.myNodeNum (IMeshDevice.myNodeInfo drawn)) in Hecho.
  rewrite Z.eqb_refl in Hecho; cbn [app] in Hecho.
  erewrite bind_returns by exact Hecho.
  rewrite !result_run, !final_run, !trace_run.
  change (MeshPacket.id meshPacket) with id; fold sent.
  now rewrite (sendRaw_returns _ _ _ _ : result sent = _).
Qed.


(** C10. [sendText] feeds the packet it built to [handleMeshPacket] before
    it calls [sendRaw]: the trace has the emission on [onMeshPacket] and then
    the one on [onTextPacket], carrying the sent text as [TextDecoder] reads
    the encoded bytes back, with nothing pushed or written before it; what is
    pushed afterwards is the frame, or nothing when the frame is over 512
    bytes.  The event fires exactly once either way.  The packet's sender is
    the local node number, and no heartbeat is emitted. *)
Theorem sendText_echoes_before_queueing
    (text : string) (destinationNum : option Z) (wantAck : bool) (channel : Z)
    (callback : option Callback) (s : IMeshDevice.t) :
  let me := MyNodeInfo.myNodeNum (IMeshDevice.myNodeInfo s) in
  let id := IMeshDevice.randId (IMeshDevice.randomCalls s) in
  let meshPacket :=
    IMeshDevice.sendPacket_meshPacket me id (TextEncoder_encode text)
      TEXT_MESSAGE_APP destinationNum wantAck channel false 0 None 0 in
  let heard := TextDecoder_decode (TextEncoder_encode text) in
  let r := IMeshDevice.sendText text destinationNum wantAck channel callback s in
  exists before after,
    trace r = before ++ Emit (onTextPacket meshPacket heard) :: after
    /\ meshPackets before = [meshPacket]
    /\ pushed before = []
    /\ written before = []
    /\ pushed after
       = queued id (ToRadio_toBinary (ToRadio.packet meshPacket)) callback
    /\ texts (trace r) = [(meshPacket, heard)]
    /\ heartbeats (trace r) = []
    /\ MeshPacket.from meshPacket = me.
Proof.
  intros me id meshPacket heard r; subst r; unfold IMeshDevice.sendText.
  erewrite bind_returns by apply log_run.
  rewrite sendPacket_echo_text, !trace_run.
  fold me; fold id; fold meshPacket; fold heard.
  set (drawn := IMeshDevice.set_randomCalls _ s).
  set (sent := IMeshDevice.sendRaw _ _ _ _).
  destruct (processAck_events 0 drawn)
    as (_ & Hat & Ham & Hah & Hap & Haw & _ & _).
  destruct (sendRaw_events _ _ _ _ : let actions := trace sent in _)
    as (_ & Hst & _ & Hsh & _ & _ & _).
  cbn zeta in *.
  exists
    (log_effects iMeshDevice Emitter.sendText
       ("Sending message to " ++ IMeshDevice.show_destination destinationNum
          ++ " on channel " ++ show channel)%string DEBUG None
       ++ log_effects iMeshDevice Emitter.sendPacket
            ("Sending " ++ PortNum_name TEXT_MESSAGE_APP ++ " to "
               ++ IMeshDevice.show_destination destinationNum)%string TRACE None
       ++ Emit (onMeshPacket meshPacket)
            :: processAck_effects 0 drawn
            ++ log_effects iMeshDevice Emitter.handleMeshPacket
                 "Received onTextPacket" TRACE (Some (TextEncoder_encode text))),
    (trace sent).
  split; [| split; [| split; [| split; [| split; [| split; [| split]]]]]];
    try reflexivity.
  - cbn [app]; rewrite <- !app_assoc; cbn [app]; rewrite <- !app_assoc.
    reflexivity.
  - rewrite !meshPackets_app.
    change (Emit (onMeshPacket meshPacket) :: ?l)
      with ([Emit (onMeshPacket meshPacket)] ++ l).
    now rewrite !meshPackets_app, Ham.
  - rewrite !pushed_app.
    change (Emit (onMeshPacket meshPacket) :: ?l)
      with ([Emit (onMeshPacket meshPacket)] ++ l).
    now rewrite !pushed_app, Hap.
  - rewrite !written_app.
    change (Emit (onMeshPacket meshPacket) :: ?l)
      with ([Emit (onMeshPacket meshPacket)] ++ l).
    now rewrite !written_app, Haw.
  - apply sendRaw_pushed.
  - change (Emit (onMeshPacket meshPacket) :: ?l)
      with ([Emit (onMeshPacket meshPacket)] ++ l).
    now rewrite !texts_app, Hat, Hst.
  - change (Emit (onMeshPacket meshPacket) :: ?l)
      with ([Emit (onMeshPacket meshPacket)] ++ l).
    now rewrite !heartbeats_app, Hah, Hsh.
Qed.

(** C9. The packet [sendLocation] builds is a decoded packet on
    [TEXT_MESSAGE_APP] with an empty payload and the location in its
    [location] field: it is the packet emitted on [onMeshPacket] by the echo,
    and its encoding is the frame pushed on the queue (when the frame is at
    most 512 bytes). *)
Theorem sendLocation_uses_text_port
    (location : Location) (destinationNum : option Z) (wantAck : bool)
    (channel : Z) (callback : option Callback) (s : IMeshDevice.t) :
  let id := IMeshDevice.randId (IMeshDevice.randomCalls s) in
  let r :=
    IMeshDevice.sendLocation location destinationNum wantAck channel callback s in
  exists meshPacket data,
    meshPackets (trace r) = [meshPacket]
    /\ pushed (trace r)
       = queued id (ToRadio_toBinary (ToRadio.packet meshPacket)) callback
    /\ MeshPacket.payloadVariant meshPacket = MeshPacket.decoded data
    /\ Data.portnum data = TEXT_MESSAGE_APP
    /\ Data.payload data = []
    /\ Data.location data = Some location.
Proof.
  intros id r; subst r; unfold IMeshDevice.sendLocation.
  erewrite bind_returns by apply log_run.
  rewrite sendPacket_echo_text, !trace_run; fold id.
  set (drawn := IMeshDevice.set_randomCalls _ s).
  set (meshPacket := IMeshDevice.sendPacket_meshPacket _ _ _ _ _ _ _ _ _ _ _).
  set (sent := IMeshDevice.sendRaw _ _ _ _).
  destruct (processAck_events 0 drawn)
    as (_ & _ & Ham & _ & Hap & _ & _ & _).
  destruct (sendRaw_events _ _ _ _ : let actions := trace sent in _)
    as (_ & _ & Hsm & _ & _ & _ & _).
  cbn zeta in *.
  exists meshPacket.
  eexists; split; [| split; [| split; [reflexivity |]]]; try (now repeat split).
  - change (Emit (onMeshPacket meshPacket) :: ?l)
      with ([Emit (onMeshPacket meshPacket)] ++ l).
    now rewrite !meshPackets_app, Ham, Hsm.
  - change (Emit (onMeshPacket meshPacket) :: ?l)
      with ([Emit (onMeshPacket meshPacket)] ++ l).
    rewrite !pushed_app, Hap.
    rewrite (sendRaw_pushed _ _ _ _ : pushed (trace sent) = _).
    reflexivity.
Qed.

(** *** The handshake *)

Lemma updateDeviceStatus_returns status (s : IMeshDevice.t) :
  result (IMeshDevice.updateDeviceStatus status s) = Some tt.
Proof. rewrite updateDeviceStatus_run; now destruct (DeviceStatusEnum_eqb _ _). Qed.

(** The completion marker: the notification, the error entry when the echoed
    id is not [configId], the peer announcement, the channel requests, the
    status update. *)
Lemma handleFromRadio_configComplete (raw : bytes) (m : FromRadio.t) (n : Z)
    (s : IMeshDevice.t) :
  FromRadio_fromBinary raw = Some m ->
  FromRadio.payloadVariant m = FromRadio.configCompleteId n ->
  let announce :=
    IMeshDevice.sendRaw 0
      (ToRadio_toBinary
         (ToRadio.peerInfo
            {| PeerInfo.appVersion := 1; PeerInfo.mqttGateway := false |}))
      None s in
  let requests := IMeshDevice.getAllChannels (Some resolves) (final announce) in
  let status :=
    IMeshDevice.updateDeviceStatus DEVICE_CONFIGURED (final requests) in
  IMeshDevice.handleFromRadio raw s
  = (Some tt, final status,
     Emit (onFromRadio m)
       :: (if (n =? IMeshDevice.configId s)%Z then []
           else log_effects iMeshDevice Emitter.handleFromRadio
                  ("Invalid config id reveived from device, exptected "
                     ++ show (IMeshDevice.configId s) ++ " but received "
                     ++ show n)%string ERROR None)
       ++ trace announce ++ trace requests ++ trace status).
Proof.
  intros Hraw Hkind announce requests status.
  unfold IMeshDevice.handleFromRadio; rewrite Hraw.
  erewrite bind_returns by (unfold decode, ret; reflexivity).
  erewrite bind_returns by (apply emit_passive; exact I).
  rewrite Hkind.
  erewrite bind_returns by (unfold gets; reflexivity).
  assert (Hcheck :
            when (negb (n =? IMeshDevice.configId s)%Z)
              (IMeshDevice.log iMeshDevice Emitter.handleFromRadio
                 ("Invalid config id reveived from device, exptected "
                    ++ show (IMeshDevice.configId s) ++ " but received "
                    ++ show n)%string ERROR None) s
            = (Some tt, s,
               if (n =? IMeshDevice.configId s)%Z then []
               else log_effects iMeshDevice Emitter.handleFromRadio
                      ("Invalid config id reveived from device, exptected "
                         ++ show (IMeshDevice.configId s) ++ " but received "
                         ++ show n)%string ERROR None)).
  { destruct (n =? IMeshDevice.configId s)%Z; [reflexivity | apply log_run]. }
  erewrite bind_returns by exact Hcheck.
  pose proof (run_eta announce) as Hannounce.
  rewrite (sendRaw_returns _ _ _ _ : result announce = _) in Hannounce.
  erewrite bind_returns by exact Hannounce.
  pose proof (run_eta requests) as Hrequests.
  rewrite (proj1 (getAllChannels_run _ _) : result requests = _) in Hrequests.
  erewrite bind_returns by exact Hrequests.
  rewrite !result_run, !final_run, !trace_run.
  fold status; rewrite (updateDeviceStatus_returns _ _ : result status = _).
  reflexivity.
Qed.

(** The status update that ends the handshake, on the device as the peer
    announcement and the channel requests left it. *)
Lemma handshake_status_update (s s' : IMeshDevice.t) :
  IMeshDevice.deviceStatus s' = IMeshDevice.deviceStatus s ->
  IMeshDevice.subscribed s' = IMeshDevice.subscribed s ->
  IMeshDevice.configId s' = IMeshDevice.configId s ->
  let r := IMeshDevice.updateDeviceStatus DEVICE_CONFIGURED s' in
  trace r
  = (if DeviceStatusEnum_eqb DEVICE_CONFIGURED (IMeshDevice.deviceStatus s)
     then [] else [Emit (onDeviceStatus DEVICE_CONFIGURED)])
  /\ IMeshDevice.deviceStatus (final r)
     = (if IMeshDevice.subscribed s then DEVICE_CONFIGURED
        else IMeshDevice.deviceStatus s)
  /\ IMeshDevice.configId (final r) = IMeshDevice.configId s
  /\ IMeshDevice.subscribed (final r) = IMeshDevice.subscribed s
  /\ (IMeshDevice.deviceStatus s <> DEVICE_CONFIGURED ->
      IMeshDevice.subscribed s = true ->
      IMeshDevice.isConfigured (final r) = true).
Proof.
  intros Hst Hsu Hci r; subst r; rewrite updateDeviceStatus_run, Hst, Hsu.
  destruct (DeviceStatusEnum_eqb_spec DEVICE_CONFIGURED (IMeshDevice.deviceStatus s))
    as [Heq | Hne]; rewrite ?trace_run, ?final_run.
  - rewrite Hst, Hsu, Hci, <- Heq.
    repeat split; now destruct (IMeshDevice.subscribed s).
  - destruct (IMeshDevice.subscribed s); cbn; repeat split; auto; discriminate.
Qed.

(** Where the completion marker leaves the device. *)
Lemma configComplete_outcome (raw : bytes) (m : FromRadio.t) (n : Z)
    (s : IMeshDevice.t) :
  FromRadio_fromBinary raw = Some m ->
  FromRadio.payloadVariant m = FromRadio.configCompleteId n ->
  let r := IMeshDevice.handleFromRadio raw s in
  result r = Some tt
  /\ statuses (trace r)
     = (if DeviceStatusEnum_eqb DEVICE_CONFIGURED (IMeshDevice.deviceStatus s)
        then [] else [DEVICE_CONFIGURED])
  /\ IMeshDevice.deviceStatus (final r)
     = (if IMeshDevice.subscribed s then DEVICE_CONFIGURED
        else IMeshDevice.deviceStatus s)
  /\ IMeshDevice.configId (final r) = IMeshDevice.configId s
  /\ IMeshDevice.subscribed (final r) = IMeshDevice.subscribed s
  /\ (IMeshDevice.deviceStatus s <> DEVICE_CONFIGURED ->
      IMeshDevice.subscribed s = true ->
      IMeshDevice.isConfigured (final r) = true).
Proof.
  intros Hraw Hkind r; subst r.
  rewrite (handleFromRadio_configComplete raw m n s Hraw Hkind).
  rewrite result_run, final_run, trace_run.
  set (announce := IMeshDevice.sendRaw 0 _ None s).
  destruct (sendRaw_preserves 0 _ None s : let s' := final announce in _)
    as (Hst & _ & _ & Hci & Hsu & _).
  destruct (sendRaw_events 0 _ None s : let actions := trace announce in _)
    as (Has & _).
  destruct (getAllChannels_run (Some resolves) (final announce))
    as (_ & Hst' & _ & _ & Hci' & Hsu' & _ & Hrs & _).
  cbn zeta in *.
  destruct (handshake_status_update s
              (final (IMeshDevice.getAllChannels (Some resolves) (final announce))))
    as (Htrace & Hfinal & Hconfig & Hsub & Hflag); try congruence.
  cbn zeta in *.
  split; [reflexivity |].
  split; [| now repeat split].
  change (Emit (onFromRadio m) :: ?l) with ([Emit (onFromRadio m)] ++ l).
  rewrite !statuses_app, Has, Hrs, Htrace.
  destruct (n =? IMeshDevice.configId s)%Z;
    now destruct (DeviceStatusEnum_eqb _ _).
Qed.


(** C5. A completion marker whose echoed id differs from [configId] adds one
    error-level log entry and changes nothing else: after the notification on
    [onFromRadio], the rest of the trace, the result and the final device are
    those of the marker that echoes [configId], and the status ends at
    [DEVICE_CONFIGURED] whenever the constructor's status subscription is
    registered. *)
Theorem config_id_mismatch_is_logged_not_fatal
    (raw raw' : bytes) (m m' : FromRadio.t) (n : Z) (s : IMeshDevice.t) :
  FromRadio_fromBinary raw = Some m ->
  FromRadio.payloadVariant m = FromRadio.configCompleteId n ->
  n <> IMeshDevice.configId s ->
  FromRadio_fromBinary raw' = Some m' ->
  FromRadio.payloadVariant m'
  = FromRadio.configCompleteId (IMeshDevice.configId s) ->
  let r := IMeshDevice.handleFromRadio raw s in
  let r' := IMeshDevice.handleFromRadio raw' s in
  exists rest,
    trace r
    = Emit (onFromRadio m)
        :: log_effects iMeshDevice Emitter.handleFromRadio
             ("Invalid config id reveived from device, exptected "
                ++ show (IMeshDevice.configId s) ++ " but received "
                ++ show n)%string ERROR None
        ++ rest
    /\ trace r' = Emit (onFromRadio m') :: rest
    /\ result r = Some tt
    /\ result r' = Some tt
    /\ final r = final r'
    /\ IMeshDevice.deviceStatus (final r)
       = (if IMeshDevice.subscribed s then DEVICE_CONFIGURED
          else IMeshDevice.deviceStatus s).
Proof.
  intros Hraw Hkind Hne Hraw' Hkind' r r'.
  destruct (configComplete_outcome raw m n s Hraw Hkind)
    as (_ & _ & Hstatus & _).
  subst r r'.
  rewrite (handleFromRadio_configComplete raw m n s Hraw Hkind) in *.
  rewrite (handleFromRadio_configComplete raw' m' _ s Hraw' Hkind').
  rewrite !result_run, !final_run, !trace_run in *.
  apply Z.eqb_neq in Hne; rewrite Hne, Z.eqb_refl.
  eexists; split; [reflexivity |].
  split; [reflexivity |].
  repeat split; exact Hstatus.
Qed.

(** *** Reboot *)

Lemma handleFromRadio_rebooted (raw : bytes) (m : FromRadio.t) (b : bool)
    (s : IMeshDevice.t) :
  FromRadio_fromBinary raw = Some m ->
  FromRadio.payloadVariant m = FromRadio.rebooted b ->
  let status := IMeshDevice.updateDeviceStatus DEVICE_CONFIGURING s in
  IMeshDevice.handleFromRadio raw s
  = (Some tt, final status,
     Emit (onFromRadio m)
       :: log_effects iMeshDevice Emitter.configure
            "Reading device configuration" DEBUG None
       ++ trace status
       ++ [SetTimeout
             (deferred_sendRaw 0
                (ToRadio_toBinary
                   (ToRadio.wantConfigId (IMeshDevice.configId (final status)))))
             500]).
Proof.
  intros Hraw Hkind status.
  unfold IMeshDevice.handleFromRadio; rewrite Hraw.
  erewrite bind_returns by (unfold decode, ret; reflexivity).
  erewrite bind_returns by (apply emit_passive; exact I).
  rewrite Hkind; unfold IMeshDevice.configure.
  erewrite bind_returns by apply log_run.
  pose proof (run_eta status) as Hstatus.
  rewrite (updateDeviceStatus_returns _ _ : result status = _) in Hstatus.
  erewrite bind_returns by exact Hstatus.
  erewrite bind_returns by (unfold gets; reflexivity).
  reflexivity.
Qed.

(** C1 (amended). On a device in [DEVICE_CONFIGURED] whose status
    subscription is registered, a "rebooted" notice runs [configure]: the
    status goes to [DEVICE_CONFIGURING] and a want-config request is scheduled
    that carries the [configId] the device already has; no identifier is
    generated and [configId] keeps its value.  The timer's [sendRaw] offers
    that request to the queue and changes neither status nor [configId].
    Whenever a completion marker then arrives on the device, in whatever
    status short of [DEVICE_CONFIGURED] the transport left it, the status is
    [DEVICE_CONFIGURED] again, still with the same [configId]. *)
Theorem rebooted_reruns_configure_with_same_configId
    (raw raw' : bytes) (m m' : FromRadio.t) (b : bool) (n : Z)
    (s later : IMeshDevice.t) :
  FromRadio_fromBinary raw = Some m ->
  FromRadio.payloadVariant m = FromRadio.rebooted b ->
  IMeshDevice.deviceStatus s = DEVICE_CONFIGURED ->
  IMeshDevice.subscribed s = true ->
  FromRadio_fromBinary raw' = Some m' ->
  FromRadio.payloadVariant m' = FromRadio.configCompleteId n ->
  IMeshDevice.deviceStatus later <> DEVICE_CONFIGURED ->
  IMeshDevice.subscribed later = true ->
  IMeshDevice.configId later = IMeshDevice.configId s ->
  let wantConfig :=
    ToRadio_toBinary (ToRadio.wantConfigId (IMeshDevice.configId s)) in
  let r1 := IMeshDevice.handleFromRadio raw s in
  let r2 := IMeshDevice.run_deferred_sendRaw 0 wantConfig (final r1) in
  let r3 := IMeshDevice.handleFromRadio raw' later in
  result r1 = Some tt
  /\ statuses (trace r1) = [DEVICE_CONFIGURING]
  /\ timers (trace r1) = [(deferred_sendRaw 0 wantConfig, 500)]
  /\ IMeshDevice.deviceStatus (final r1) = DEVICE_CONFIGURING
  /\ IMeshDevice.isConfigured (final r1) = false
  /\ IMeshDevice.configId (final r1) = IMeshDevice.configId s
  /\ IMeshDevice.randomCalls (final r1) = IMeshDevice.randomCalls s
  /\ pushed (trace r2) = queued 0 wantConfig None
  /\ IMeshDevice.deviceStatus (final r2) = DEVICE_CONFIGURING
  /\ IMeshDevice.subscribed (final r2) = true
  /\ IMeshDevice.configId (final r2) = IMeshDevice.configId s
  /\ result r3 = Some tt
  /\ statuses (trace r3) = [DEVICE_CONFIGURED]
  /\ IMeshDevice.deviceStatus (final r3) = DEVICE_CONFIGURED
  /\ IMeshDevice.isConfigured (final r3) = true
  /\ IMeshDevice.configId (final r3) = IMeshDevice.configId s.
Proof.
  intros Hraw Hkind Hconfigured Hsub Hraw' Hkind' Hlater Hsub' Hid'
    wantConfig r1 r2 r3.
  assert (Hr1 : r1 = (Some tt,
                      IMeshDevice.onDeviceStatus_subscriber DEVICE_CONFIGURING s,
                      Emit (onFromRadio m)
                        :: log_effects iMeshDevice Emitter.configure
                             "Reading device configuration" DEBUG None
                        ++ [Emit (onDeviceStatus DEVICE_CONFIGURING)]
                        ++ [SetTimeout (deferred_sendRaw 0 wantConfig) 500])).
  { subst r1; rewrite (handleFromRadio_rebooted raw m b s Hraw Hkind).
    rewrite updateDeviceStatus_run, Hconfigured, Hsub; reflexivity. }
  assert (Hfacts : IMeshDevice.deviceStatus (final r2) = DEVICE_CONFIGURING
                   /\ IMeshDevice.subscribed (final r2) = true
                   /\ IMeshDevice.configId (final r2) = IMeshDevice.configId s).
  { subst r2; unfold IMeshDevice.run_deferred_sendRaw.
    destruct (sendRaw_preserves 0 wantConfig None (final r1))
      as (Hst & _ & _ & Hci & Hsu & _).
    cbn zeta in *; rewrite Hst, Hci, Hsu, Hr1, final_run; cbn.
    now rewrite Hsub. }
  destruct Hfacts as (Hst2 & Hsu2 & Hci2).
  destruct (configComplete_outcome raw' m' n later Hraw' Hkind')
    as (Hres & Hstatuses & Hfinal & Hconfig & _ & Hflag).
  fold r3 in Hres, Hstatuses, Hfinal, Hconfig, Hflag.
  rewrite Hsub' in Hfinal; rewrite Hid' in Hconfig.
  destruct (DeviceStatusEnum_eqb_spec DEVICE_CONFIGURED
              (IMeshDevice.deviceStatus later)) as [Heq | _];
    [now elim Hlater |].
  rewrite Hr1, result_run, final_run, trace_run.
  split; [reflexivity |].
  split; [reflexivity |].
  split; [reflexivity |].
  split; [reflexivity |].
  split; [reflexivity |].
  split; [reflexivity |].
  split; [reflexivity |].
  split; [subst r2; unfold IMeshDevice.run_deferred_sendRaw;
          apply sendRaw_pushed |].
  split; [exact Hst2 |].
  split; [exact Hsu2 |].
  split; [exact Hci2 |].
  split; [exact Hres |].
  split; [exact Hstatuses |].
  split; [exact Hfinal |].
  split; [now apply Hflag | exact Hconfig].
Qed.

(** *** Disconnecting *)

Lemma complete_run (s : IMeshDevice.t) :
  IMeshDevice.complete s
  = (Some tt,
     IMeshDevice.set_queue (Queue_clear (IMeshDevice.queue s))
       (IMeshDevice.set_subscribed false s),
     [CancelAll; QueueClear]).
Proof. reflexivity. Qed.

(** C4 (amended). [disconnect] always aborts the abort controller first and
    asks for [DEVICE_DISCONNECTED]: the status is emitted when it differs
    from the current one, and the status field holds it afterwards when the
    constructor's status subscription is registered.  Only when a read loop
    was started does it stop the loop, cancel every subscription and clear
    the send queue; with no read loop the queue and the subscriptions stay as
    they are. *)
Theorem disconnect_clears_only_with_read_loop (h : IHTTPConnection.t) :
  let d := IHTTPConnection.device h in
  let r := IHTTPConnection.disconnect h in
  result r = Some tt
  /\ IHTTPConnection.aborted (final r) = true
  /\ hd_error (trace r) = Some Abort
  /\ statuses (trace r)
     = (if DeviceStatusEnum_eqb DEVICE_DISCONNECTED (IMeshDevice.deviceStatus d)
        then [] else [DEVICE_DISCONNECTED])
  /\ IMeshDevice.deviceStatus (IHTTPConnection.device (final r))
     = (if IMeshDevice.subscribed d then DEVICE_DISCONNECTED
        else IMeshDevice.deviceStatus d)
  /\ match IHTTPConnection.readLoop h with
     | Some timer =>
         IMeshDevice.queue (IHTTPConnection.device (final r))
         = Queue_clear (IMeshDevice.queue d)
         /\ IMeshDevice.subscribed (IHTTPConnection.device (final r)) = false
         /\ In (ClearInterval timer) (trace r)
         /\ In CancelAll (trace r)
         /\ In QueueClear (trace r)
     | None =>
         IMeshDevice.queue (IHTTPConnection.device (final r))
         = IMeshDevice.queue d
         /\ IMeshDevice.subscribed (IHTTPConnection.device (final r))
            = IMeshDevice.subscribed d
         /\ ~ In CancelAll (trace r)
         /\ ~ In QueueClear (trace r)
     end.
Proof.
  intros d r; subst r d.
  unfold IHTTPConnection.disconnect.
  erewrite bind_returns by (unfold perform; reflexivity).
  erewrite bind_returns by (unfold modify; reflexivity).
  assert (Hstatus :
            IHTTPConnection.inherited
              (IMeshDevice.updateDeviceStatus DEVICE_DISCONNECTED)
              (IHTTPConnection.set_aborted true h)
            = (Some tt,
               IHTTPConnection.set_device
                 (final (IMeshDevice.updateDeviceStatus DEVICE_DISCONNECTED
                           (IHTTPConnection.device h)))
                 (IHTTPConnection.set_aborted true h),
               trace (IMeshDevice.updateDeviceStatus DEVICE_DISCONNECTED
                        (IHTTPConnection.device h)))).
  { unfold IHTTPConnection.inherited; cbn [IHTTPConnection.set_aborted
                                             IHTTPConnection.device].
    rewrite updateDeviceStatus_run.
    now destruct (DeviceStatusEnum_eqb _ _). }
  erewrite bind_returns by exact Hstatus.
  erewrite bind_returns by (unfold gets; reflexivity).
  rewrite updateDeviceStatus_run.
  cbn [IHTTPConnection.set_device IHTTPConnection.set_aborted
         IHTTPConnection.readLoop].
  destruct (IHTTPConnection.readLoop h) as [timer |];
    destruct (DeviceStatusEnum_eqb_spec DEVICE_DISCONNECTED
                (IMeshDevice.deviceStatus (IHTTPConnection.device h)))
      as [Heq | Hne];
    destruct (IMeshDevice.subscribed (IHTTPConnection.device h)) eqn:Hsub;
    cbn; rewrite ?Hsub; repeat split; auto 10;
    try (intros Hin; repeat (destruct Hin as [Hin | Hin]; try discriminate);
         contradiction).
Qed.
End Properties.

(** ** Further properties *)

Section Further.
Context `{Sch : Schema} `{Cod : !Codec} `{Env : Environment} `{Que : QueueOps}.

Lemma published_app (xs ys : list Action) :
  published (xs ++ ys) = published xs ++ published ys.
Proof. apply observe_app. Qed.

Lemma logged_app (xs ys : list Action) :
  logged (xs ++ ys) = logged xs ++ logged ys.
Proof. apply observe_app. Qed.

Lemma levels_app (xs ys : list Action) :
  levels (xs ++ ys) = levels xs ++ levels ys.
Proof. unfold levels; now rewrite logged_app, map_app. Qed.

(** *** The port dispatch *)

(** Runs [handleDataPacket] through its cases. *)
Ltac dispatch :=
  repeat first
    [ erewrite bind_returns by apply log_run
    | erewrite bind_returns by (apply emit_passive; exact I)
    | rewrite log_run
    | rewrite emit_passive by exact I
    | match goal with
      | |- context [decode ?r] => destruct r; cbn [decode is_none]
      | |- context [bind throw] =>
          erewrite bind_throws by (unfold throw; reflexivity)
      | |- context [bind (ret ?a)] =>
          erewrite bind_returns by (unfold ret; reflexivity)
      | |- context [match ?m with AdminMessage.other => _ | _ => _ end] =>
          destruct m
      end ].

(** X1. [handleDataPacket] throws exactly when the payload fails the
    [fromBinary] of its port, and then no event is published.  In every case
    the device's fields are left as they were and the trace has console
    entries and emissions only: no call on the queue, no write, no timer. *)
Theorem handleDataPacket_throws_iff_undecodable
    (d : Data.t) (p : MeshPacket.t) (s : IMeshDevice.t) :
  let r := IMeshDevice.handleDataPacket d p s in
  (result r = None <-> undecodable d = true)
  /\ (undecodable d = true -> published (trace r) = [])
  /\ final r = s
  /\ forallb is_report (trace r) = true.
Proof.
  intros r; subst r.
  unfold IMeshDevice.handleDataPacket, undecodable.
  destruct (Data.portnum d); dispatch;
    unfold ret, throw; rewrite ?result_run, ?final_run, ?trace_run;
    repeat split; try reflexivity; try discriminate.
Qed.

(** X2. Every data packet leaves exactly one console entry, at level TRACE
    when its port has a case in the switch and at level WARNING otherwise.
    At most one event is published, and it carries the mesh packet the data
    came in.  A port without a case publishes nothing and does not throw. *)
Theorem handleDataPacket_one_entry_one_event
    (d : Data.t) (p : MeshPacket.t) (s : IMeshDevice.t) :
  let r := IMeshDevice.handleDataPacket d p s in
  levels (trace r) = [if handled (Data.portnum d) then TRACE else WARNING]
  /\ (List.length (published (trace r)) <= 1)%nat
  /\ Forall (fun e => event_packet e = Some p) (published (trace r))
  /\ (handled (Data.portnum d) = false ->
      result r = Some tt /\ published (trace r) = []).
Proof.
  intros r; subst r.
  unfold IMeshDevice.handleDataPacket.
  destruct (Data.portnum d); dispatch;
    unfold ret, throw; rewrite ?result_run, ?final_run, ?trace_run;
    cbn; repeat split; auto; try discriminate; repeat constructor.
Qed.

(** *** A mesh packet *)

Lemma handleDataPacket_events (d : Data.t) (p : MeshPacket.t)
    (s : IMeshDevice.t) :
  let actions := trace (IMeshDevice.handleDataPacket d p s) in
  meshPackets actions = [] /\ heartbeats actions = [] /\ statuses actions = [].
Proof.
  unfold IMeshDevice.handleDataPacket.
  destruct (Data.portnum d); dispatch;
    unfold ret, throw; rewrite ?trace_run; repeat split.
Qed.

(** A packet with no decoded payload: the two emissions, then the DEBUG
    entry when the payload is encrypted. *)
Lemma handleMeshPacket_undecoded (p : MeshPacket.t) (s : IMeshDevice.t) :
  (forall d, MeshPacket.payloadVariant p <> MeshPacket.decoded d) ->
  IMeshDevice.handleMeshPacket p s
  = (Some tt, s,
     Emit (onMeshPacket p)
       :: (if (MeshPacket.from p
               =? MyNodeInfo.myNodeNum (IMeshDevice.myNodeInfo s))%Z
           then [] else [Emit onMeshHeartbeat])
       ++ match MeshPacket.payloadVariant p with
          | MeshPacket.encrypted _ =>
              log_effects iMeshDevice Emitter.handleMeshPacket
                "Device received encrypted data packet, ignoring." DEBUG None
          | _ => []
          end).
Proof.
  intros Hnot; unfold IMeshDevice.handleMeshPacket.
  erewrite bind_returns by (apply emit_passive; exact I).
  erewrite bind_returns by (unfold gets; reflexivity).
  destruct (MeshPacket.from p =? MyNodeInfo.myNodeNum (IMeshDevice.myNodeInfo s))%Z;
    unfold when; simpl negb; cbv iota.
  - erewrite bind_returns by (unfold ret; reflexivity).
    destruct (MeshPacket.payloadVariant p) as [d | e |];
      [now elim (Hnot d) | rewrite log_run | unfold ret]; reflexivity.
  - erewrite bind_returns by (apply emit_passive; exact I).
    destruct (MeshPacket.payloadVariant p) as [d | e |];
      [now elim (Hnot d) | rewrite log_run | unfold ret]; reflexivity.
Qed.

(** What every call of [handleMeshPacket] does, whatever the payload. *)
Lemma handleMeshPacket_shape (p : MeshPacket.t) (s : IMeshDevice.t) :
  let r := IMeshDevice.handleMeshPacket p s in
  hd_error (trace r) = Some (Emit (onMeshPacket p))
  /\ meshPackets (trace r) = [p]
  /\ heartbeats (trace r)
     = (if (MeshPacket.from p
            =? MyNodeInfo.myNodeNum (IMeshDevice.myNodeInfo s))%Z
        then [] else [tt])
  /\ statuses (trace r) = []
  /\ IMeshDevice.deviceStatus (final r) = IMeshDevice.deviceStatus s
  /\ IMeshDevice.isConfigured (final r) = IMeshDevice.isConfigured s
  /\ IMeshDevice.myNodeInfo (final r) = IMeshDevice.myNodeInfo s
  /\ IMeshDevice.configId (final r) = IMeshDevice.configId s
  /\ IMeshDevice.subscribed (final r) = IMeshDevice.subscribed s
  /\ IMeshDevice.randomCalls (final r) = IMeshDevice.randomCalls s.
Proof.
  intros r; subst r.
  destruct (MeshPacket.payloadVariant p) as [d | e |] eqn:Hkind.
  - rewrite (handleMeshPacket_decoded p d s Hkind), trace_run, final_run.
    destruct (handleDataPacket_events d p (after_processAck (Data.requestId d) s))
      as (Hm & Hh & Hs).
    destruct (processAck_events (Data.requestId d) s)
      as (Hps & _ & Hpm & Hph & _).
    cbn zeta in *.
    change (Emit (onMeshPacket p) :: ?l) with ([Emit (onMeshPacket p)] ++ l).
    rewrite !meshPackets_app, !heartbeats_app, !statuses_app.
    rewrite Hm, Hh, Hs, Hps, Hpm, Hph.
    destruct (MeshPacket.from p =? _)%Z;
      split; [reflexivity | | reflexivity |]; repeat split.
  - rewrite handleMeshPacket_undecoded, trace_run, final_run
      by (intros d; rewrite Hkind; discriminate).
    rewrite Hkind.
    destruct (MeshPacket.from p =? _)%Z; repeat split.
  - rewrite handleMeshPacket_undecoded, trace_run, final_run
      by (intros d; rewrite Hkind; discriminate).
    rewrite Hkind.
    destruct (MeshPacket.from p =? _)%Z; repeat split.
Qed.

Lemma heartbeat_emitted (actions : list Action) :
  In (Emit onMeshHeartbeat) actions <-> heartbeats actions <> [].
Proof.
  unfold heartbeats, observe.
  induction actions as [| a l IH]; simpl; [tauto |].
  destruct a as [| e | | | | | | | | | | | |];
    try (rewrite <- IH; split; [intros [H | H]; [discriminate | exact H]
                               | intros H; right; exact H]).
  destruct e;
    try (simpl; rewrite <- IH; split;
         [intros [H | H]; [discriminate | exact H]
         | intros H; right; exact H]).
  simpl; split; [discriminate | intros _; left; reflexivity].
Qed.

(** X3. Every inbound mesh packet is first emitted on [onMeshPacket],
    exactly once, and a heartbeat is emitted exactly when its sender is not
    the local node number: once for a foreign packet, never for the device's
    own.  This holds for decoded, encrypted and empty packets alike, also
    when the port dispatch throws.  Only the queue can change: status, node
    info and [configId] are as before. *)
Theorem handleMeshPacket_heartbeat_iff_foreign
    (p : MeshPacket.t) (s : IMeshDevice.t) :
  let r := IMeshDevice.handleMeshPacket p s in
  let me := MyNodeInfo.myNodeNum (IMeshDevice.myNodeInfo s) in
  hd_error (trace r) = Some (Emit (onMeshPacket p))
  /\ meshPackets (trace r) = [p]
  /\ (In (Emit onMeshHeartbeat) (trace r) <-> MeshPacket.from p <> me)
  /\ (List.length (heartbeats (trace r)) <= 1)%nat
  /\ statuses (trace r) = []
  /\ IMeshDevice.deviceStatus (final r) = IMeshDevice.deviceStatus s
  /\ IMeshDevice.myNodeInfo (final r) = IMeshDevice.myNodeInfo s
  /\ IMeshDevice.configId (final r) = IMeshDevice.configId s.
Proof.
  intros r me.
  destruct (handleMeshPacket_shape p s)
    as (Hhd & Hm & Hh & Hs & Hst & _ & Hmi & Hci & _).
  fold r in Hhd, Hm, Hh, Hs, Hst, Hmi, Hci; fold me in Hh.
  rewrite heartbeat_emitted, Hh.
  destruct (Z.eqb_spec (MeshPacket.from p) me);
    repeat split; simpl; auto; try congruence; try discriminate.
Qed.

(** X4. An encrypted packet is dropped after a DEBUG entry: nothing is
    handed to [queue.processAck], no event beyond [onMeshPacket] and the
    heartbeat is published, the call returns normally and the device is
    unchanged. *)
Theorem handleMeshPacket_drops_encrypted
    (p : MeshPacket.t) (e : bytes) (s : IMeshDevice.t) :
  MeshPacket.payloadVariant p = MeshPacket.encrypted e ->
  let r := IMeshDevice.handleMeshPacket p s in
  result r = Some tt
  /\ final r = s
  /\ acked (trace r) = []
  /\ levels (trace r) = [DEBUG]
  /\ published (trace r)
     = onMeshPacket p
         :: (if (MeshPacket.from p
                 =? MyNodeInfo.myNodeNum (IMeshDevice.myNodeInfo s))%Z
             then [] else [onMeshHeartbeat]).
Proof.
  intros Hkind r; subst r.
  rewrite handleMeshPacket_undecoded
    by (intros d; rewrite Hkind; discriminate).
  rewrite Hkind, result_run, final_run, trace_run.
  destruct (MeshPacket.from p =? _)%Z; repeat split.
Qed.

(** *** An inbound frame, by kind *)

Lemma forallb_weaken {A} (P Q : A -> bool) (l : list A) :
  (forall a, P a = true -> Q a = true) ->
  forallb P l = true -> forallb Q l = true.
Proof.
  intros HPQ; induction l as [| a l IH]; simpl; [reflexivity |].
  intros H; apply andb_true_iff in H; destruct H as [Ha Hl].
  now rewrite (HPQ a Ha), IH.
Qed.

Lemma observe_forallb_none {A} (f : Action -> option A) (P : Action -> bool)
    (actions : list Action) :
  (forall a, P a = true -> f a = None) ->
  forallb P actions = true -> observe f actions = [].
Proof.
  intros HP Hall; apply observe_none; intros a Hin.
  apply HP; rewrite forallb_forall in Hall; now apply Hall.
Qed.

Lemma report_is_dispatch_effect (actions : list Action) :
  fromRadios actions = [] ->
  forallb is_report actions = true ->
  forallb is_dispatch_effect actions = true.
Proof.
  induction actions as [| a l IH]; simpl; [reflexivity |].
  intros Hnone Hall; apply andb_true_iff in Hall; destruct Hall as [Ha Hl].
  destruct a as [| e | | | | | | | | | | | |]; try discriminate;
    [| destruct e; try discriminate]; simpl in *; now apply IH.
Qed.

Lemma send_is_dispatch_effect (actions : list Action) :
  forallb is_send_effect actions = true ->
  forallb is_dispatch_effect actions = true.
Proof.
  apply forallb_weaken; intros [| [] | | | | | | | | | | | |];
    simpl; congruence.
Qed.

Lemma sendRaw_sends id toRadio callback (s : IMeshDevice.t) :
  forallb is_send_effect (trace (IMeshDevice.sendRaw id toRadio callback s))
  = true.
Proof.
  rewrite sendRaw_run; destruct (512 <? _)%nat; rewrite trace_run;
    [reflexivity |].
  cbn zeta; cbn [forallb is_send_effect andb].
  apply forallb_forall; intros a Hin.
  apply in_map_iff in Hin; destruct Hin as [frame [<- _]]; reflexivity.
Qed.

Lemma getChannel_sends index callback (s : IMeshDevice.t) :
  forallb is_send_effect (trace (IMeshDevice.getChannel index callback s))
  = true.
Proof.
  rewrite getChannel_run, trace_run, !forallb_app, sendRaw_sends.
  reflexivity.
Qed.

Lemma forEach_getChannel_sends (xs : list Z) (s : IMeshDevice.t) :
  let r := forEach xs (fun i => IMeshDevice.getChannel i (Some resolves)) s in
  result r = Some tt /\ forallb is_send_effect (trace r) = true.
Proof.
  revert s; induction xs as [| x xs IH]; intros s r; subst r;
    cbn [forEach]; [split; reflexivity |].
  erewrite bind_returns by apply getChannel_run.
  rewrite result_run, trace_run.
  destruct (IH (final (IMeshDevice.sendRaw
                         (IMeshDevice.randId (IMeshDevice.randomCalls s))
                         (admin_frame
                            (MyNodeInfo.myNodeNum (IMeshDevice.myNodeInfo s))
                            (IMeshDevice.randId (IMeshDevice.randomCalls s))
                            (AdminMessage.getChannelRequest (x + 1)))
                         (Some resolves)
                         (IMeshDevice.set_randomCalls
                            (S (IMeshDevice.randomCalls s)) s))))
    as (Hr & Hall).
  cbn zeta in *.
  split; [exact Hr |].
  rewrite !forallb_app, Hall, sendRaw_sends; reflexivity.
Qed.

(** The trace of [getAllChannels]: the log entry, the requests, and the
    callback last when there is one. *)
Lemma getAllChannels_trace (callback : option Callback) (s : IMeshDevice.t) :
  let loop :=
    forEach (IMeshDevice.indices (MyNodeInfo.maxChannels (IMeshDevice.myNodeInfo s)))
      (fun i => IMeshDevice.getChannel i (Some resolves)) s in
  trace (IMeshDevice.getAllChannels callback s)
  = log_effects iMeshDevice Emitter.getAllChannels
      ("Requesting all Channels " ++ IMeshDevice.with_or_without callback
         ++ " callback")%string DEBUG None
      ++ trace loop
      ++ match callback with
         | Some c => [Invoke c None]
         | None => []
         end.
Proof.
  intros loop; unfold IMeshDevice.getAllChannels.
  erewrite bind_returns by apply log_run.
  erewrite bind_returns by (unfold gets; reflexivity).
  pose proof (run_eta loop) as Hloop.
  rewrite (proj1 (forEach_getChannel_sends _ s) : result loop = _) in Hloop.
  erewrite bind_returns by exact Hloop.
  rewrite !trace_run; destruct callback; reflexivity.
Qed.

Lemma getAllChannels_sends (callback : option Callback) (s : IMeshDevice.t) :
  exists body,
    trace (IMeshDevice.getAllChannels callback s)
    = body ++ match callback with
              | Some c => [Invoke c None]
              | None => []
              end
    /\ forallb is_send_effect body = true.
Proof.
  rewrite getAllChannels_trace, app_assoc.
  eexists; split; [reflexivity |].
  rewrite forallb_app, (proj2 (forEach_getChannel_sends _ s)); reflexivity.
Qed.

Lemma getAllChannels_dispatch_effects (callback : option Callback)
    (s : IMeshDevice.t) :
  forallb is_dispatch_effect (trace (IMeshDevice.getAllChannels callback s))
  = true.
Proof.
  destruct (getAllChannels_sends callback s) as (body & -> & Hall).
  rewrite forallb_app, (send_is_dispatch_effect _ Hall).
  now destruct callback.
Qed.

Lemma handleDataPacket_result (d : Data.t) (p : MeshPacket.t)
    (s : IMeshDevice.t) :
  result (IMeshDevice.handleDataPacket d p s)
  = if undecodable d then None else Some tt.
Proof.
  unfold IMeshDevice.handleDataPacket, undecodable.
  destruct (Data.portnum d); dispatch;
    unfold ret, throw; rewrite ?result_run; reflexivity.
Qed.

Lemma handleDataPacket_dispatch_effects (d : Data.t) (p : MeshPacket.t)
    (s : IMeshDevice.t) :
  forallb is_dispatch_effect (trace (IMeshDevice.handleDataPacket d p s)) = true.
Proof.
  unfold IMeshDevice.handleDataPacket.
  destruct (Data.portnum d); dispatch;
    unfold ret, throw; rewrite ?trace_run; reflexivity.
Qed.

Lemma handleMeshPacket_result (p : MeshPacket.t) (s : IMeshDevice.t) :
  result (IMeshDevice.handleMeshPacket p s)
  = match MeshPacket.payloadVariant p with
    | MeshPacket.decoded d => if undecodable d then None else Some tt
    | _ => Some tt
    end.
Proof.
  destruct (MeshPacket.payloadVariant p) as [d | e |] eqn:Hkind.
  - rewrite (handleMeshPacket_decoded p d s Hkind), result_run.
    apply handleDataPacket_result.
  - rewrite handleMeshPacket_undecoded, result_run
      by (intros d; rewrite Hkind; discriminate); reflexivity.
  - rewrite handleMeshPacket_undecoded, result_run
      by (intros d; rewrite Hkind; discriminate); reflexivity.
Qed.

Lemma handleMeshPacket_dispatch_effects (p : MeshPacket.t) (s : IMeshDevice.t) :
  forallb is_dispatch_effect (trace (IMeshDevice.handleMeshPacket p s)) = true.
Proof.
  destruct (MeshPacket.payloadVariant p) as [d | e |] eqn:Hkind.
  - rewrite (handleMeshPacket_decoded p d s Hkind), trace_run.
    change (Emit (onMeshPacket p) :: ?l) with ([Emit (onMeshPacket p)] ++ l).
    rewrite !forallb_app, handleDataPacket_dispatch_effects.
    assert (Hack : forallb is_dispatch_effect
                     (processAck_effects (Data.requestId d) s) = true).
    { unfold processAck_effects; cbn [forallb is_dispatch_effect is_teardown negb andb].
      apply forallb_forall; intros a Hin.
      apply in_map_iff in Hin; destruct Hin as [c [<- _]]; reflexivity. }
    rewrite Hack; now destruct (MeshPacket.from p =? _)%Z.
  - rewrite handleMeshPacket_undecoded, trace_run
      by (intros d; rewrite Hkind; discriminate).
    rewrite Hkind; now destruct (MeshPacket.from p =? _)%Z.
  - rewrite handleMeshPacket_undecoded, trace_run
      by (intros d; rewrite Hkind; discriminate).
    rewrite Hkind; now destruct (MeshPacket.from p =? _)%Z.
Qed.

Lemma handleFromRadio_undecodable (raw : bytes) (s : IMeshDevice.t) :
  FromRadio_fromBinary raw = None ->
  IMeshDevice.handleFromRadio raw s = (None, s, []).
Proof.
  intros Hraw; unfold IMeshDevice.handleFromRadio; rewrite Hraw.
  now erewrite bind_throws by (unfold decode, throw; reflexivity).
Qed.

Lemma handleFromRadio_packet (raw : bytes) (m : FromRadio.t)
    (p : MeshPacket.t) (s : IMeshDevice.t) :
  FromRadio_fromBinary raw = Some m ->
  FromRadio.payloadVariant m = FromRadio.packet p ->
  IMeshDevice.handleFromRadio raw s
  = (result (IMeshDevice.handleMeshPacket p s),
     final (IMeshDevice.handleMeshPacket p s),
     Emit (onFromRadio m) :: trace (IMeshDevice.handleMeshPacket p s)).
Proof.
  intros Hraw Hkind; unfold IMeshDevice.handleFromRadio; rewrite Hraw.
  erewrite bind_returns by (unfold decode, ret; reflexivity).
  erewrite bind_returns by (apply emit_passive; exact I).
  rewrite Hkind; reflexivity.
Qed.

Lemma handleFromRadio_myInfo (raw : bytes) (m : FromRadio.t)
    (info : MyNodeInfo.t) (s : IMeshDevice.t) :
  FromRadio_fromBinary raw = Some m ->
  FromRadio.payloadVariant m = FromRadio.myInfo info ->
  IMeshDevice.handleFromRadio raw s
  = (Some tt,
     if IMeshDevice.subscribed s
     then IMeshDevice.onMyNodeInfo_subscriber info s else s,
     Emit (onFromRadio m)
       :: (if firmwareOutdated (MyNodeInfo.firmwareVersion info)
           then log_effects iMeshDevice Emitter.handleFromRadio
                  ("Device firmware outdated. Min supported: "
                     ++ MIN_FW_VERSION_text ++ " got : "
                     ++ MyNodeInfo.firmwareVersion info)%string CRITICAL None
           else [])
       ++ [Emit (onMyNodeInfo info)]
       ++ log_effects iMeshDevice Emitter.handleFromRadio
            "Received onMyNodeInfo" TRACE None).
Proof.
  intros Hraw Hkind; unfold IMeshDevice.handleFromRadio; rewrite Hraw.
  erewrite bind_returns by (unfold decode, ret; reflexivity).
  erewrite bind_returns by (apply emit_passive; exact I).
  rewrite Hkind.
  destruct (firmwareOutdated (MyNodeInfo.firmwareVersion info)); unfold when.
  - erewrite bind_returns by apply log_run.
    erewrite bind_returns by (unfold IMeshDevice.emit; reflexivity).
    rewrite log_run; reflexivity.
  - erewrite bind_returns by (unfold ret; reflexivity).
    erewrite bind_returns by (unfold IMeshDevice.emit; reflexivity).
    rewrite log_run; reflexivity.
Qed.

Lemma handleFromRadio_nodeInfo (raw : bytes) (m : FromRadio.t)
    (info : NodeInfo.t) (s : IMeshDevice.t) :
  FromRadio_fromBinary raw = Some m ->
  FromRadio.payloadVariant m = FromRadio.nodeInfo info ->
  let stamped :=
    MeshPacket.create_id_from (FromRadio.id m) (NodeInfo.num info) in
  IMeshDevice.handleFromRadio raw s
  = (Some tt, s,
     Emit (onFromRadio m)
       :: log_effects iMeshDevice Emitter.handleFromRadio
            "Received onNodeInfoPacket" TRACE None
       ++ [Emit (onNodeInfoPacket (MeshPacket.create_id (FromRadio.id m)) info)]
       ++ match NodeInfo.position info with
          | Some position => [Emit (onPositionPacket stamped position)]
          | None => []
          end
       ++ match NodeInfo.user info with
          | Some user => [Emit (onUserPacket stamped user)]
          | None => []
          end).
Proof.
  intros Hraw Hkind stamped; unfold IMeshDevice.handleFromRadio; rewrite Hraw.
  erewrite bind_returns by (unfold decode, ret; reflexivity).
  erewrite bind_returns by (apply emit_passive; exact I).
  rewrite Hkind.
  erewrite bind_returns by apply log_run.
  erewrite bind_returns by (apply emit_passive; exact I).
  destruct (NodeInfo.position info), (NodeInfo.user info);
    repeat first
      [ erewrite bind_returns by (apply emit_passive; exact I)
      | erewrite bind_returns by (unfold ret; reflexivity)
      | rewrite emit_passive by exact I ];
    reflexivity.
Qed.

(** The frames that are only passed on: a log entry and one event. *)
Lemma handleFromRadio_relayed (raw : bytes) (m : FromRadio.t)
    (s : IMeshDevice.t) :
  FromRadio_fromBinary raw = Some m ->
  match FromRadio.payloadVariant m with
  | FromRadio.config c =>
      IMeshDevice.handleFromRadio raw s
      = (Some tt, s,
         Emit (onFromRadio m)
           :: log_effects iMeshDevice Emitter.handleFromRadio
                "Received onConfigPacket" TRACE None
           ++ [Emit (onConfigPacket (MeshPacket.create_id (FromRadio.id m)) c)])
  | FromRadio.moduleConfig c =>
      IMeshDevice.handleFromRadio raw s
      = (Some tt, s,
         Emit (onFromRadio m)
           :: log_effects iMeshDevice Emitter.handleFromRadio
                "Received onModuleConfigPacket" TRACE None
           ++ [Emit (onModuleConfigPacket
                       (MeshPacket.create_id (FromRadio.id m)) c)])
  | FromRadio.logRecord l =>
      IMeshDevice.handleFromRadio raw s
      = (Some tt, s,
         Emit (onFromRadio m)
           :: log_effects iMeshDevice Emitter.handleFromRadio
                "Received onLogRecord" TRACE None
           ++ [Emit (onLogRecord l)])
  | FromRadio.unset =>
      IMeshDevice.handleFromRadio raw s = (Some tt, s, [Emit (onFromRadio m)])
  | _ => True
  end.
Proof.
  intros Hraw; unfold IMeshDevice.handleFromRadio; rewrite Hraw.
  erewrite bind_returns by (unfold decode, ret; reflexivity).
  erewrite bind_returns by (apply emit_passive; exact I).
  destruct (FromRadio.payloadVariant m); try exact I;
    repeat first
      [ erewrite bind_returns by apply log_run
      | rewrite emit_passive by exact I ];
    reflexivity.
Qed.

Lemma updateDeviceStatus_dispatch_effects status (s : IMeshDevice.t) :
  forallb is_dispatch_effect (trace (IMeshDevice.updateDeviceStatus status s))
  = true.
Proof.
  rewrite updateDeviceStatus_run; now destruct (DeviceStatusEnum_eqb _ _).
Qed.

Lemma updateDeviceStatus_fields status (s : IMeshDevice.t) :
  let s' := final (IMeshDevice.updateDeviceStatus status s) in
  IMeshDevice.configId s' = IMeshDevice.configId s
  /\ IMeshDevice.subscribed s' = IMeshDevice.subscribed s
  /\ IMeshDevice.myNodeInfo s' = IMeshDevice.myNodeInfo s
  /\ IMeshDevice.queue s' = IMeshDevice.queue s
  /\ IMeshDevice.randomCalls s' = IMeshDevice.randomCalls s
  /\ (IMeshDevice.subscribed s = false -> s' = s).
Proof.
  rewrite updateDeviceStatus_run.
  destruct (DeviceStatusEnum_eqb _ _); rewrite final_run;
    [now repeat split |].
  destruct (IMeshDevice.subscribed s) eqn:Hsub; cbn zeta; repeat split;
    intros; try reflexivity; try exact Hsub; congruence.
Qed.

(** After the notification on [onFromRadio], the dispatch takes only
    actions of the session; the timer of a reboot comes last. *)
Lemma handleFromRadio_tail (raw : bytes) (m : FromRadio.t)
    (s : IMeshDevice.t) :
  FromRadio_fromBinary raw = Some m ->
  exists tail,
    trace (IMeshDevice.handleFromRadio raw s)
    = Emit (onFromRadio m) :: tail ++ reboot_timer (IMeshDevice.configId s) m
    /\ forallb is_dispatch_effect tail = true.
Proof.
  intros Hraw; unfold reboot_timer.
  pose proof (handleFromRadio_relayed raw m s Hraw) as Hrelayed.
  destruct (FromRadio.payloadVariant m) as [p | info | info | c | l | n | b | c |]
    eqn:Hkind.
  - rewrite (handleFromRadio_packet raw m p s Hraw Hkind), trace_run.
    eexists; split; [now rewrite app_nil_r |].
    apply handleMeshPacket_dispatch_effects.
  - rewrite (handleFromRadio_myInfo raw m info s Hraw Hkind), trace_run.
    eexists; split; [now rewrite app_nil_r |].
    now destruct (firmwareOutdated _).
  - rewrite (handleFromRadio_nodeInfo raw m info s Hraw Hkind), trace_run.
    eexists; split; [now rewrite app_nil_r |].
    now destruct (NodeInfo.position info), (NodeInfo.user info).
  - rewrite Hrelayed, trace_run.
    eexists; split; [now rewrite app_nil_r | reflexivity].
  - rewrite Hrelayed, trace_run.
    eexists; split; [now rewrite app_nil_r | reflexivity].
  - rewrite (handleFromRadio_configComplete raw m n s Hraw Hkind), trace_run.
    eexists; split; [now rewrite app_nil_r |].
    rewrite !forallb_app, updateDeviceStatus_dispatch_effects.
    rewrite (send_is_dispatch_effect _ (sendRaw_sends _ _ _ _)).
    rewrite getAllChannels_dispatch_effects.
    now destruct (n =? IMeshDevice.configId s)%Z.
  - rewrite (handleFromRadio_rebooted raw m b s Hraw Hkind), trace_run.
    destruct (updateDeviceStatus_fields DEVICE_CONFIGURING s) as (Hci & _).
    cbn zeta in Hci; rewrite Hci.
    exists (log_effects iMeshDevice Emitter.configure
              "Reading device configuration" DEBUG None
              ++ trace (IMeshDevice.updateDeviceStatus DEVICE_CONFIGURING s)).
    split; [now rewrite <- app_assoc |].
    rewrite forallb_app, updateDeviceStatus_dispatch_effects; reflexivity.
  - rewrite Hrelayed, trace_run.
    eexists; split; [now rewrite app_nil_r | reflexivity].
  - rewrite Hrelayed, trace_run.
    exists []; split; reflexivity.
Qed.

(** What no inbound frame changes. *)
Lemma handleFromRadio_fields (raw : bytes) (s : IMeshDevice.t) :
  let s' := final (IMeshDevice.handleFromRadio raw s) in
  IMeshDevice.configId s' = IMeshDevice.configId s
  /\ IMeshDevice.subscribed s' = IMeshDevice.subscribed s
  /\ (IMeshDevice.subscribed s = false ->
      IMeshDevice.deviceStatus s' = IMeshDevice.deviceStatus s
      /\ IMeshDevice.isConfigured s' = IMeshDevice.isConfigured s
      /\ IMeshDevice.myNodeInfo s' = IMeshDevice.myNodeInfo s).
Proof.
  destruct (FromRadio_fromBinary raw) as [m |] eqn:Hraw;
    [| rewrite (handleFromRadio_undecodable raw s Hraw), final_run;
       now repeat split].
  pose proof (handleFromRadio_relayed raw m s Hraw) as Hrelayed.
  destruct (FromRadio.payloadVariant m) as [p | info | info | c | l | n | b | c |]
    eqn:Hkind;
    try (rewrite Hrelayed, final_run; now repeat split).
  - rewrite (handleFromRadio_packet raw m p s Hraw Hkind), final_run.
    destruct (handleMeshPacket_shape p s)
      as (_ & _ & _ & _ & Hst & Hic & Hmi & Hci & Hsu & _).
    cbn zeta in *; now repeat split.
  - rewrite (handleFromRadio_myInfo raw m info s Hraw Hkind), final_run.
    destruct (IMeshDevice.subscribed s) eqn:Hsub; cbn zeta;
      rewrite ?Hsub; repeat split; auto; discriminate.
  - rewrite (handleFromRadio_nodeInfo raw m info s Hraw Hkind), final_run.
    now repeat split.
  - rewrite (handleFromRadio_configComplete raw m n s Hraw Hkind), final_run.
    set (announce := IMeshDevice.sendRaw 0 _ None s).
    destruct (sendRaw_preserves 0 _ None s : let s' := final announce in _)
      as (Hst & Hic & Hmi & Hci & Hsu & _).
    destruct (getAllChannels_run (Some resolves) (final announce))
      as (_ & Hst' & Hic' & Hmi' & Hci' & Hsu' & _).
    destruct (updateDeviceStatus_fields DEVICE_CONFIGURED
                (final (IMeshDevice.getAllChannels (Some resolves)
                          (final announce))))
      as (Hci'' & Hsu'' & _ & _ & _ & Hsame).
    cbn zeta in *.
    split; [congruence |].
    split; [congruence |].
    intros Hsub; rewrite Hsame by congruence.
    repeat split; congruence.
  - rewrite (handleFromRadio_rebooted raw m b s Hraw Hkind), final_run.
    destruct (updateDeviceStatus_fields DEVICE_CONFIGURING s)
      as (Hci & Hsu & _ & _ & _ & Hsame).
    cbn zeta in *.
    split; [exact Hci |].
    split; [exact Hsu |].
    intros Hsub; rewrite Hsame by exact Hsub; now repeat split.
Qed.

(** X5. [handleFromRadio] throws in two cases only: the frame does not
    decode, or it carries a mesh packet whose decoded payload fails the
    [fromBinary] of its port.  A frame that does not decode leaves no trace
    at all, not even a log entry, and the device as it was. *)
Theorem handleFromRadio_throws_iff (raw : bytes) (s : IMeshDevice.t) :
  let r := IMeshDevice.handleFromRadio raw s in
  result r
  = match FromRadio_fromBinary raw with
    | None => None
    | Some m => if carries_undecodable m then None else Some tt
    end
  /\ (FromRadio_fromBinary raw = None -> trace r = [] /\ final r = s).
Proof.
  intros r; subst r.
  destruct (FromRadio_fromBinary raw) as [m |] eqn:Hraw;
    [| rewrite (handleFromRadio_undecodable raw s Hraw); now repeat split].
  split; [| discriminate].
  pose proof (handleFromRadio_relayed raw m s Hraw) as Hrelayed.
  unfold carries_undecodable.
  destruct (FromRadio.payloadVariant m) as [p | info | info | c | l | n | b | c |]
    eqn:Hkind;
    try (rewrite Hrelayed; reflexivity).
  - rewrite (handleFromRadio_packet raw m p s Hraw Hkind), result_run.
    rewrite handleMeshPacket_result.
    now destruct (MeshPacket.payloadVariant p).
  - now rewrite (handleFromRadio_myInfo raw m info s Hraw Hkind).
  - now rewrite (handleFromRadio_nodeInfo raw m info s Hraw Hkind).
  - now rewrite (handleFromRadio_configComplete raw m n s Hraw Hkind).
  - now rewrite (handleFromRadio_rebooted raw m b s Hraw Hkind).
Qed.

(** X6. A frame that decodes is emitted on [onFromRadio] before anything
    else is done with it, and exactly once, whatever its kind and also when
    the dispatch then throws. *)
Theorem handleFromRadio_notifies_first
    (raw : bytes) (m : FromRadio.t) (s : IMeshDevice.t) :
  FromRadio_fromBinary raw = Some m ->
  let r := IMeshDevice.handleFromRadio raw s in
  hd_error (trace r) = Some (Emit (onFromRadio m))
  /\ fromRadios (trace r) = [m].
Proof.
  intros Hraw r; subst r.
  destruct (handleFromRadio_tail raw m s Hraw) as (tail & -> & Hall).
  split; [reflexivity |].
  change (Emit (onFromRadio m) :: ?l) with ([Emit (onFromRadio m)] ++ l).
  unfold fromRadios; rewrite !observe_app.
  rewrite (observe_forallb_none _ is_dispatch_effect tail); [| | exact Hall].
  - unfold reboot_timer; now destruct (FromRadio.payloadVariant m).
  - intros [| [] | | | | | | | | | | | |]; simpl; congruence.
Qed.



(** X8. A node-info frame is fanned out: one event on [onNodeInfoPacket],
    then one on [onPositionPacket] when the record has a position, then one
    on [onUserPacket] when it has a user.  The packet of the node-info event
    carries the frame's id only; those of the position and user events also
    carry the node's number as sender.  The device is left as it was. *)
Theorem handleFromRadio_nodeInfo_fans_out
    (raw : bytes) (m : FromRadio.t) (info : NodeInfo.t) (s : IMeshDevice.t) :
  FromRadio_fromBinary raw = Some m ->
  FromRadio.payloadVariant m = FromRadio.nodeInfo info ->
  let r := IMeshDevice.handleFromRadio raw s in
  let stamped :=
    MeshPacket.create_id_from (FromRadio.id m) (NodeInfo.num info) in
  result r = Some tt
  /\ final r = s
  /\ levels (trace r) = [TRACE]
  /\ published (trace r)
     = onFromRadio m
         :: onNodeInfoPacket (MeshPacket.create_id (FromRadio.id m)) info
         :: match NodeInfo.position info with
            | Some position => [onPositionPacket stamped position]
            | None => []
            end
         ++ match NodeInfo.user info with
            | Some user => [onUserPacket stamped user]
            | None => []
            end
  /\ MeshPacket.from stamped = NodeInfo.num info
  /\ MeshPacket.id stamped = FromRadio.id m.
Proof.
  intros Hraw Hkind r stamped; subst r.
  rewrite (handleFromRadio_nodeInfo raw m info s Hraw Hkind).
  rewrite result_run, final_run, trace_run.
  destruct (NodeInfo.position info), (NodeInfo.user info); now repeat split.
Qed.

(** X9. The node info of a [myInfo] frame is emitted on [onMyNodeInfo] and,
    through the constructor's subscription, stored in [myNodeInfo], also when
    its firmware is older than the minimum: the outdated firmware only adds a
    CRITICAL entry before the emission.  Status, [isConfigured], [configId]
    and the queue are left as they were. *)
Theorem handleFromRadio_myInfo_stored_even_if_outdated
    (raw : bytes) (m : FromRadio.t) (info : MyNodeInfo.t) (s : IMeshDevice.t) :
  FromRadio_fromBinary raw = Some m ->
  FromRadio.payloadVariant m = FromRadio.myInfo info ->
  let r := IMeshDevice.handleFromRadio raw s in
  result r = Some tt
  /\ published (trace r) = [onFromRadio m; onMyNodeInfo info]
  /\ levels (trace r)
     = (if firmwareOutdated (MyNodeInfo.firmwareVersion info)
        then [CRITICAL] else []) ++ [TRACE]
  /\ IMeshDevice.myNodeInfo (final r)
     = (if IMeshDevice.subscribed s then info else IMeshDevice.myNodeInfo s)
  /\ IMeshDevice.deviceStatus (final r) = IMeshDevice.deviceStatus s
  /\ IMeshDevice.isConfigured (final r) = IMeshDevice.isConfigured s
  /\ IMeshDevice.configId (final r) = IMeshDevice.configId s
  /\ IMeshDevice.queue (final r) = IMeshDevice.queue s.
Proof.
  intros Hraw Hkind r; subst r.
  rewrite (handleFromRadio_myInfo raw m info s Hraw Hkind).
  rewrite result_run, final_run, trace_run.
  destruct (firmwareOutdated _), (IMeshDevice.subscribed s); now repeat split.
Qed.

(** X10. No inbound frame changes [configId].  Once [complete] has run, no
    inbound frame changes [deviceStatus], [isConfigured] or [myNodeInfo]
    either: the subscriptions that kept them up to date are cancelled. *)
Theorem handleFromRadio_after_complete_is_frozen
    (raw : bytes) (s : IMeshDevice.t) :
  let ended := final (IMeshDevice.complete s) in
  let r := IMeshDevice.handleFromRadio raw ended in
  IMeshDevice.configId (final (IMeshDevice.handleFromRadio raw s))
  = IMeshDevice.configId s
  /\ IMeshDevice.configId (final r) = IMeshDevice.configId s
  /\ IMeshDevice.deviceStatus (final r) = IMeshDevice.deviceStatus s
  /\ IMeshDevice.isConfigured (final r) = IMeshDevice.isConfigured s
  /\ IMeshDevice.myNodeInfo (final r) = IMeshDevice.myNodeInfo s
  /\ IMeshDevice.subscribed (final r) = false.
Proof.
  intros ended r.
  destruct (handleFromRadio_fields raw s) as (Hci & _).
  destruct (handleFromRadio_fields raw ended) as (Hci' & Hsu' & Hfrozen).
  cbn zeta in *; fold r in Hci', Hsu', Hfrozen.
  assert (Hended : ended
                   = IMeshDevice.set_queue (Queue_clear (IMeshDevice.queue s))
                       (IMeshDevice.set_subscribed false s))
    by (unfold ended; now rewrite complete_run).
  rewrite Hended in Hci', Hsu', Hfrozen.
  destruct (Hfrozen eq_refl) as (Hst & Hic & Hmi).
  now repeat split.
Qed.

(** *** Sending *)

Lemma invoked_app (xs ys : list Action) :
  invoked (xs ++ ys) = invoked xs ++ invoked ys.
Proof. apply observe_app. Qed.

Lemma sends_observe_none {A} (f : Action -> option A) (actions : list Action) :
  (forall a, is_send_effect a = true -> f a = None) ->
  forallb is_send_effect actions = true -> observe f actions = [].
Proof. apply observe_forallb_none. Qed.

(** [sendPacket], with or without the echo: the log entry, the identifier,
    the echo through [handleMeshPacket], and the send unless the echo threw. *)
Lemma sendPacket_run byteData portNum destinationNum wantAck channel
    wantResponse echoResponse callback emoji location replyId
    (s : IMeshDevice.t) :
  let id := IMeshDevice.randId (IMeshDevice.randomCalls s) in
  let meshPacket :=
    IMeshDevice.sendPacket_meshPacket
      (MyNodeInfo.myNodeNum (IMeshDevice.myNodeInfo s)) id byteData portNum
      destinationNum wantAck channel wantResponse emoji location replyId in
  let drawn := IMeshDevice.set_randomCalls (S (IMeshDevice.randomCalls s)) s in
  let echoed := when echoResponse (IMeshDevice.handleMeshPacket meshPacket) drawn in
  let sent :=
    IMeshDevice.sendRaw id (ToRadio_toBinary (ToRadio.packet meshPacket))
      callback (final echoed) in
  let entry :=
    log_effects iMeshDevice Emitter.sendPacket
      ("Sending " ++ PortNum_name portNum ++ " to "
         ++ IMeshDevice.show_destination destinationNum)%string TRACE None in
  IMeshDevice.sendPacket byteData portNum destinationNum wantAck channel
    wantResponse echoResponse callback emoji location replyId s
  = match result echoed with
    | Some _ => (Some tt, final sent, entry ++ trace echoed ++ trace sent)
    | None => (None, final echoed, entry ++ trace echoed)
    end.
Proof.
  intros id meshPacket drawn echoed sent entry; unfold IMeshDevice.sendPacket.
  erewrite bind_returns by apply log_run.
  erewrite bind_returns by (unfold gets; reflexivity).
  erewrite bind_returns by apply generateRandId_run.
  fold id drawn; cbn [MeshPacket.id IMeshDevice.sendPacket_meshPacket].
  fold meshPacket; fold echoed.
  pose proof (run_eta echoed) as Hechoed.
  destruct (result echoed) as [[] |].
  - erewrite bind_returns by exact Hechoed.
    fold sent.
    rewrite !result_run, !final_run, !trace_run.
    unfold sent at 1; rewrite sendRaw_returns; reflexivity.
  - erewrite bind_throws by exact Hechoed.
    rewrite !result_run, !final_run, !trace_run; reflexivity.
Qed.

(** X11. A destination of 0 is the same as no destination: the packet
    [sendPacket] builds, echoes and queues is addressed to [BROADCAST_NUM] in
    both cases, so the result, the device, the published events and the
    queued and written frames are the same.  Only the log entry differs: it
    names the destination 0 in one case and "broadcast" in the other. *)
Theorem sendPacket_zero_destination_is_broadcast
    (byteData : bytes) (portNum : PortNum) (wantAck : bool) (channel : Z)
    (wantResponse echoResponse : bool) (callback : option Callback)
    (emoji : Z) (location : option Location) (replyId : Z)
    (s : IMeshDevice.t) :
  let r0 :=
    IMeshDevice.sendPacket byteData portNum (Some 0%Z) wantAck channel
      wantResponse echoResponse callback emoji location replyId s in
  let rb :=
    IMeshDevice.sendPacket byteData portNum None wantAck channel
      wantResponse echoResponse callback emoji location replyId s in
  result r0 = result rb
  /\ final r0 = final rb
  /\ published (trace r0) = published (trace rb)
  /\ pushed (trace r0) = pushed (trace rb)
  /\ written (trace r0) = written (trace rb)
  /\ acked (trace r0) = acked (trace rb)
  /\ hd_error (logged (trace r0))
     = Some (Emitter.sendPacket, TRACE,
             ("Sending " ++ PortNum_name portNum ++ " to 0")%string)
  /\ hd_error (logged (trace rb))
     = Some (Emitter.sendPacket, TRACE,
             ("Sending " ++ PortNum_name portNum ++ " to broadcast")%string).
Proof.
  intros r0 rb; subst r0 rb.
  rewrite !sendPacket_run; cbn zeta.
  change (IMeshDevice.sendPacket_meshPacket ?a ?b ?c ?d (Some 0%Z) ?e ?f ?g ?h ?i ?j)
    with (IMeshDevice.sendPacket_meshPacket a b c d None e f g h i j).
  set (echoed := when echoResponse _ _).
  destruct (result echoed);
    rewrite !result_run, !final_run, !trace_run;
    rewrite !published_app, !pushed_app, !written_app, !acked_app, !logged_app;
    repeat split.
Qed.

(** X12. [getChannel] addresses its request to the device's own node
    number.  While that number is still 0, as it is until a [myInfo] frame
    has been stored, the request goes out to [BROADCAST_NUM] instead.  The
    sender is the node number in both cases and an acknowledgment is asked
    for. *)
Theorem getChannel_is_addressed_to_self_or_broadcast
    (index : Z) (callback : option Callback) (s : IMeshDevice.t) :
  let me := MyNodeInfo.myNodeNum (IMeshDevice.myNodeInfo s) in
  let id := IMeshDevice.randId (IMeshDevice.randomCalls s) in
  exists p : MeshPacket.t,
    pushed (trace (IMeshDevice.getChannel index callback s))
    = queued id (ToRadio_toBinary (ToRadio.packet p)) callback
    /\ MeshPacket.to p = (if (me =? 0)%Z then BROADCAST_NUM else me)
    /\ MeshPacket.from p = me
    /\ MeshPacket.id p = id
    /\ MeshPacket.wantAck p = true.
Proof.
  intros me id.
  rewrite getChannel_run, trace_run; cbn zeta.
  rewrite !pushed_app, sendRaw_pushed.
  eexists; split; [reflexivity |].
  repeat split.
Qed.

(** X13. [getAllChannels] makes one request per index from 0 to
    [maxChannels], none when [maxChannels] is negative, and then calls its
    callback, with no argument and exactly once, as its last action.  It
    does not wait for any answer: nothing is handed to [queue.processAck],
    no event is published and no timer is set. *)
Theorem getAllChannels_calls_back_without_waiting
    (callback : option Callback) (s : IMeshDevice.t) :
  let r := IMeshDevice.getAllChannels callback s in
  let maxChannels := MyNodeInfo.maxChannels (IMeshDevice.myNodeInfo s) in
  result r = Some tt
  /\ List.length (channelRequests (trace r)) = Z.to_nat (maxChannels + 1)
  /\ acked (trace r) = []
  /\ published (trace r) = []
  /\ timers (trace r) = []
  /\ invoked (trace r)
     = match callback with
       | Some c => [(c, None)]
       | None => []
       end
  /\ (forall c, callback = Some c ->
      exists body, trace r = body ++ [Invoke c None])
  /\ ((maxChannels < 0)%Z ->
      pushed (trace r) = [] /\ channelRequests (trace r) = []).
Proof.
  intros r maxChannels.
  destruct (getAllChannels_run callback s)
    as (Hr & _ & _ & _ & _ & _ & _ & _ & Hreq & Hpush).
  cbn zeta in Hr, Hreq, Hpush; fold r maxChannels in Hr, Hreq, Hpush.
  destruct (getAllChannels_sends callback s) as (body & Htrace & Hall).
  fold r in Htrace.
  split; [exact Hr |].
  split; [rewrite Hreq, length_map, length_seq; reflexivity |].
  assert (Hsilent : acked body = [] /\ published body = []
                    /\ timers body = [] /\ invoked body = []).
  { repeat split; apply (sends_observe_none _ body); try exact Hall;
      intros [| [] | | | | | | | | | | | |]; simpl; congruence. }
  destruct Hsilent as (Ha & Hp & Ht & Hi).
  split; [rewrite Htrace, acked_app, Ha; now destruct callback |].
  split; [rewrite Htrace, published_app, Hp; now destruct callback |].
  split; [rewrite Htrace, timers_app, Ht; now destruct callback |].
  split; [rewrite Htrace, invoked_app, Hi; now destruct callback |].
  split.
  - intros c ->; exists body; exact Htrace.
  - intros Hneg; rewrite Hreq, Hpush.
    replace (Z.to_nat (maxChannels + 1)) with 0%nat by lia.
    split; reflexivity.
Qed.

(** X14. With [echoResponse] set, [sendPacket] runs the packet through
    [handleMeshPacket] before it sends it, so a payload that fails the
    [fromBinary] of its own port makes the call throw after the packet was
    emitted on [onMeshPacket] and request id 0 was acknowledged, and with
    nothing pushed or written; the identifier is drawn all the same.
    Without the echo the same packet is sent. *)
Theorem sendPacket_echo_throws_before_sending
    (byteData : bytes) (portNum : PortNum) (destinationNum : option Z)
    (wantAck : bool) (channel : Z) (wantResponse : bool)
    (callback : option Callback) (emoji : Z) (location : option Location)
    (replyId : Z) (s : IMeshDevice.t) :
  undecodable
    (sendPacket_data byteData portNum wantResponse emoji location replyId)
  = true ->
  let id := IMeshDevice.randId (IMeshDevice.randomCalls s) in
  let meshPacket :=
    IMeshDevice.sendPacket_meshPacket
      (MyNodeInfo.myNodeNum (IMeshDevice.myNodeInfo s)) id byteData portNum
      destinationNum wantAck channel wantResponse emoji location replyId in
  let echo :=
    IMeshDevice.sendPacket byteData portNum destinationNum wantAck channel
      wantResponse true callback emoji location replyId s in
  let plain :=
    IMeshDevice.sendPacket byteData portNum destinationNum wantAck channel
      wantResponse false callback emoji location replyId s in
  result echo = None
  /\ pushed (trace echo) = []
  /\ written (trace echo) = []
  /\ meshPackets (trace echo) = [meshPacket]
  /\ acked (trace echo) = [0%Z]
  /\ IMeshDevice.randomCalls (final echo) = S (IMeshDevice.randomCalls s)
  /\ result plain = Some tt
  /\ pushed (trace plain)
     = queued id (ToRadio_toBinary (ToRadio.packet meshPacket)) callback.
Proof.
  intros Hfails id meshPacket echo plain.
  assert (Hkind : MeshPacket.payloadVariant meshPacket
                  = MeshPacket.decoded
                      (sendPacket_data byteData portNum wantResponse emoji
                         location replyId)) by reflexivity.
  set (drawn := IMeshDevice.set_randomCalls (S (IMeshDevice.randomCalls s)) s).
  assert (Hecho : echo
                  = (None, final (IMeshDevice.handleMeshPacket meshPacket drawn),
                     log_effects iMeshDevice Emitter.sendPacket
                       ("Sending " ++ PortNum_name portNum ++ " to "
                          ++ IMeshDevice.show_destination destinationNum)%string
                       TRACE None
                       ++ trace (IMeshDevice.handleMeshPacket meshPacket drawn))).
  { unfold echo; rewrite sendPacket_run; cbn zeta; unfold when.
    fold id meshPacket drawn.
    now rewrite handleMeshPacket_result, Hkind, Hfails. }
  destruct (handleMeshPacket_shape meshPacket drawn)
    as (_ & Hm & _ & _ & _ & _ & _ & _ & _ & Hrc).
  cbn zeta in Hm, Hrc.
  pose proof (handleMeshPacket_decoded meshPacket _ drawn Hkind) as Hrun.
  destruct (processAck_events 0 drawn) as (_ & _ & _ & _ & Hpp & Hpw & _).
  destruct (handleDataPacket_reports
              (sendPacket_data byteData portNum wantResponse emoji location
                 replyId) meshPacket (after_processAck 0 drawn))
    as (_ & Hreports).
  destruct (reports_silent _ Hreports) as (Hda & Hdp & Hdw & _).
  cbn zeta in Hpp, Hpw.
  assert (Hheart : (MeshPacket.from meshPacket
                    =? MyNodeInfo.myNodeNum (IMeshDevice.myNodeInfo drawn))%Z
                   = true) by apply Z.eqb_refl.
  rewrite Hheart in Hrun; cbn [sendPacket_data Data.requestId] in Hrun.
  rewrite Hecho, result_run, final_run, trace_run.
  split; [reflexivity |].
  split.
  { rewrite pushed_app, Hrun, trace_run.
    change (Emit (onMeshPacket meshPacket) :: ?l)
      with ([Emit (onMeshPacket meshPacket)] ++ l).
    rewrite !pushed_app, Hpp.
    cbn [sendPacket_data Data.requestId] in Hdp; rewrite Hdp; reflexivity. }
  split.
  { rewrite written_app, Hrun, trace_run.
    change (Emit (onMeshPacket meshPacket) :: ?l)
      with ([Emit (onMeshPacket meshPacket)] ++ l).
    rewrite !written_app, Hpw.
    cbn [sendPacket_data Data.requestId] in Hdw; rewrite Hdw; reflexivity. }
  split; [rewrite meshPackets_app, Hm; reflexivity |].
  split.
  { rewrite acked_app, Hrun, trace_run.
    change (Emit (onMeshPacket meshPacket) :: ?l)
      with ([Emit (onMeshPacket meshPacket)] ++ l).
    rewrite !acked_app, acked_processAck_effects.
    cbn [sendPacket_data Data.requestId] in Hda; rewrite Hda; reflexivity. }
  split; [exact Hrc |].
  unfold plain; rewrite sendPacket_plain; cbn zeta.
  rewrite result_run, trace_run, pushed_app, sendRaw_pushed.
  split; reflexivity.
Qed.

(** *** The handshake after the node info *)

(** What the completion marker makes the device request and push. *)
Lemma configComplete_requests (raw : bytes) (m : FromRadio.t) (n : Z)
    (s : IMeshDevice.t) :
  FromRadio_fromBinary raw = Some m ->
  FromRadio.payloadVariant m = FromRadio.configCompleteId n ->
  let r := IMeshDevice.handleFromRadio raw s in
  let me := MyNodeInfo.myNodeNum (IMeshDevice.myNodeInfo s) in
  let count := Z.to_nat (MyNodeInfo.maxChannels (IMeshDevice.myNodeInfo s) + 1) in
  channelRequests (trace r)
  = map (fun k =>
           ("Requesting Channel: " ++ show (Z.of_nat k)
              ++ " with callback")%string)
      (seq 0 count)
  /\ pushed (trace r)
     = queued 0 peerInfo_frame None
         ++ flat_map
              (fun k =>
                 let id := IMeshDevice.randId (IMeshDevice.randomCalls s + k) in
                 queued id
                   (admin_frame me id
                      (AdminMessage.getChannelRequest (Z.of_nat k + 1)))
                   (Some resolves))
              (seq 0 count)
  /\ IMeshDevice.myNodeInfo (final r) = IMeshDevice.myNodeInfo s
  /\ IMeshDevice.randomCalls (final r)
     = (IMeshDevice.randomCalls s + count)%nat.
Proof.
  intros Hraw Hkind r me count; subst r.
  rewrite (handleFromRadio_configComplete raw m n s Hraw Hkind).
  rewrite final_run, trace_run.
  set (announce := IMeshDevice.sendRaw 0 _ None s).
  destruct (sendRaw_preserves 0 _ None s : let s' := final announce in _)
    as (_ & _ & Hmi & _ & _ & Hrc).
  destruct (sendRaw_events 0 _ None s : let actions := trace announce in _)
    as (_ & _ & _ & _ & _ & Hareq & _).
  pose proof (sendRaw_pushed 0 _ None s : pushed (trace announce) = _) as Hapush.
  destruct (getAllChannels_run (Some resolves) (final announce))
    as (_ & _ & _ & Hmi' & _ & _ & Hrc' & _ & Hreq & Hpush).
  cbn zeta in *.
  set (requests := IMeshDevice.getAllChannels (Some resolves) (final announce)) in *.
  destruct (updateDeviceStatus_fields DEVICE_CONFIGURED (final requests))
    as (_ & _ & Hmi'' & _ & Hrc'' & _).
  cbn zeta in Hmi'', Hrc''.
  rewrite Hmi in Hreq, Hpush, Hrc'; rewrite Hrc in Hpush, Hrc'.
  assert (Hstatus :
            channelRequests
              (trace (IMeshDevice.updateDeviceStatus DEVICE_CONFIGURED
                        (final requests))) = []
            /\ pushed
                 (trace (IMeshDevice.updateDeviceStatus DEVICE_CONFIGURED
                           (final requests))) = []).
  { rewrite updateDeviceStatus_run.
    now destruct (DeviceStatusEnum_eqb _ _). }
  destruct Hstatus as (Hsr & Hsp).
  change (Emit (onFromRadio m) :: ?l) with ([Emit (onFromRadio m)] ++ l).
  rewrite !channelRequests_app, !pushed_app.
  rewrite Hareq, Hapush, Hreq, Hpush, Hsr, Hsp, !app_nil_r.
  split; [now destruct (n =? IMeshDevice.configId s)%Z |].
  split; [now destruct (n =? IMeshDevice.configId s)%Z |].
  split; [congruence | unfold count; congruence].
Qed.

(** X15. The handshake uses what the [myInfo] frame reported: on a device
    whose subscriptions are registered, once a [myInfo] frame has been
    handled, the completion marker makes the device request the channels 0
    to the reported [maxChannels], each request built with the reported
    [myNodeNum] as sender and destination, after the peer announcement; the
    device ends in [DEVICE_CONFIGURED] with the reported node info. *)
Theorem handshake_uses_reported_node_info
    (raw1 raw2 : bytes) (m1 m2 : FromRadio.t) (info : MyNodeInfo.t) (n : Z)
    (s : IMeshDevice.t) :
  IMeshDevice.subscribed s = true ->
  FromRadio_fromBinary raw1 = Some m1 ->
  FromRadio.payloadVariant m1 = FromRadio.myInfo info ->
  FromRadio_fromBinary raw2 = Some m2 ->
  FromRadio.payloadVariant m2 = FromRadio.configCompleteId n ->
  let r1 := IMeshDevice.handleFromRadio raw1 s in
  let r2 := IMeshDevice.handleFromRadio raw2 (final r1) in
  let count := Z.to_nat (MyNodeInfo.maxChannels info + 1) in
  List.length (channelRequests (trace r2)) = count
  /\ pushed (trace r2)
     = queued 0 peerInfo_frame None
         ++ flat_map
              (fun k =>
                 let id := IMeshDevice.randId (IMeshDevice.randomCalls s + k) in
                 queued id
                   (admin_frame (MyNodeInfo.myNodeNum info) id
                      (AdminMessage.getChannelRequest (Z.of_nat k + 1)))
                   (Some resolves))
              (seq 0 count)
  /\ IMeshDevice.deviceStatus (final r2) = DEVICE_CONFIGURED
  /\ IMeshDevice.myNodeInfo (final r2) = info.
Proof.
  intros Hsub Hraw1 Hkind1 Hraw2 Hkind2 r1 r2 count.
  assert (Hr1 : final r1 = IMeshDevice.onMyNodeInfo_subscriber info s).
  { unfold r1; rewrite (handleFromRadio_myInfo raw1 m1 info s Hraw1 Hkind1).
    now rewrite final_run, Hsub. }
  destruct (configComplete_requests raw2 m2 n (final r1) Hraw2 Hkind2)
    as (Hreq & Hpush & Hmi & _).
  destruct (configComplete_outcome raw2 m2 n (final r1) Hraw2 Hkind2)
    as (_ & _ & Hst & _).
  cbn zeta in Hreq, Hpush, Hmi, Hst; fold r2 in Hreq, Hpush, Hmi, Hst.
  rewrite Hr1 in Hreq, Hpush, Hmi, Hst.
  cbn [IMeshDevice.onMyNodeInfo_subscriber IMeshDevice.myNodeInfo
         IMeshDevice.randomCalls IMeshDevice.subscribed] in Hreq, Hpush, Hmi, Hst.
  rewrite Hsub in Hst.
  split; [rewrite Hreq, length_map, length_seq; reflexivity |].
  split; [exact Hpush |].
  split; [exact Hst | exact Hmi].
Qed.

(** *** The HTTP transport *)

Lemma fetched_app (xs ys : list Action) :
  fetched (xs ++ ys) = fetched xs ++ fetched ys.
Proof. apply observe_app. Qed.

Lemma intervals_app (xs ys : list Action) :
  intervals (xs ++ ys) = intervals xs ++ intervals ys.
Proof. apply observe_app. Qed.

Lemma teardowns_app (xs ys : list Action) :
  teardowns (xs ++ ys) = teardowns xs ++ teardowns ys.
Proof. apply filter_app. Qed.

Lemma inherited_run {A} (m : M IMeshDevice.t A) (h : IHTTPConnection.t) :
  IHTTPConnection.inherited m h
  = (result (m (IHTTPConnection.device h)),
     IHTTPConnection.set_device (final (m (IHTTPConnection.device h))) h,
     trace (m (IHTTPConnection.device h))).
Proof.
  unfold IHTTPConnection.inherited.
  now destruct (m (IHTTPConnection.device h)) as [[? ?] ?].
Qed.

Lemma inherited_updateDeviceStatus status (h : IHTTPConnection.t) :
  let r := IMeshDevice.updateDeviceStatus status (IHTTPConnection.device h) in
  IHTTPConnection.inherited (IMeshDevice.updateDeviceStatus status) h
  = (Some tt, IHTTPConnection.set_device (final r) h, trace r).
Proof.
  intros r; rewrite inherited_run; fold r.
  unfold r at 1; now rewrite updateDeviceStatus_returns.
Qed.

Lemma inherited_log scope emitter message level packet (h : IHTTPConnection.t) :
  IHTTPConnection.inherited
    (IMeshDevice.log scope emitter message level packet) h
  = (Some tt, IHTTPConnection.set_device (IHTTPConnection.device h) h,
     log_effects scope emitter message level packet).
Proof. now rewrite inherited_run, log_run. Qed.

Lemma configure_run (s : IMeshDevice.t) :
  let status := IMeshDevice.updateDeviceStatus DEVICE_CONFIGURING s in
  IMeshDevice.configure s
  = (Some tt, final status,
     log_effects iMeshDevice Emitter.configure "Reading device configuration"
       DEBUG None
       ++ trace status
       ++ [SetTimeout
             (deferred_sendRaw 0
                (ToRadio_toBinary (ToRadio.wantConfigId (IMeshDevice.configId s))))
             500]).
Proof.
  intros status; unfold IMeshDevice.configure.
  erewrite bind_returns by apply log_run.
  pose proof (run_eta status) as Hstatus.
  rewrite (updateDeviceStatus_returns _ _ : result status = _) in Hstatus.
  erewrite bind_returns by exact Hstatus.
  erewrite bind_returns by (unfold gets; reflexivity).
  destruct (updateDeviceStatus_fields DEVICE_CONFIGURING s) as (Hci & _).
  cbn zeta in Hci; fold status in Hci; rewrite Hci.
  reflexivity.
Qed.

(** With the status subscription registered, [updateDeviceStatus] leaves
    the device in the status asked for. *)
Lemma updateDeviceStatus_subscribed status (s : IMeshDevice.t) :
  IMeshDevice.subscribed s = true ->
  let r := IMeshDevice.updateDeviceStatus status s in
  IMeshDevice.deviceStatus (final r) = status
  /\ IMeshDevice.subscribed (final r) = true
  /\ trace r
     = (if DeviceStatusEnum_eqb status (IMeshDevice.deviceStatus s)
        then [] else [Emit (onDeviceStatus status)])
  /\ final r
     = (if DeviceStatusEnum_eqb status (IMeshDevice.deviceStatus s)
        then s else IMeshDevice.onDeviceStatus_subscriber status s)
  /\ IMeshDevice.configId (final r) = IMeshDevice.configId s
  /\ IMeshDevice.queue (final r) = IMeshDevice.queue s.
Proof.
  intros Hsub r; subst r; rewrite updateDeviceStatus_run, Hsub.
  destruct (DeviceStatusEnum_eqb_spec status (IMeshDevice.deviceStatus s));
    rewrite final_run, trace_run; now repeat split.
Qed.

(** With the subscriptions cancelled, [updateDeviceStatus] changes
    nothing. *)
Lemma updateDeviceStatus_cancelled status (s : IMeshDevice.t) :
  IMeshDevice.subscribed s = false ->
  let r := IMeshDevice.updateDeviceStatus status s in
  final r = s
  /\ trace r
     = (if DeviceStatusEnum_eqb status (IMeshDevice.deviceStatus s)
        then [] else [Emit (onDeviceStatus status)]).
Proof.
  intros Hsub r; subst r; rewrite updateDeviceStatus_run, Hsub.
  now destruct (DeviceStatusEnum_eqb _ _).
Qed.

Lemma ping_run (outcome : option string) (h : IHTTPConnection.t) :
  let status :=
    IMeshDevice.updateDeviceStatus
      (if is_none outcome then DEVICE_CONNECTED else DEVICE_RECONNECTING)
      (IHTTPConnection.device h) in
  IHTTPConnection.ping outcome h
  = (Some (is_none outcome),
     IHTTPConnection.set_device (final status) h,
     log_effects iHttpConnection Emitter.ping "Attempting device ping." DEBUG None
       ++ [Fetch (IHTTPConnection.url h ++ "/hotspot-detect.html")%string]
       ++ match outcome with
          | Some message =>
              log_effects iHttpConnection Emitter.ping message ERROR None
          | None => []
          end
       ++ trace status).
Proof.
  intros status; unfold IHTTPConnection.ping.
  erewrite bind_returns by apply inherited_log.
  erewrite bind_returns by (unfold gets; reflexivity).
  erewrite bind_returns by (unfold perform; reflexivity).
  destruct outcome as [message |]; cbn [is_none] in status.
  - erewrite bind_returns by apply inherited_log.
    erewrite bind_returns by apply inherited_updateDeviceStatus.
    unfold ret; rewrite !result_run, !final_run, !trace_run, app_nil_r.
    reflexivity.
  - erewrite bind_returns by apply inherited_updateDeviceStatus.
    unfold ret; rewrite !result_run, !final_run, !trace_run, app_nil_r.
    reflexivity.
Qed.

(** X16. [ping] never throws.  It fetches [url] followed by
    [/hotspot-detect.html] once and returns whether the fetch resolved; it
    then asks for [DEVICE_CONNECTED] when it did and for
    [DEVICE_RECONNECTING], after an ERROR entry, when it did not.  The URL,
    the read loop and the abort flag are left as they were. *)
Theorem ping_reports_the_fetch
    (outcome : option string) (h : IHTTPConnection.t) :
  let r := IHTTPConnection.ping outcome h in
  let asked := if is_none outcome then DEVICE_CONNECTED else DEVICE_RECONNECTING in
  result r = Some (is_none outcome)
  /\ fetched (trace r)
     = [(IHTTPConnection.url h ++ "/hotspot-detect.html")%string]
  /\ statuses (trace r)
     = (if DeviceStatusEnum_eqb asked
             (IMeshDevice.deviceStatus (IHTTPConnection.device h))
        then [] else [asked])
  /\ levels (trace r)
     = DEBUG :: (if is_none outcome then [] else [ERROR])
  /\ IHTTPConnection.url (final r) = IHTTPConnection.url h
  /\ IHTTPConnection.readLoop (final r) = IHTTPConnection.readLoop h
  /\ IHTTPConnection.aborted (final r) = IHTTPConnection.aborted h.
Proof.
  intros r asked; subst r; rewrite ping_run.
  rewrite result_run, final_run, trace_run; fold asked.
  rewrite updateDeviceStatus_run.
  destruct outcome as [message |];
    destruct (DeviceStatusEnum_eqb asked _); now repeat split.
Qed.

(** [connect], by the status after its first request and by the outcome of
    the ping. *)
Lemma connect_run (parameters : HTTPConnectionParameters.t)
    (outcome : option string) (h : IHTTPConnection.t) :
  let entered :=
    IMeshDevice.updateDeviceStatus DEVICE_CONNECTING (IHTTPConnection.device h) in
  let h1 :=
    IHTTPConnection.set_url (connect_url parameters)
      (IHTTPConnection.set_receiveBatchRequests
         match HTTPConnectionParameters.receiveBatchRequests parameters with
         | Some b => b
         | None => false
         end
         (IHTTPConnection.set_device (final entered) h)) in
  let retry (status : DeviceStatusEnum) :=
    if DeviceStatusEnum_eqb status DEVICE_DISCONNECTED then []
    else [SetTimeout (deferred_connect parameters) 10000] in
  let pinged := IHTTPConnection.ping outcome h1 in
  let configured :=
    IMeshDevice.configure (IHTTPConnection.device (final pinged)) in
  IHTTPConnection.connect parameters outcome h
  = if DeviceStatusEnum_eqb (IMeshDevice.deviceStatus (final entered))
         DEVICE_CONNECTING
    then
      if is_none outcome
      then (Some tt,
            IHTTPConnection.set_readLoop (Some (connect_timer parameters))
              (IHTTPConnection.set_device (final configured) (final pinged)),
            trace entered ++ trace pinged
              ++ log_effects iHttpConnection Emitter.connect
                   "Ping succeeded, starting configuration and request timer."
                   DEBUG None
              ++ trace configured
              ++ [SetInterval (connect_timer parameters)])
      else (Some tt, final pinged,
            trace entered ++ trace pinged
              ++ retry (IMeshDevice.deviceStatus
                          (IHTTPConnection.device (final pinged))))
    else (Some tt, h1,
          trace entered
            ++ retry (IMeshDevice.deviceStatus (final entered))).
Proof.
  destruct parameters as [address tls batch interval].
  intros entered h1 retry pinged configured.
  unfold IHTTPConnection.connect.
  erewrite bind_returns by apply inherited_updateDeviceStatus.
  erewrite bind_returns by (unfold modify; reflexivity).
  erewrite bind_returns by (unfold modify; reflexivity).
  erewrite bind_returns by (unfold gets; reflexivity).
  cbn [HTTPConnectionParameters.address HTTPConnectionParameters.tls
         HTTPConnectionParameters.receiveBatchRequests
         HTTPConnectionParameters.fetchInterval
         IHTTPConnection.device IHTTPConnection.set_url
         IHTTPConnection.set_receiveBatchRequests IHTTPConnection.set_device].
  fold entered.
  destruct (DeviceStatusEnum_eqb (IMeshDevice.deviceStatus (final entered))
              DEVICE_CONNECTING).
  - pose proof (run_eta pinged) as Hping.
    assert (Hresult : result pinged = Some (is_none outcome))
      by (unfold pinged; now rewrite ping_run).
    rewrite Hresult in Hping.
    erewrite bind_returns by exact Hping.
    destruct outcome as [message |]; cbn [is_none].
    + erewrite bind_returns by (unfold gets; reflexivity).
      unfold when, retry.
      destruct (DeviceStatusEnum_eqb _ DEVICE_DISCONNECTED);
        unfold ret, perform;
        rewrite !result_run, !final_run, !trace_run, ?app_nil_r; reflexivity.
    + erewrite bind_returns by apply inherited_log.
      pose proof (configure_run (IHTTPConnection.device (final pinged)))
        as Hconfigure; cbn zeta in Hconfigure.
      assert (Hinherited :
                IHTTPConnection.inherited IMeshDevice.configure
                  (IHTTPConnection.set_device
                     (IHTTPConnection.device (final pinged)) (final pinged))
                = (Some tt,
                   IHTTPConnection.set_device (final configured)
                     (IHTTPConnection.set_device
                        (IHTTPConnection.device (final pinged)) (final pinged)),
                   trace configured)).
      { rewrite inherited_run.
        cbn [IHTTPConnection.device IHTTPConnection.set_device].
        fold configured; unfold configured at 1; now rewrite Hconfigure. }
      erewrite bind_returns by exact Hinherited.
      erewrite bind_returns by (unfold perform; reflexivity).
      unfold modify;
        rewrite !result_run, !final_run, !trace_run, ?app_nil_r; reflexivity.
  - erewrite bind_returns by (unfold ret; reflexivity).
    cbn beta iota.
    erewrite bind_returns by (unfold gets; reflexivity).
    unfold when, retry.
    cbn [IHTTPConnection.device IHTTPConnection.set_url
           IHTTPConnection.set_receiveBatchRequests IHTTPConnection.set_device].
    fold entered.
    destruct (DeviceStatusEnum_eqb _ DEVICE_DISCONNECTED);
      unfold ret, perform;
      rewrite !result_run, !final_run, !trace_run, ?app_nil_r; reflexivity.
Qed.

(** X17. On a connection whose subscriptions are registered, [connect]
    with a ping that resolves goes through [DEVICE_CONNECTING] (emitted
    unless it is the status already), [DEVICE_CONNECTED] and
    [DEVICE_CONFIGURING]; it pings the URL made of the scheme and the address,
    schedules the want-config request with the device's [configId] 500 ms
    later, and starts the read loop with the given interval, or 5000 ms when
    none or 0 is given, the loop being stored in [readLoop].  Nothing is
    pushed on the queue yet. *)
Theorem connect_starts_configuration_and_read_loop
    (parameters : HTTPConnectionParameters.t) (h : IHTTPConnection.t) :
  IMeshDevice.subscribed (IHTTPConnection.device h) = true ->
  let d := IHTTPConnection.device h in
  let r := IHTTPConnection.connect parameters None h in
  result r = Some tt
  /\ statuses (trace r)
     = (if DeviceStatusEnum_eqb DEVICE_CONNECTING (IMeshDevice.deviceStatus d)
        then [] else [DEVICE_CONNECTING])
         ++ [DEVICE_CONNECTED; DEVICE_CONFIGURING]
  /\ fetched (trace r)
     = [(connect_url parameters ++ "/hotspot-detect.html")%string]
  /\ timers (trace r)
     = [(deferred_sendRaw 0
           (ToRadio_toBinary (ToRadio.wantConfigId (IMeshDevice.configId d))),
         500)]
  /\ intervals (trace r) = [connect_timer parameters]
  /\ pushed (trace r) = []
  /\ IHTTPConnection.readLoop (final r) = Some (connect_timer parameters)
  /\ IHTTPConnection.url (final r) = connect_url parameters
  /\ IMeshDevice.deviceStatus (IHTTPConnection.device (final r))
     = DEVICE_CONFIGURING
  /\ IMeshDevice.isConfigured (IHTTPConnection.device (final r)) = false
  /\ IMeshDevice.queue (IHTTPConnection.device (final r)) = IMeshDevice.queue d.
Proof.
  intros Hsub d r; subst r.
  set (entered := IMeshDevice.updateDeviceStatus DEVICE_CONNECTING d).
  destruct (updateDeviceStatus_subscribed DEVICE_CONNECTING d Hsub)
    as (E1 & E2 & E3 & _ & E5 & E6).
  fold entered in E1, E2, E3, E5, E6.
  set (connected := IMeshDevice.updateDeviceStatus DEVICE_CONNECTED (final entered)).
  destruct (updateDeviceStatus_subscribed DEVICE_CONNECTED (final entered) E2)
    as (P1 & P2 & P3 & _ & P5 & P6).
  fold connected in P1, P2, P3, P5, P6.
  rewrite E1 in P3; cbn [DeviceStatusEnum_eqb] in P3.
  set (configuring :=
         IMeshDevice.updateDeviceStatus DEVICE_CONFIGURING (final connected)).
  destruct (updateDeviceStatus_subscribed DEVICE_CONFIGURING (final connected) P2)
    as (C1 & _ & C3 & C4 & _ & C6).
  fold configuring in C1, C3, C4, C6.
  rewrite P1 in C3, C4; cbn [DeviceStatusEnum_eqb] in C3, C4.
  assert (C5 : IMeshDevice.isConfigured (final configuring) = false)
    by now rewrite C4.
  rewrite connect_run; cbn zeta; fold d entered.
  rewrite E1, DeviceStatusEnum_eqb_refl; cbn [is_none].
  rewrite ping_run; cbn zeta.
  cbn [is_none IHTTPConnection.device IHTTPConnection.url
         IHTTPConnection.readLoop IHTTPConnection.set_url
         IHTTPConnection.set_receiveBatchRequests IHTTPConnection.set_device
         IHTTPConnection.set_readLoop].
  rewrite !result_run, !final_run, !trace_run.
  cbn [IHTTPConnection.device IHTTPConnection.url
         IHTTPConnection.readLoop IHTTPConnection.set_url
         IHTTPConnection.set_receiveBatchRequests IHTTPConnection.set_device
         IHTTPConnection.set_readLoop].
  fold connected.
  rewrite configure_run; cbn zeta; rewrite final_run, trace_run.
  fold configuring.
  rewrite ?E3, ?P3, ?C3, ?C1, ?C5, ?C6, ?P5, ?P6, ?E5, ?E6.
  rewrite !statuses_app, !fetched_app, !timers_app, !intervals_app, !pushed_app.
  destruct (DeviceStatusEnum_eqb DEVICE_CONNECTING (IMeshDevice.deviceStatus d)).
  - split; [reflexivity |].
    split; [reflexivity |].
    split; [reflexivity |].
    split; [reflexivity |].
    split; [reflexivity |].
    split; [reflexivity |].
    split; [reflexivity |].
    split; [reflexivity |].
    split; [reflexivity |].
    split; reflexivity.
  - split; [reflexivity |].
    split; [reflexivity |].
    split; [reflexivity |].
    split; [reflexivity |].
    split; [reflexivity |].
    split; [reflexivity |].
    split; [reflexivity |].
    split; [reflexivity |].
    split; [reflexivity |].
    split; reflexivity.
Qed.

(** X18. On a connection whose subscriptions are registered, [connect]
    with a ping that is rejected ends in [DEVICE_RECONNECTING] and schedules
    one retry, 10000 ms later, with the parameters it was given.  It neither
    starts the configuration nor the read loop, and [readLoop] is left as it
    was. *)
Theorem connect_retries_after_failed_ping
    (parameters : HTTPConnectionParameters.t) (message : string)
    (h : IHTTPConnection.t) :
  IMeshDevice.subscribed (IHTTPConnection.device h) = true ->
  let d := IHTTPConnection.device h in
  let r := IHTTPConnection.connect parameters (Some message) h in
  result r = Some tt
  /\ statuses (trace r)
     = (if DeviceStatusEnum_eqb DEVICE_CONNECTING (IMeshDevice.deviceStatus d)
        then [] else [DEVICE_CONNECTING])
         ++ [DEVICE_RECONNECTING]
  /\ fetched (trace r)
     = [(connect_url parameters ++ "/hotspot-detect.html")%string]
  /\ timers (trace r) = [(deferred_connect parameters, 10000)]
  /\ intervals (trace r) = []
  /\ pushed (trace r) = []
  /\ levels (trace r) = [DEBUG; ERROR]
  /\ IHTTPConnection.readLoop (final r) = IHTTPConnection.readLoop h
  /\ IHTTPConnection.url (final r) = connect_url parameters
  /\ IMeshDevice.deviceStatus (IHTTPConnection.device (final r))
     = DEVICE_RECONNECTING.
Proof.
  intros Hsub d r; subst r.
  set (entered := IMeshDevice.updateDeviceStatus DEVICE_CONNECTING d).
  destruct (updateDeviceStatus_subscribed DEVICE_CONNECTING d Hsub)
    as (E1 & E2 & E3 & _).
  fold entered in E1, E2, E3.
  set (lost := IMeshDevice.updateDeviceStatus DEVICE_RECONNECTING (final entered)).
  destruct (updateDeviceStatus_subscribed DEVICE_RECONNECTING (final entered) E2)
    as (P1 & _ & P3 & _).
  fold lost in P1, P3.
  rewrite E1 in P3; cbn [DeviceStatusEnum_eqb] in P3.
  rewrite connect_run; cbn zeta; fold d entered.
  rewrite E1, DeviceStatusEnum_eqb_refl; cbn [is_none].
  rewrite ping_run; cbn zeta.
  cbn [is_none IHTTPConnection.device IHTTPConnection.url
         IHTTPConnection.readLoop IHTTPConnection.set_url
         IHTTPConnection.set_receiveBatchRequests IHTTPConnection.set_device].
  rewrite !result_run, !final_run, !trace_run.
  cbn [IHTTPConnection.device IHTTPConnection.url
         IHTTPConnection.readLoop IHTTPConnection.set_url
         IHTTPConnection.set_receiveBatchRequests IHTTPConnection.set_device].
  fold lost.
  rewrite E3, P3, P1.
  change (DeviceStatusEnum_eqb DEVICE_RECONNECTING DEVICE_DISCONNECTED)
    with false; cbn iota.
  rewrite !statuses_app, !fetched_app, !timers_app, !intervals_app, !pushed_app,
    !levels_app.
  destruct (DeviceStatusEnum_eqb DEVICE_CONNECTING (IMeshDevice.deviceStatus d)).
  - split; [reflexivity |].
    split; [reflexivity |].
    split; [reflexivity |].
    split; [reflexivity |].
    split; [reflexivity |].
    split; [reflexivity |].
    split; [reflexivity |].
    split; [reflexivity |].
    split; reflexivity.
  - split; [reflexivity |].
    split; [reflexivity |].
    split; [reflexivity |].
    split; [reflexivity |].
    split; [reflexivity |].
    split; [reflexivity |].
    split; [reflexivity |].
    split; [reflexivity |].
    split; reflexivity.
Qed.

Lemma disconnect_run (h : IHTTPConnection.t) :
  let status :=
    IMeshDevice.updateDeviceStatus DEVICE_DISCONNECTED (IHTTPConnection.device h) in
  let h1 :=
    IHTTPConnection.set_device (final status) (IHTTPConnection.set_aborted true h) in
  IHTTPConnection.disconnect h
  = match IHTTPConnection.readLoop h with
    | Some timer =>
        (Some tt,
         IHTTPConnection.set_device
           (IMeshDevice.set_queue (Queue_clear (IMeshDevice.queue (final status)))
              (IMeshDevice.set_subscribed false (final status)))
           h1,
         Abort :: trace status ++ [ClearInterval timer; CancelAll; QueueClear])
    | None => (Some tt, h1, Abort :: trace status)
    end.
Proof.
  intros status h1; unfold IHTTPConnection.disconnect.
  erewrite bind_returns by (unfold perform; reflexivity).
  erewrite bind_returns by (unfold modify; reflexivity).
  erewrite bind_returns by apply inherited_updateDeviceStatus.
  erewrite bind_returns by (unfold gets; reflexivity).
  cbn [IHTTPConnection.device IHTTPConnection.readLoop
         IHTTPConnection.set_device IHTTPConnection.set_aborted].
  fold status.
  destruct (IHTTPConnection.readLoop h) as [timer |].
  - erewrite bind_returns by (unfold perform; reflexivity).
    rewrite inherited_run.
    cbn [IHTTPConnection.device IHTTPConnection.set_device].
    rewrite complete_run, !result_run, !final_run, !trace_run.
    reflexivity.
  - unfold ret; rewrite !result_run, !final_run, !trace_run, app_nil_r.
    reflexivity.
Qed.

(** X19. A connection that was disconnected while its subscriptions were
    registered and its read loop was running cannot be connected again:
    [complete] cancelled the subscription that keeps [deviceStatus] up to
    date, so [connect] emits [DEVICE_CONNECTING] to no effect, sees the
    status still at [DEVICE_DISCONNECTED], and neither pings, nor schedules a
    retry, nor starts a read loop, whatever the ping would have answered. *)
Theorem connect_after_disconnect_does_nothing
    (parameters : HTTPConnectionParameters.t) (outcome : option string)
    (timer : Interval) (h : IHTTPConnection.t) :
  IHTTPConnection.readLoop h = Some timer ->
  IMeshDevice.subscribed (IHTTPConnection.device h) = true ->
  let ended := final (IHTTPConnection.disconnect h) in
  let r := IHTTPConnection.connect parameters outcome ended in
  result r = Some tt
  /\ trace r = [Emit (onDeviceStatus DEVICE_CONNECTING)]
  /\ IMeshDevice.deviceStatus (IHTTPConnection.device (final r))
     = DEVICE_DISCONNECTED
  /\ IHTTPConnection.device (final r) = IHTTPConnection.device ended
  /\ IHTTPConnection.url (final r) = connect_url parameters.
Proof.
  intros Hloop Hsub ended r.
  destruct (updateDeviceStatus_subscribed DEVICE_DISCONNECTED
              (IHTTPConnection.device h) Hsub) as (D1 & _).
  assert (Hended :
            IMeshDevice.subscribed (IHTTPConnection.device ended) = false
            /\ IMeshDevice.deviceStatus (IHTTPConnection.device ended)
               = DEVICE_DISCONNECTED).
  { unfold ended; rewrite disconnect_run, Hloop; cbn zeta.
    rewrite final_run.
    cbn [IHTTPConnection.device IHTTPConnection.set_device
           IMeshDevice.subscribed IMeshDevice.deviceStatus
           IMeshDevice.set_queue IMeshDevice.set_subscribed].
    split; [reflexivity | exact D1]. }
  destruct Hended as (Hcancelled & Hstatus).
  destruct (updateDeviceStatus_cancelled DEVICE_CONNECTING
              (IHTTPConnection.device ended) Hcancelled) as (F1 & F2).
  rewrite Hstatus in F2; cbn [DeviceStatusEnum_eqb] in F2.
  unfold r; rewrite connect_run; cbn zeta.
  rewrite F1, F2, Hstatus; cbn [DeviceStatusEnum_eqb].
  rewrite result_run, final_run, trace_run.
  split; [reflexivity |].
  split; [reflexivity |].
  split; [exact Hstatus |].
  split; reflexivity.
Qed.

(** X20. [disconnect] does not reset [readLoop], so a second [disconnect]
    repeats the teardown of the first: it aborts again and, when a read loop
    had been started, clears the same interval, cancels the subscriptions and
    clears the queue once more. *)
Theorem disconnect_twice_repeats_the_teardown (h : IHTTPConnection.t) :
  let r1 := IHTTPConnection.disconnect h in
  let r2 := IHTTPConnection.disconnect (final r1) in
  IHTTPConnection.readLoop (final r1) = IHTTPConnection.readLoop h
  /\ teardowns (trace r1)
     = Abort
         :: match IHTTPConnection.readLoop h with
            | Some timer => [ClearInterval timer; CancelAll; QueueClear]
            | None => []
            end
  /\ teardowns (trace r2) = teardowns (trace r1)
  /\ result r2 = Some tt.
Proof.
  intros r1 r2.
  assert (Hstatus : forall d,
            teardowns (trace (IMeshDevice.updateDeviceStatus
                                DEVICE_DISCONNECTED d)) = []).
  { intros d; rewrite updateDeviceStatus_run.
    now destruct (DeviceStatusEnum_eqb _ _). }
  assert (Hloop : IHTTPConnection.readLoop (final r1) = IHTTPConnection.readLoop h).
  { unfold r1; rewrite disconnect_run; cbn zeta.
    destruct (IHTTPConnection.readLoop h) eqn:Hsame; rewrite final_run;
      cbn [IHTTPConnection.readLoop IHTTPConnection.set_device
             IHTTPConnection.set_aborted]; exact Hsame. }
  assert (Hfirst : forall h',
            teardowns (trace (IHTTPConnection.disconnect h'))
            = Abort
                :: match IHTTPConnection.readLoop h' with
                   | Some timer => [ClearInterval timer; CancelAll; QueueClear]
                   | None => []
                   end
            /\ result (IHTTPConnection.disconnect h') = Some tt).
  { intros h'; rewrite disconnect_run; cbn zeta.
    destruct (IHTTPConnection.readLoop h') as [timer |];
      rewrite trace_run, result_run;
      change (Abort :: ?l) with ([Abort] ++ l);
      rewrite !teardowns_app, Hstatus; split; reflexivity. }
  destruct (Hfirst h) as (H1 & _).
  destruct (Hfirst (final r1)) as (H2 & Hr2).
  fold r1 in H1; fold r2 in H2, Hr2.
  rewrite Hloop in H2.
  split; [exact Hloop |].
  split; [exact H1 |].
  split; [congruence | exact Hr2].
Qed.

(** *** Further consequences *)

(** X21. A mesh packet that arrives in a frame goes through the three
    dispatchers in order: the frame is emitted on [onFromRadio], the packet on
    [onMeshPacket], the heartbeat when the sender is another node, then the
    request id of a decoded payload is handed to [queue.processAck], whose
    callbacks run, and only then does the port dispatch publish its event.
    The queue is the one [processAck] left. *)
Theorem handleFromRadio_packet_dispatch_order
    (raw : bytes) (m : FromRadio.t) (p : MeshPacket.t) (d : Data.t)
    (s : IMeshDevice.t) :
  FromRadio_fromBinary raw = Some m ->
  FromRadio.payloadVariant m = FromRadio.packet p ->
  MeshPacket.payloadVariant p = MeshPacket.decoded d ->
  let r := IMeshDevice.handleFromRadio raw s in
  let acknowledged := Queue_processAck (Data.requestId d) (IMeshDevice.queue s) in
  let port :=
    IMeshDevice.handleDataPacket d p (after_processAck (Data.requestId d) s) in
  trace r
  = Emit (onFromRadio m) :: Emit (onMeshPacket p)
      :: (if (MeshPacket.from p
              =? MyNodeInfo.myNodeNum (IMeshDevice.myNodeInfo s))%Z
          then [] else [Emit onMeshHeartbeat])
      ++ QueueProcessAck (Data.requestId d)
      :: map (fun c => Invoke (fst c) (Some (snd c))) (snd acknowledged)
      ++ trace port
  /\ forallb is_report (trace port) = true
  /\ acked (trace r) = [Data.requestId d]
  /\ IMeshDevice.queue (final r) = fst acknowledged
  /\ (Data.portnum d = TEXT_MESSAGE_APP ->
      published (trace port)
      = [onTextPacket p (TextDecoder_decode (Data.payload d))]).
Proof.
  intros Hraw Hkind Hdecoded r acknowledged port; subst r.
  rewrite (handleFromRadio_packet raw m p s Hraw Hkind).
  rewrite (handleMeshPacket_decoded p d s Hdecoded).
  rewrite !final_run, !trace_run.
  destruct (handleDataPacket_reports d p (after_processAck (Data.requestId d) s))
    as (_ & Hreports).
  fold port in Hreports |- *.
  destruct (reports_silent _ Hreports) as (Hacked & _).
  split; [reflexivity |].
  split; [exact Hreports |].
  split.
  { change (Emit (onFromRadio m) :: Emit (onMeshPacket p) :: ?l)
      with ([Emit (onFromRadio m); Emit (onMeshPacket p)] ++ l).
    rewrite !acked_app, acked_processAck_effects, Hacked.
    now destruct (MeshPacket.from p =? _)%Z. }
  split; [reflexivity |].
  intros Hport; unfold port.
  now rewrite (handleDataPacket_text d p _ Hport), trace_run.
Qed.

(** X22. Once [complete] has run, [updateDeviceStatus] no longer
    eliminates duplicates: the status field is not kept up to date any more,
    so every call with a status other than the one held when [complete] ran
    emits again, and the field keeps its old value. *)
Theorem updateDeviceStatus_after_complete_repeats
    (status : DeviceStatusEnum) (s : IMeshDevice.t) :
  status <> IMeshDevice.deviceStatus s ->
  let ended := final (IMeshDevice.complete s) in
  let r1 := IMeshDevice.updateDeviceStatus status ended in
  let r2 := IMeshDevice.updateDeviceStatus status (final r1) in
  statuses (trace r1) = [status]
  /\ statuses (trace r2) = [status]
  /\ IMeshDevice.deviceStatus (final r2) = IMeshDevice.deviceStatus s
  /\ IMeshDevice.isConfigured (final r2) = IMeshDevice.isConfigured s.
Proof.
  intros Hdiffers ended r1 r2.
  assert (Hended : ended
                   = IMeshDevice.set_queue (Queue_clear (IMeshDevice.queue s))
                       (IMeshDevice.set_subscribed false s))
    by (unfold ended; now rewrite complete_run).
  assert (Hcancelled : IMeshDevice.subscribed ended = false)
    by now rewrite Hended.
  assert (Hstatus : IMeshDevice.deviceStatus ended = IMeshDevice.deviceStatus s)
    by now rewrite Hended.
  destruct (updateDeviceStatus_cancelled status ended Hcancelled) as (F1 & T1).
  fold r1 in F1, T1.
  assert (Hcancelled' : IMeshDevice.subscribed (final r1) = false)
    by now rewrite F1.
  destruct (updateDeviceStatus_cancelled status (final r1) Hcancelled')
    as (F2 & T2).
  fold r2 in F2, T2.
  rewrite F1 in T2; rewrite Hstatus in T1, T2.
  destruct (DeviceStatusEnum_eqb_spec status (IMeshDevice.deviceStatus s))
    as [Heq | _]; [now elim Hdiffers |].
  rewrite T1, T2, F2, F1, Hended.
  now repeat split.
Qed.

(** X23. Every completion marker makes the device request the channels
    again: a second marker, on a device whose subscriptions are registered,
    logs the same channel requests as the first and draws as many fresh
    identifiers.  Only the status event is not repeated, the device being in
    [DEVICE_CONFIGURED] already. *)
Theorem completion_marker_twice_requests_again
    (raw : bytes) (m : FromRadio.t) (n : Z) (s : IMeshDevice.t) :
  IMeshDevice.subscribed s = true ->
  FromRadio_fromBinary raw = Some m ->
  FromRadio.payloadVariant m = FromRadio.configCompleteId n ->
  let r1 := IMeshDevice.handleFromRadio raw s in
  let r2 := IMeshDevice.handleFromRadio raw (final r1) in
  let count := Z.to_nat (MyNodeInfo.maxChannels (IMeshDevice.myNodeInfo s) + 1) in
  channelRequests (trace r2) = channelRequests (trace r1)
  /\ List.length (channelRequests (trace r2)) = count
  /\ statuses (trace r2) = []
  /\ IMeshDevice.randomCalls (final r1) = (IMeshDevice.randomCalls s + count)%nat
  /\ IMeshDevice.randomCalls (final r2)
     = (IMeshDevice.randomCalls s + count + count)%nat
  /\ IMeshDevice.deviceStatus (final r2) = DEVICE_CONFIGURED.
Proof.
  intros Hsub Hraw Hkind r1 r2 count.
  destruct (configComplete_requests raw m n s Hraw Hkind)
    as (Hreq1 & _ & Hmi1 & Hrc1).
  destruct (configComplete_outcome raw m n s Hraw Hkind)
    as (_ & _ & Hst1 & _ & Hsu1 & _).
  cbn zeta in Hreq1, Hmi1, Hrc1, Hst1, Hsu1.
  fold r1 count in Hreq1, Hmi1, Hrc1, Hst1, Hsu1.
  rewrite Hsub in Hst1, Hsu1.
  destruct (configComplete_requests raw m n (final r1) Hraw Hkind)
    as (Hreq2 & _ & _ & Hrc2).
  destruct (configComplete_outcome raw m n (final r1) Hraw Hkind)
    as (_ & Hstatuses2 & Hst2 & _).
  cbn zeta in Hreq2, Hrc2, Hstatuses2, Hst2.
  fold r2 in Hreq2, Hrc2, Hstatuses2, Hst2.
  rewrite Hmi1 in Hreq2, Hrc2; fold count in Hreq2, Hrc2.
  rewrite Hst1 in Hstatuses2; rewrite Hsu1 in Hst2; rewrite Hrc1 in Hrc2.
  cbn [DeviceStatusEnum_eqb] in Hstatuses2.
  split; [congruence |].
  split; [rewrite Hreq2, length_map, length_seq; reflexivity |].
  split; [exact Hstatuses2 |].
  split; [exact Hrc1 |].
  split; [exact Hrc2 | exact Hst2].
Qed.

(** *** Identifiers *)

Lemma reaches_iff (a b k N : Z) :
  0 < a -> 0 < b -> 0 <= N -> 0 <= N + k ->
  Binary64.reaches a b k = true <-> b * 2 ^ (N + k) <= a * 2 ^ N.
Proof.
  intros Ha Hb HN HNk; unfold Binary64.reaches.
  destruct (Z.leb_spec 0 k) as [Hk | Hk].
  - rewrite Z.leb_le, Z.pow_add_r by lia.
    assert (HP : 0 < 2 ^ N) by (apply Z.pow_pos_nonneg; lia).
    rewrite (Z.mul_le_mono_pos_r (b * 2 ^ k) a (2 ^ N) HP).
    now replace (b * 2 ^ k * 2 ^ N) with (b * (2 ^ N * 2 ^ k)) by ring.
  - rewrite Z.leb_le.
    assert (HP : 0 < 2 ^ (N + k)) by (apply Z.pow_pos_nonneg; lia).
    replace (2 ^ N) with (2 ^ (- k) * 2 ^ (N + k))
      by (rewrite <- Z.pow_add_r by lia; f_equal; lia).
    rewrite (Z.mul_le_mono_pos_r b (a * 2 ^ (- k)) (2 ^ (N + k)) HP).
    now replace (a * 2 ^ (- k) * 2 ^ (N + k))
      with (a * (2 ^ (- k) * 2 ^ (N + k))) by ring.
Qed.

Lemma magnitude_spec (a b : Z) :
  0 < a -> 0 < b ->
  Binary64.reaches a b (Binary64.magnitude a b) = true
  /\ Binary64.reaches a b (Binary64.magnitude a b + 1) = false.
Proof.
  intros Ha Hb.
  pose proof (Z.log2_spec a Ha) as [Hal Hau].
  pose proof (Z.log2_spec b Hb) as [Hbl Hbu].
  pose proof (Z.log2_nonneg a) as Hla.
  pose proof (Z.log2_nonneg b) as Hlb.
  assert (Hpa : 0 < 2 ^ Z.log2 a) by (apply Z.pow_pos_nonneg; lia).
  assert (Hpb : 0 < 2 ^ Z.log2 b) by (apply Z.pow_pos_nonneg; lia).
  rewrite Z.pow_succ_r in Hau, Hbu by lia.
  assert (Hlow : Binary64.reaches a b (Z.log2 a - Z.log2 b - 1) = true).
  { apply (reaches_iff a b _ (Z.log2 b + 1)); try lia.
    replace (Z.log2 b + 1 + (Z.log2 a - Z.log2 b - 1)) with (Z.log2 a) by lia.
    rewrite Z.pow_add_r, Z.pow_1_r by lia.
    nia. }
  assert (Hhigh : Binary64.reaches a b (Z.log2 a - Z.log2 b + 1) = false).
  { apply Bool.not_true_is_false; intros Hreach.
    apply (reaches_iff a b _ (Z.log2 b)) in Hreach; try lia.
    replace (Z.log2 b + (Z.log2 a - Z.log2 b + 1)) with (Z.log2 a + 1)
      in Hreach by lia.
    rewrite Z.pow_add_r, Z.pow_1_r in Hreach by lia.
    nia. }
  unfold Binary64.magnitude; cbn zeta.
  destruct (Binary64.reaches a b (Z.log2 a - Z.log2 b)) eqn:Hmid.
  - split; [exact Hmid | exact Hhigh].
  - split; [exact Hlow |].
    now replace (Z.log2 a - Z.log2 b - 1 + 1) with (Z.log2 a - Z.log2 b) by lia.
Qed.

Lemma nearest_even_bounds (n d : Z) :
  0 <= n -> 0 < d ->
  0 <= Binary64.nearest_even n d
  /\ 2 * d * Binary64.nearest_even n d <= 2 * n + d.
Proof.
  intros Hn Hd; unfold Binary64.nearest_even; cbn zeta.
  pose proof (Z.div_mod n d ltac:(lia)) as Hdiv.
  pose proof (Z.mod_pos_bound n d Hd) as Hmod.
  assert (Hf : 0 <= n / d) by (apply Z.div_pos; lia).
  destruct (Z.compare_spec (2 * (n mod d)) d) as [Heq | Hlt | Hgt].
  - destruct (Z.even (n / d)); split; nia.
  - split; nia.
  - split; nia.
Qed.

Lemma magnitude_below (a b n : Z) :
  0 < a -> 0 < b -> 0 <= n -> a < b * 2 ^ n -> Binary64.magnitude a b < n.
Proof.
  intros Ha Hb Hn Hbelow.
  destruct (magnitude_spec a b Ha Hb) as [Hreach _].
  destruct (Z.lt_ge_cases (Binary64.magnitude a b) n) as [Hlt | Hge];
    [exact Hlt | exfalso].
  apply (reaches_iff a b _ 0) in Hreach; try lia.
  rewrite Z.add_0_l, Z.pow_0_r, Z.mul_1_r in Hreach.
  assert (Hpow : 2 ^ n <= 2 ^ Binary64.magnitude a b)
    by (apply Z.pow_le_mono_r; lia).
  nia.
Qed.

(** Below [2 ^ 30] the last place of a binary64 number is at most
    [2 ^ -23]. *)
Lemma exponent_below (a b : Z) :
  0 < a -> 0 < b -> a < b * 2 ^ 30 -> Binary64.exponent a b <= -23.
Proof.
  intros Ha Hb Hbelow; unfold Binary64.exponent.
  pose proof (magnitude_below a b 30 Ha Hb ltac:(lia) Hbelow).
  lia.
Qed.

(** The product of a number up to [1 - 2 ^ -53] and [1e9], rounded to
    binary64, is still below [1e9]: the rounding error is at most
    [2 ^ -24], less than the distance [1e9 * 2 ^ -53] to [1e9]. *)
Lemma round_positive_below (a b : Z) :
  0 < a -> 0 < b ->
  a * 2 ^ 53 <= (2 ^ 53 - 1) * 1000000000 * b ->
  0 <= Qfloor (Binary64.round_positive a b) < 1000000000.
Proof.
  intros Ha Hb Htop.
  change (2 ^ 53) with 9007199254740992 in Htop.
  assert (Hbelow : a < b * 2 ^ 30)
    by (change (2 ^ 30) with 1073741824; nia).
  pose proof (exponent_below a b Ha Hb Hbelow) as He.
  unfold Binary64.round_positive; cbn zeta.
  set (e := Binary64.exponent a b) in *.
  unfold Binary64.scale, Binary64.significand.
  destruct (Z.leb_spec 0 e) as [Hpos | _]; [lia |].
  assert (Hgrid : 2 ^ 23 <= 2 ^ (- e)) by (apply Z.pow_le_mono_r; lia).
  change (2 ^ 23) with 8388608 in Hgrid.
  set (P := 2 ^ (- e)) in *.
  destruct (nearest_even_bounds (a * P) b ltac:(nia) Hb) as [Hm0 Hm].
  set (m := Binary64.nearest_even (a * P) b) in *.
  unfold Qfloor; rewrite Z2Pos.id by lia.
  split; [apply Z.div_pos; lia |].
  apply Z.div_lt_upper_bound; [lia |].
  destruct (Z.lt_ge_cases m (P * 1000000000)) as [Hlt | Hge];
    [exact Hlt | exfalso].
  assert (H1 : 2 * b * (P * 1000000000) <= 2 * b * m)
    by (apply Z.mul_le_mono_nonneg_l; lia).
  assert (H2 : 2 * b * (P * 1000000000) * 9007199254740992
               <= (2 * (a * P) + b) * 9007199254740992)
    by (apply Z.mul_le_mono_nonneg_r; lia).
  assert (H3 : 2 * P * (a * 9007199254740992)
               <= 2 * P * ((9007199254740992 - 1) * 1000000000 * b))
    by (apply Z.mul_le_mono_nonneg_l; lia).
  assert (H4 : 8388608 * b <= P * b)
    by (apply Z.mul_le_mono_nonneg_r; lia).
  nia.
Qed.

(** A binary64 number below 1 is at most [1 - 2 ^ -53]. *)
Lemma representable_below_one (a b : Z) :
  0 < a -> a < b ->
  (Binary64.round_positive a b == a # Z.to_pos b)%Q ->
  a * 2 ^ 53 <= (2 ^ 53 - 1) * b.
Proof.
  intros Ha Hab Hsame.
  assert (Hb : 0 < b) by lia.
  destruct (magnitude_spec a b Ha Hb) as [_ Hup].
  pose proof (magnitude_below a b 0 Ha Hb ltac:(lia) ltac:(rewrite Z.pow_0_r; lia))
    as Hk.
  change (2 ^ 53) with 9007199254740992.
  destruct (Z.eq_dec (Binary64.magnitude a b) (-1)) as [Hone | Hless].
  - unfold Binary64.round_positive, Binary64.exponent in Hsame.
    rewrite Hone in Hsame; cbn zeta in Hsame.
    change (Z.max (-1 - 52) (-1074)) with (-53) in Hsame.
    unfold Binary64.scale, Binary64.significand in Hsame.
    change (0 <=? -53)%Z with false in Hsame; cbn iota in Hsame.
    change (2 ^ (- -53)) with 9007199254740992 in Hsame.
    set (m := Binary64.nearest_even (a * 9007199254740992) b) in *.
    unfold Qeq in Hsame; cbn [Qnum Qden] in Hsame.
    rewrite Z2Pos.id in Hsame by lia.
    change (Z.pos (Z.to_pos 9007199254740992)) with 9007199254740992 in Hsame.
    assert (Hm : m < 9007199254740992) by nia.
    nia.
  - unfold Binary64.reaches in Hup.
    destruct (Z.leb_spec 0 (Binary64.magnitude a b + 1)) as [Hpos | _];
      [lia |].
    apply Z.leb_gt in Hup.
    assert (Hpow : 2 ^ 1 <= 2 ^ (- (Binary64.magnitude a b + 1)))
      by (apply Z.pow_le_mono_r; lia).
    rewrite Z.pow_1_r in Hpow.
    nia.
Qed.

(** X24. When [Math.random()] returns a binary64 number from 0 up to, but
    not including, 1, the identifier [generateRandId] makes of it is an
    integer from 0 to 999999999: the binary64 product with [1e9] may round
    up, but never as far as [1e9].  The call consumes one random number and
    changes no field of the device; the constructor makes the [configId] of a
    device built without one in the same way. *)
Theorem generateRandId_in_range (s : IMeshDevice.t) :
  Binary64.representable (Math_random (IMeshDevice.randomCalls s)) = true ->
  (0 <= Math_random (IMeshDevice.randomCalls s))%Q ->
  (Math_random (IMeshDevice.randomCalls s) < 1)%Q ->
  let r := IMeshDevice.generateRandId s in
  exists id,
    result r = Some id
    /\ (0 <= id < 1000000000)%Z
    /\ trace r = []
    /\ final r = IMeshDevice.set_randomCalls (S (IMeshDevice.randomCalls s)) s
    /\ IMeshDevice.configId (IMeshDevice.new None (IMeshDevice.randomCalls s))
       = id.
Proof.
  intros Hdouble Hlow Hhigh r; subst r; rewrite generateRandId_run.
  exists (IMeshDevice.randId (IMeshDevice.randomCalls s)).
  split; [reflexivity |].
  split; [| now repeat split].
  unfold IMeshDevice.randId.
  unfold Binary64.representable in Hdouble.
  apply Qeq_bool_iff in Hdouble.
  destruct (Math_random (IMeshDevice.randomCalls s)) as [a b].
  unfold Qle in Hlow; unfold Qlt in Hhigh; cbn [Qnum Qden] in Hlow, Hhigh.
  unfold Binary64.round in *; cbn [Qnum Qden Qmult] in *.
  destruct a as [| a | a]; [cbn; lia | | lia].
  change (Z.pos a * 1000000000)%Z with (Z.pos (a * 1000000000)).
  cbn iota.
  assert (Htop : (Z.pos a * 2 ^ 53 <= (2 ^ 53 - 1) * Z.pos b)%Z).
  { apply representable_below_one; [lia | lia |].
    now rewrite Pos2Z.id. }
  rewrite Pos.mul_1_r.
  apply round_positive_below; [lia | lia |].
  rewrite Pos2Z.inj_mul.
  change (2 ^ 53)%Z with 9007199254740992%Z in *.
  nia.
Qed.

(** X25. The numbers of [PortNumEnum] identify its members: the reverse
    mapping of a member's number is that member, a number has a member only
    when it is that member's number, and every number lies between those of
    [UNKNOWN_APP] and [MAX]. *)
Theorem PortNumEnum_reverse_mapping (p : PortNumEnum.t) (n : Z) :
  PortNumEnum.member (PortNumEnum.value p) = Some p
  /\ (PortNumEnum.member n = Some p <-> PortNumEnum.value p = n)
  /\ (PortNumEnum.value PortNumEnum.UNKNOWN_APP <= PortNumEnum.value p
      <= PortNumEnum.value PortNumEnum.MAX)%Z
  /\ In p PortNumEnum.members.
Proof.
  assert (Hround : PortNumEnum.member (PortNumEnum.value p) = Some p)
    by now destruct p.
  split; [exact Hround |].
  split.
  - split.
    + intros Hmember; unfold PortNumEnum.member in Hmember.
      apply find_some in Hmember; destruct Hmember as [_ Hvalue].
      now apply Z.eqb_eq.
    + intros <-; exact Hround.
  - split; [destruct p; cbn; lia |].
    destruct p; cbn; auto 20.
Qed.
End Further.

(** ** The properties on concrete devices *)

Section Examples.
#[local] Existing Instance Sample.schema.
#[local] Existing Instance Sample.codec.
#[local] Existing Instance Sample.environment.
#[local] Existing Instance SpecQueue.ops.

(** C3, on a frame of 513 bytes and on a frame of one byte. *)
Lemma sendRaw_frame_limit_witness :
  pushed (trace (IMeshDevice.sendRaw 5 Sample.oversized None
                   (Sample.device DEVICE_CONFIGURED []))) = []
  /\ written (trace (IMeshDevice.sendRaw 5 Sample.oversized None
                       (Sample.device DEVICE_CONFIGURED []))) = []
  /\ pushed (trace (IMeshDevice.sendRaw 5 [Byte.x01] None
                      (Sample.device DEVICE_CONFIGURED [])))
     = [{| IQueueItem.id := 5; IQueueItem.data := [Byte.x01];
           IQueueItem.callback := resolves; IQueueItem.waitingAck := false |}]
  /\ pushed (trace (IMeshDevice.sendRaw 6 [Byte.x02; Byte.x03]
                      (Some (application 1))
                      (Sample.device DEVICE_CONFIGURED [])))
     = [{| IQueueItem.id := 6; IQueueItem.data := [Byte.x02; Byte.x03];
           IQueueItem.callback := application 1;
           IQueueItem.waitingAck := false |}]
  /\ written (trace (IMeshDevice.sendRaw 6 [Byte.x02; Byte.x03]
                       (Some (application 1))
                       (Sample.device DEVICE_CONFIGURED [])))
     = [[Byte.x02; Byte.x03]].
Proof.
  split; [| split; [| split; [| split]]].
  - apply (proj1 (sendRaw_frame_limit 5 Sample.oversized None
                    (Sample.device DEVICE_CONFIGURED []))).
    vm_compute; lia.
  - apply (proj1 (sendRaw_frame_limit 5 Sample.oversized None
                    (Sample.device DEVICE_CONFIGURED []))).
    vm_compute; lia.
  - apply (proj2 (sendRaw_frame_limit 5 [Byte.x01] None
                    (Sample.device DEVICE_CONFIGURED []))).
    simpl; lia.
  - apply (proj2 (sendRaw_frame_limit 6 [Byte.x02; Byte.x03]
                    (Some (application 1))
                    (Sample.device DEVICE_CONFIGURED []))).
    simpl; lia.
  - apply (proj2 (sendRaw_frame_limit 6 [Byte.x02; Byte.x03]
                    (Some (application 1))
                    (Sample.device DEVICE_CONFIGURED []))).
    simpl; lia.
Defined.

(** C6 as stated fails: the echo of a sent text has request id 0, and that
    id is handed to [queue.processAck] all the same, where it acknowledges the
    pending want-config request. *)
Lemma zero_request_id_is_acknowledged :
  let d := Sample.device DEVICE_CONFIGURING [Sample.wantConfig_item] in
  let r := IMeshDevice.handleMeshPacket (Sample.reply 0) d in
  In (QueueProcessAck 0) (trace r)
  /\ acked (trace r) = [0]
  /\ IMeshDevice.queue d = [Sample.wantConfig_item]
  /\ IMeshDevice.queue (final r) = [].
Proof. vm_compute; repeat split; auto 10. Qed.

(** C6 (amended), on a reply to request 7. *)
Lemma handleMeshPacket_acks_before_dispatch_witness :
  acked (trace (IMeshDevice.handleMeshPacket (Sample.reply 7)
                  (Sample.device DEVICE_CONFIGURED []))) = [7].
Proof.
  destruct (handleMeshPacket_acks_before_dispatch (Sample.reply 7) _
              (Sample.device DEVICE_CONFIGURED []) eq_refl)
    as (before & _ & _ & _ & Hacked).
  exact Hacked.
Defined.

(** C1 as stated fails: on a configured device with [configId] 42, where
    the next generated identifier would be 7, the "rebooted" notice generates
    no identifier; [configId] stays 42 and the scheduled want-config request
    carries 42. *)
Lemma rebooted_keeps_the_old_configId :
  let d := Sample.device DEVICE_CONFIGURED [] in
  let r := IMeshDevice.handleFromRadio Sample.rebooted_frame d in
  IMeshDevice.configId d = 42
  /\ IMeshDevice.randId (IMeshDevice.randomCalls d) = 7
  /\ IMeshDevice.randomCalls (final r) = IMeshDevice.randomCalls d
  /\ IMeshDevice.configId (final r) = 42
  /\ timers (trace r)
     = [(deferred_sendRaw 0 (ToRadio_toBinary (ToRadio.wantConfigId 42)), 500)].
Proof. vm_compute; repeat split. Qed.

(** C1 (amended), on that device, with the completion marker echoing 42
    arriving right after the timer's [sendRaw]. *)
Lemma rebooted_reruns_configure_witness :
  let d := Sample.device DEVICE_CONFIGURED [] in
  let r1 := IMeshDevice.handleFromRadio Sample.rebooted_frame d in
  let r2 :=
    IMeshDevice.run_deferred_sendRaw 0
      (ToRadio_toBinary (ToRadio.wantConfigId 42)) (final r1) in
  let r3 :=
    IMeshDevice.handleFromRadio (Sample.configComplete_frame 42) (final r2) in
  statuses (trace r1) = [DEVICE_CONFIGURING]
  /\ statuses (trace r3) = [DEVICE_CONFIGURED]
  /\ IMeshDevice.configId (final r3) = 42.
Proof.
  assert (Hlater :
            IMeshDevice.deviceStatus
              (final
                 (IMeshDevice.run_deferred_sendRaw 0
                    (ToRadio_toBinary (ToRadio.wantConfigId 42))
                    (final
                       (IMeshDevice.handleFromRadio Sample.rebooted_frame
                          (Sample.device DEVICE_CONFIGURED [])))))
            <> DEVICE_CONFIGURED)
    by (vm_compute; discriminate).
  destruct (rebooted_reruns_configure_with_same_configId
              (Cod := Sample.codec) (Que := SpecQueue.ops)
              Sample.rebooted_frame (Sample.configComplete_frame 42)
              Sample.rebooted_message (Sample.configComplete_message 42)
              true 42 (Sample.device DEVICE_CONFIGURED []) _
              eq_refl eq_refl eq_refl eq_refl eq_refl eq_refl
              Hlater eq_refl eq_refl)
    as (_ & H1 & _ & _ & _ & _ & _ & _ & _ & _ & _ & _ & H3 & _ & _ & Hid).
  split; [exact H1 | split; [exact H3 | exact Hid]].
Defined.


(** C5, on a completion marker echoing 43 where 42 is expected. *)
Lemma config_id_mismatch_witness :
  let d := Sample.device DEVICE_CONFIGURING [] in
  let r := IMeshDevice.handleFromRadio (Sample.configComplete_frame 43) d in
  let r' := IMeshDevice.handleFromRadio (Sample.configComplete_frame 42) d in
  43 <> IMeshDevice.configId d
  /\ In (Console iMeshDevice Emitter.handleFromRadio
           "Invalid config id reveived from device, exptected 42 but received 43"
           ERROR)
        (trace r)
  /\ final r = final r'
  /\ IMeshDevice.deviceStatus (final r) = DEVICE_CONFIGURED.
Proof.
  assert (Hne : 43 <> IMeshDevice.configId (Sample.device DEVICE_CONFIGURING []))
    by discriminate.
  destruct (config_id_mismatch_is_logged_not_fatal
              (Cod := Sample.codec) (Que := SpecQueue.ops)
              (Sample.configComplete_frame 43) (Sample.configComplete_frame 42)
              (Sample.configComplete_message 43)
              (Sample.configComplete_message 42)
              43 (Sample.device DEVICE_CONFIGURING [])
              eq_refl eq_refl Hne eq_refl eq_refl)
    as (rest & Htrace & _ & _ & _ & Hfinal & Hstatus).
  split; [exact Hne | split; [| split; [exact Hfinal | exact Hstatus]]].
  rewrite Htrace; right; left; reflexivity.
Defined.

(** C4 as stated fails: on a connection whose ping was rejected, so that no
    read loop was started, [disconnect] leaves the queued text in the queue
    and the subscriptions registered; a later reply to that text still gets
    its callback invoked and still raises the text event. *)
Lemma disconnect_without_read_loop_keeps_the_queue :
  let h := Sample.unreached in
  let r := IHTTPConnection.disconnect h in
  let later :=
    IMeshDevice.handleMeshPacket (Sample.reply 7)
      (IHTTPConnection.device (final r)) in
  IHTTPConnection.readLoop h = None
  /\ map IQueueItem.id (IMeshDevice.queue (IHTTPConnection.device h)) = [7]
  /\ map IQueueItem.id (IMeshDevice.queue (IHTTPConnection.device (final r)))
     = [7]
  /\ IMeshDevice.queue (IHTTPConnection.device (final r))
     <> Queue_clear (IMeshDevice.queue (IHTTPConnection.device h))
  /\ IMeshDevice.subscribed (IHTTPConnection.device (final r)) = true
  /\ In (Invoke (application 1) (Some 7)) (trace later)
  /\ texts (trace later) = [(Sample.reply 7, "ok"%string)].
Proof. vm_compute; repeat split; auto 10; discriminate. Qed.

(** C10 on a text of 600 characters: the frame is dropped with the warning,
    and the text event has fired with the text all the same. *)
Lemma sendText_oversized_still_echoes :
  let d := Sample.device DEVICE_CONFIGURED [] in
  let r := IMeshDevice.sendText Sample.long_text None false 0 None d in
  map snd (texts (trace r)) = [Sample.long_text]
  /\ heartbeats (trace r) = []
  /\ pushed (trace r) = []
  /\ written (trace r) = []
  /\ map fst (logged (trace r))
     = [(Emitter.sendText, DEBUG); (Emitter.sendPacket, TRACE);
        (Emitter.handleMeshPacket, TRACE); (Emitter.sendRaw, WARNING)].
Proof. vm_compute; repeat split. Qed.
End Examples.

(** ** The further properties on concrete devices *)

Section FurtherExamples.
#[local] Existing Instance Sample.schema.
#[local] Existing Instance Inbound.codec.
#[local] Existing Instance Inbound.environment.
#[local] Existing Instance SpecQueue.ops.

(** X1, on an admin packet whose payload is no admin message. *)
Lemma handleDataPacket_throws_witness :
  result (IMeshDevice.handleDataPacket Inbound.garbled Inbound.garbled_packet
            (Sample.device DEVICE_CONFIGURED [])) = None
  /\ published (trace (IMeshDevice.handleDataPacket Inbound.garbled
                         Inbound.garbled_packet
                         (Sample.device DEVICE_CONFIGURED []))) = [].
Proof.
  destruct (handleDataPacket_throws_iff_undecodable (Cod := Inbound.codec)
              Inbound.garbled Inbound.garbled_packet
              (Sample.device DEVICE_CONFIGURED []))
    as (Hthrows & Hsilent & _).
  split; [apply Hthrows; reflexivity | apply Hsilent; reflexivity].
Defined.

(** X2, on a packet for port 999. *)
Lemma handleDataPacket_unlisted_port_witness :
  levels (trace (IMeshDevice.handleDataPacket Inbound.unlisted
                   Inbound.garbled_packet
                   (Sample.device DEVICE_CONFIGURED []))) = [WARNING]
  /\ result (IMeshDevice.handleDataPacket Inbound.unlisted
               Inbound.garbled_packet
               (Sample.device DEVICE_CONFIGURED [])) = Some tt
  /\ published (trace (IMeshDevice.handleDataPacket Inbound.unlisted
                         Inbound.garbled_packet
                         (Sample.device DEVICE_CONFIGURED []))) = [].
Proof.
  destruct (handleDataPacket_one_entry_one_event (Cod := Inbound.codec)
              Inbound.unlisted Inbound.garbled_packet
              (Sample.device DEVICE_CONFIGURED []))
    as (Hlevels & _ & _ & Hunhandled).
  split; [exact Hlevels | exact (Hunhandled eq_refl)].
Defined.

(** X4, on an encrypted packet from node 2000. *)
Lemma handleMeshPacket_drops_encrypted_witness :
  acked (trace (IMeshDevice.handleMeshPacket Inbound.sealed
                  (Sample.device DEVICE_CONFIGURED [Sample.wantConfig_item])))
  = []
  /\ published (trace (IMeshDevice.handleMeshPacket Inbound.sealed
                         (Sample.device DEVICE_CONFIGURED
                            [Sample.wantConfig_item])))
     = [onMeshPacket Inbound.sealed; onMeshHeartbeat].
Proof.
  destruct (handleMeshPacket_drops_encrypted (Cod := Inbound.codec)
              Inbound.sealed [Byte.xff; Byte.x10]
              (Sample.device DEVICE_CONFIGURED [Sample.wantConfig_item])
              eq_refl)
    as (_ & _ & Hacked & _ & Hpublished).
  split; [exact Hacked | exact Hpublished].
Defined.

(** X5, on the frame of the garbled admin packet and on a frame that does
    not decode. *)
Lemma handleFromRadio_throws_witness :
  result (IMeshDevice.handleFromRadio [Byte.x05]
            (Sample.device DEVICE_CONFIGURED [])) = None
  /\ trace (IMeshDevice.handleFromRadio [Byte.x09]
              (Sample.device DEVICE_CONFIGURED [])) = [].
Proof.
  split.
  - exact (proj1 (handleFromRadio_throws_iff (Cod := Inbound.codec)
                    (Env := Inbound.environment) [Byte.x05]
                    (Sample.device DEVICE_CONFIGURED []))).
  - exact (proj1 (proj2 (handleFromRadio_throws_iff (Cod := Inbound.codec)
                           (Env := Inbound.environment) [Byte.x09]
                           (Sample.device DEVICE_CONFIGURED []))
                    eq_refl)).
Defined.

(** X6, on the frame of a text reply. *)
Lemma handleFromRadio_notifies_first_witness :
  fromRadios (trace (IMeshDevice.handleFromRadio [Byte.x01]
                       (Sample.device DEVICE_CONFIGURED [])))
  = [Inbound.text_message].
Proof.
  destruct (handleFromRadio_notifies_first (Cod := Inbound.codec)
              (Env := Inbound.environment) [Byte.x01] Inbound.text_message
              (Sample.device DEVICE_CONFIGURED []) eq_refl)
    as (_ & Honce).
  exact Honce.
Defined.


(** X8, on the frame that reports node 9. *)
Lemma handleFromRadio_nodeInfo_witness :
  published (trace (IMeshDevice.handleFromRadio [Byte.x04]
                      (Sample.device DEVICE_CONFIGURED [])))
  = [onFromRadio Inbound.nodeInfo_message;
     onNodeInfoPacket (MeshPacket.create_id 11) Inbound.neighbour;
     onUserPacket (MeshPacket.create_id_from 11 9) [Byte.x55]].
Proof.
  destruct (handleFromRadio_nodeInfo_fans_out (Cod := Inbound.codec)
              (Env := Inbound.environment) [Byte.x04] Inbound.nodeInfo_message
              Inbound.neighbour (Sample.device DEVICE_CONFIGURED [])
              eq_refl eq_refl)
    as (_ & _ & _ & Hpublished & _).
  exact Hpublished.
Defined.

(** X9, on a node info with firmware 1.0, which this runtime finds
    outdated. *)
Lemma handleFromRadio_myInfo_witness :
  levels (trace (IMeshDevice.handleFromRadio [Byte.x03] Inbound.fresh))
  = [CRITICAL; TRACE]
  /\ IMeshDevice.myNodeInfo
       (final (IMeshDevice.handleFromRadio [Byte.x03] Inbound.fresh))
     = Inbound.reported.
Proof.
  destruct (handleFromRadio_myInfo_stored_even_if_outdated
              (Cod := Inbound.codec) (Env := Inbound.environment)
              [Byte.x03] Inbound.myInfo_message Inbound.reported Inbound.fresh
              eq_refl eq_refl)
    as (_ & _ & Hlevels & Hstored & _).
  split; [exact Hlevels | exact Hstored].
Defined.

(** X13, with a callback on the sample device, and on a device that
    reports no channel. *)
Lemma getAllChannels_calls_back_witness :
  (exists body,
     trace (IMeshDevice.getAllChannels (Some (application 3))
              (Sample.device DEVICE_CONFIGURED []))
     = body ++ [Invoke (application 3) None])
  /\ pushed (trace (IMeshDevice.getAllChannels None Inbound.channelless)) = [].
Proof.
  split.
  - destruct (getAllChannels_calls_back_without_waiting (Cod := Inbound.codec)
                (Env := Inbound.environment) (Some (application 3))
                (Sample.device DEVICE_CONFIGURED []))
      as (_ & _ & _ & _ & _ & _ & Hlast & _).
    exact (Hlast (application 3) eq_refl).
  - destruct (getAllChannels_calls_back_without_waiting (Cod := Inbound.codec)
                (Env := Inbound.environment) None Inbound.channelless)
      as (_ & _ & _ & _ & _ & _ & _ & Hnone).
    apply Hnone; reflexivity.
Defined.

(** X14, on an admin packet whose payload is no admin message. *)
Lemma sendPacket_echo_throws_witness :
  result (IMeshDevice.sendPacket [Byte.x09] ADMIN_APP (Some 2000%Z) true 0
            false true None 0 None 0 (Sample.device DEVICE_CONFIGURED []))
  = None
  /\ pushed (trace (IMeshDevice.sendPacket [Byte.x09] ADMIN_APP (Some 2000%Z)
                      true 0 false true None 0 None 0
                      (Sample.device DEVICE_CONFIGURED []))) = []
  /\ result (IMeshDevice.sendPacket [Byte.x09] ADMIN_APP (Some 2000%Z) true 0
               false false None 0 None 0 (Sample.device DEVICE_CONFIGURED []))
     = Some tt.
Proof.
  destruct (sendPacket_echo_throws_before_sending (Cod := Inbound.codec)
              (Env := Inbound.environment) [Byte.x09] ADMIN_APP (Some 2000%Z)
              true 0 false None 0 None 0 (Sample.device DEVICE_CONFIGURED [])
              eq_refl)
    as (Hthrows & Hpushed & _ & _ & _ & _ & Hplain & _).
  split; [exact Hthrows | split; [exact Hpushed | exact Hplain]].
Defined.

(** X15, on a new device that is told of node 5 with channels 0 to 3. *)
Lemma handshake_uses_reported_node_info_witness :
  List.length
    (channelRequests
       (trace (IMeshDevice.handleFromRadio (Sample.configComplete_frame 42)
                 (final (IMeshDevice.handleFromRadio [Byte.x03] Inbound.fresh)))))
  = 4%nat
  /\ IMeshDevice.deviceStatus
       (final (IMeshDevice.handleFromRadio (Sample.configComplete_frame 42)
                 (final (IMeshDevice.handleFromRadio [Byte.x03] Inbound.fresh))))
     = DEVICE_CONFIGURED
  /\ IMeshDevice.myNodeInfo
       (final (IMeshDevice.handleFromRadio (Sample.configComplete_frame 42)
                 (final (IMeshDevice.handleFromRadio [Byte.x03] Inbound.fresh))))
     = Inbound.reported.
Proof.
  destruct (handshake_uses_reported_node_info (Cod := Inbound.codec)
              (Env := Inbound.environment) [Byte.x03]
              (Sample.configComplete_frame 42) Inbound.myInfo_message
              (Sample.configComplete_message 42) Inbound.reported 42
              Inbound.fresh eq_refl eq_refl eq_refl eq_refl eq_refl)
    as (Hcount & _ & Hstatus & Hinfo).
  split; [exact Hcount | split; [exact Hstatus | exact Hinfo]].
Defined.

(** X17, on a new connection. *)
Lemma connect_starts_witness :
  statuses (trace (IHTTPConnection.connect Sample.parameters None
                     Inbound.offline))
  = [DEVICE_CONNECTING; DEVICE_CONNECTED; DEVICE_CONFIGURING]
  /\ fetched (trace (IHTTPConnection.connect Sample.parameters None
                       Inbound.offline))
     = ["http://meshtastic.local/hotspot-detect.html"%string]
  /\ intervals (trace (IHTTPConnection.connect Sample.parameters None
                         Inbound.offline))
     = [readFromRadio_every 5000].
Proof.
  destruct (connect_starts_configuration_and_read_loop (Cod := Inbound.codec)
              Sample.parameters Inbound.offline
              eq_refl)
    as (_ & Hstatuses & Hfetched & _ & Hintervals & _).
  split; [exact Hstatuses | split; [exact Hfetched | exact Hintervals]].
Defined.

(** X18, on a new connection whose ping is rejected. *)
Lemma connect_retries_witness :
  statuses (trace (IHTTPConnection.connect Sample.parameters
                     (Some "Failed to fetch"%string) Inbound.offline))
  = [DEVICE_CONNECTING; DEVICE_RECONNECTING]
  /\ timers (trace (IHTTPConnection.connect Sample.parameters
                      (Some "Failed to fetch"%string) Inbound.offline))
     = [(deferred_connect Sample.parameters, 10000%Z)].
Proof.
  destruct (connect_retries_after_failed_ping (Cod := Inbound.codec)
              Sample.parameters
              "Failed to fetch"%string Inbound.offline eq_refl)
    as (_ & Hstatuses & _ & Htimers & _).
  split; [exact Hstatuses | exact Htimers].
Defined.

(** X19, on a connection that was connected, then disconnected. *)
Lemma connect_after_disconnect_witness :
  trace (IHTTPConnection.connect Sample.parameters None
           (final (IHTTPConnection.disconnect Inbound.online)))
  = [Emit (onDeviceStatus DEVICE_CONNECTING)]
  /\ IMeshDevice.deviceStatus
       (IHTTPConnection.device
          (final (IHTTPConnection.connect Sample.parameters None
                    (final (IHTTPConnection.disconnect Inbound.online)))))
     = DEVICE_DISCONNECTED.
Proof.
  destruct (connect_after_disconnect_does_nothing (Cod := Inbound.codec)
              Sample.parameters None
              (readFromRadio_every 5000) Inbound.online eq_refl eq_refl)
    as (_ & Htrace & Hstatus & _).
  split; [exact Htrace | exact Hstatus].
Defined.

(** X21, on the frame of a text reply to request 7. *)
Lemma handleFromRadio_packet_order_witness :
  acked (trace (IMeshDevice.handleFromRadio [Byte.x01]
                  (Sample.device DEVICE_CONFIGURED [])))
  = [7%Z]
  /\ published
       (trace (IMeshDevice.handleDataPacket
                 {| Data.payload := list_byte_of_string "ok";
                    Data.portnum := TEXT_MESSAGE_APP;
                    Data.wantResponse := false;
                    Data.location := None;
                    Data.emoji := 0;
                    Data.replyId := 0;
                    Data.dest := 0;
                    Data.requestId := 7;
                    Data.source := 0 |}
                 (Sample.reply 7)
                 (after_processAck 7 (Sample.device DEVICE_CONFIGURED []))))
     = [onTextPacket (Sample.reply 7) "ok"%string].
Proof.
  destruct (handleFromRadio_packet_dispatch_order (Cod := Inbound.codec)
              (Env := Inbound.environment) [Byte.x01] Inbound.text_message
              (Sample.reply 7) _ (Sample.device DEVICE_CONFIGURED [])
              eq_refl eq_refl eq_refl)
    as (_ & _ & Hacked & _ & Htext).
  split; [exact Hacked | exact (Htext eq_refl)].
Defined.

(** X22, on a device that was completed while disconnected. *)
Lemma updateDeviceStatus_after_complete_witness :
  statuses
    (trace (IMeshDevice.updateDeviceStatus DEVICE_CONNECTED
              (final (IMeshDevice.updateDeviceStatus DEVICE_CONNECTED
                        (final (IMeshDevice.complete
                                  (Sample.device DEVICE_DISCONNECTED [])))))))
  = [DEVICE_CONNECTED].
Proof.
  assert (Hdiffers : DEVICE_CONNECTED
                     <> IMeshDevice.deviceStatus
                          (Sample.device DEVICE_DISCONNECTED []))
    by discriminate.
  destruct (updateDeviceStatus_after_complete_repeats DEVICE_CONNECTED
              (Sample.device DEVICE_DISCONNECTED []) Hdiffers)
    as (_ & Hagain & _).
  exact Hagain.
Defined.

(** X23, on a configuring device with channels 0 to 2. *)
Lemma completion_marker_twice_witness :
  statuses
    (trace (IMeshDevice.handleFromRadio (Sample.configComplete_frame 42)
              (final (IMeshDevice.handleFromRadio
                        (Sample.configComplete_frame 42)
                        (Sample.device DEVICE_CONFIGURING [])))))
  = []
  /\ IMeshDevice.randomCalls
       (final (IMeshDevice.handleFromRadio (Sample.configComplete_frame 42)
                 (final (IMeshDevice.handleFromRadio
                           (Sample.configComplete_frame 42)
                           (Sample.device DEVICE_CONFIGURING [])))))
     = 6%nat.
Proof.
  destruct (completion_marker_twice_requests_again (Cod := Inbound.codec)
              (Env := Inbound.environment) (Sample.configComplete_frame 42)
              (Sample.configComplete_message 42) 42
              (Sample.device DEVICE_CONFIGURING []) eq_refl eq_refl eq_refl)
    as (_ & _ & Hstatuses & _ & Hdrawn & _).
  split; [exact Hstatuses | exact Hdrawn].
Defined.

(** X24, in a runtime whose random number is 0.009: the exact product
    with [1e9] lies just below 9000000, the binary64 product is 9000000. *)
Lemma generateRandId_in_range_witness :
  result (IMeshDevice.generateRandId (Env := Inbound.nine_thousandths)
            (Sample.device DEVICE_CONFIGURED []))
  = Some 9000000%Z
  /\ (0 <= 9000000 < 1000000000)%Z
  /\ Qfloor (@Math_random Inbound.nine_thousandths 0 * 1000000000)
     = 8999999%Z.
Proof.
  assert (Hdouble : Binary64.representable
                      (@Math_random Inbound.nine_thousandths
                         (IMeshDevice.randomCalls
                            (Sample.device DEVICE_CONFIGURED [])))
                    = true)
    by (vm_compute; reflexivity).
  assert (Hlow : (0 <= @Math_random Inbound.nine_thousandths
                         (IMeshDevice.randomCalls
                            (Sample.device DEVICE_CONFIGURED [])))%Q)
    by (vm_compute; discriminate).
  assert (Hhigh : (@Math_random Inbound.nine_thousandths
                     (IMeshDevice.randomCalls
                        (Sample.device DEVICE_CONFIGURED [])) < 1)%Q)
    by (vm_compute; reflexivity).
  destruct (generateRandId_in_range (Env := Inbound.nine_thousandths)
              (Sample.device DEVICE_CONFIGURED []) Hdouble Hlow Hhigh)
    as (id & Hresult & Hrange & _).
  assert (Hid : id = 9000000%Z)
    by (vm_compute in Hresult; now injection Hresult).
  rewrite Hid in Hresult, Hrange.
  split; [exact Hresult | split; [exact Hrange | vm_compute; reflexivity]].
Defined.
End FurtherExamples.
